(** * LocateYourPhoto: a shallow embedding of [main.py]

    The geotagging script matches the capture time of each photo against a GPX
    trace and writes the interpolated position into the photo's metadata.
    This file embeds the script's classes and functions as Rocq definitions and
    proves the properties the specification states about them.

    Conventions of the embedding:
    - a Python [float] is a primitive binary64 float ([PrimFloat.float]);
    - an aware [datetime] is the instant it denotes, counted in microseconds;
      a [timedelta] is a number of microseconds ([Z]);
    - a [dict] is a [gmap], a [list] a [list], [None] an [option];
    - an exception is a value of [result]; a [try]/[except] is a [match];
    - the world outside the process (files, [exiftool], [piexif], [gpxpy],
      the thread pool) is a state of type [World] with the operations of
      class [Tools]; reading leaves it as it is, writing returns the new one;
    - an object with mutable fields is a record, and a method returns the
      updated record next to its result. *)

From Stdlib Require Import ZArith Lia Bool List Floats String Ascii Permutation Sorted.
From Stdlib Require Uint63.
From stdpp Require Import gmap strings list.

Set Warnings "-register-all".

(** * Python values *)

(** ** Exceptions *)

Inductive exception :=
  | AttributeError | ValueError | OverflowError | RuntimeError | IndexError
  | FileNotFoundError | OSError (msg : string).

Inductive result (A : Type) :=
  | Ok (a : A)
  | Raise (e : exception).
Arguments Ok {A} a.
Arguments Raise {A} e.

(** ** Floats *)

Module PyFloat.

(** [float(z)] for an [int]: the conversion rounds to nearest, ties to even.
    Below [2^63] in magnitude it is the processor's integer conversion; above,
    the rounding of the specification. *)
Definition Z2float (z : Z) : float :=
  match z with
  | Z0 => 0%float
  | Zpos p =>
      if (z <? 2 ^ 63)%Z then of_uint63 (Uint63.of_Z z)
      else SF2Prim (binary_normalize prec emax z 0 false)
  | Zneg p =>
      if (Zpos p <? 2 ^ 63)%Z then (- of_uint63 (Uint63.of_Z (Zpos p)))%float
      else SF2Prim (binary_normalize prec emax z 0 false)
  end.

(** [a / b] for two [int]s, the divisor positive: the quotient of the two
    integers, rounded once, to nearest, ties to even.  (Where the quotient
    is beyond the floats Python raises [OverflowError]; the divisions of
    this program stay far below.) *)
Definition truediv (a : Z) (b : positive) : float :=
  match a with
  | Z0 => 0%float
  | Zpos p => SF2Prim (SFdiv prec emax (S754_finite false p 0) (S754_finite false b 0))
  | Zneg p => SF2Prim (SFdiv prec emax (S754_finite true p 0) (S754_finite false b 0))
  end.

(** [int(x)]: truncation towards zero; [ValueError] on NaN, [OverflowError]
    on an infinity. *)
Definition int_of_float (x : float) : result Z :=
  match Prim2SF x with
  | S754_zero _ => Ok 0%Z
  | S754_finite s m e =>
      Ok (cond_Zopp s (if (0 <=? e)%Z then Z.shiftl (Zpos m) e
                       else Z.shiftr (Zpos m) (- e)))
  | S754_infinity _ => Raise OverflowError
  | S754_nan => Raise ValueError
  end.

(** [bool(x)]: a float is falsy exactly when it compares equal to zero. *)
Definition truthy (x : float) : bool := negb (x =? 0)%float.

(** [min(a, b)] keeps [a] unless [b < a]; [max(a, b)] keeps [a] unless
    [b > a]. *)
Definition min (a b : float) : float := if (b <? a)%float then b else a.
Definition max (a b : float) : float := if (a <? b)%float then b else a.

(** What the script can tell of the interpreter it runs on: from CPython
    3.12 on, [sum] compensates the rounding errors of a sum of floats. *)
Class Interpreter := mk_Interpreter {
  sum_compensated : bool
}.

(** One step of the compensated sum (Neumaier's): the running total and the
    compensation, after adding [x]. *)
Definition sum_step (acc : float * float) (x : float) : float * float :=
  let '(f_result, c) := acc in
  let t := (f_result + x)%float in
  let c :=
    if (abs x <=? abs f_result)%float then (c + ((f_result - t) + x))%float
    else (c + ((x - t) + f_result))%float in
  (t, c).

(** [sum(l)] for a list of floats, starting from the [int] [0].  Before
    CPython 3.12 the items are added from the left.  From 3.12 on the first
    item is added to the start value, the others with compensation, and the
    compensation is added at the end when it is finite and not zero. *)
Definition sum `{Interpreter} (l : list float) : float :=
  if sum_compensated then
    match l with
    | [] => 0%float
    | x :: rest =>
        let '(f_result, c) := fold_left sum_step rest ((0 + x)%float, 0%float) in
        if truthy c && is_finite c then (f_result + c)%float else f_result
    end
  else fold_left PrimFloat.add l 0%float.

End PyFloat.

(** ** Instants and durations *)

(** An aware [datetime], as the number of microseconds between the instant it
    denotes and 0001-01-01T00:00:00 UTC.  Every instant a [datetime] can
    denote (years 1 to 9999, any UTC offset) is below [2^62] in magnitude. *)
Record datetime := mk_datetime {
  micros : Z;
  micros_range : (Z.abs micros <? 2 ^ 62)%Z = true
}.

(** A [timedelta], in microseconds. *)
Definition timedelta := Z.

Module Datetime.

(** [a <= b], [a < b] and [a - b] on aware datetimes. *)
Definition leb (a b : datetime) : bool := (micros a <=? micros b)%Z.
Definition ltb (a b : datetime) : bool := (micros a <? micros b)%Z.
Definition sub (a b : datetime) : timedelta := (micros a - micros b)%Z.

(** [td.total_seconds()]: the microseconds divided by [10**6], two integers
    divided with one rounding. *)
Definition total_seconds (td : timedelta) : float :=
  PyFloat.truediv td 1000000.

(** The last microsecond of [datetime.max], 9999-12-31T23:59:59.999999. *)
Definition max_micros : Z := 315537897599999999.

(** [dt - td] for a UTC datetime: [OverflowError] outside
    [datetime.min .. datetime.max]. *)
Definition sub_timedelta (dt : datetime) (td : timedelta) : result datetime :=
  let r := (micros dt - td)%Z in
  match bool_decide ((Z.abs r <? 2 ^ 62)%Z = true) as b
        return (bool_decide ((Z.abs r <? 2 ^ 62)%Z = true) = b -> result datetime) with
  | true => fun H =>
      if ((0 <=? r) && (r <=? max_micros))%Z
      then Ok (mk_datetime r (bool_decide_eq_true_1 _ H))
      else Raise OverflowError
  | false => fun _ => Raise OverflowError
  end eq_refl.

End Datetime.

(** ** Strings and paths *)

Module PyStr.

Definition lower_ascii (c : ascii) : ascii :=
  let n := nat_of_ascii c in
  if (65 <=? n) && (n <=? 90) then ascii_of_nat (n + 32) else c.

Definition upper_ascii (c : ascii) : ascii :=
  let n := nat_of_ascii c in
  if (97 <=? n) && (n <=? 122) then ascii_of_nat (n - 32) else c.

(** [s.lower()] and [s.upper()], on the ASCII letters. *)
Fixpoint lower (s : string) : string :=
  match s with
  | EmptyString => EmptyString
  | String c s' => String (lower_ascii c) (lower s')
  end.

Fixpoint upper (s : string) : string :=
  match s with
  | EmptyString => EmptyString
  | String c s' => String (upper_ascii c) (upper s')
  end.

(** [s.endswith(suf)]. *)
Definition endswith (s suf : string) : bool :=
  let n := String.length s in
  let k := String.length suf in
  (k <=? n) && String.eqb (String.substring (n - k) k s) suf.

(** [s.rfind('.')], [None] standing for [-1]. *)
Fixpoint rfind_dot (s : string) : option nat :=
  match s with
  | EmptyString => None
  | String c s' =>
      match rfind_dot s' with
      | Some i => Some (S i)
      | None => if Ascii.eqb c "."%char then Some 0 else None
      end
  end.

(** [s.split(".")[0]]: the text before the first dot. *)
Fixpoint before_dot (s : string) : string :=
  match s with
  | EmptyString => EmptyString
  | String c s' => if Ascii.eqb c "."%char then EmptyString else String c (before_dot s')
  end.

End PyStr.

(** A [pathlib.Path], as the list of its parts. *)
Definition Path := list string.

Module PyPath.

(** [p.name]: the last part. *)
Definition name (p : Path) : string := List.last p EmptyString.

(** [p.suffix]: the name from its last dot on, when that dot is neither the
    first nor the last character. *)
Definition suffix (p : Path) : string :=
  let nm := name p in
  match PyStr.rfind_dot nm with
  | Some i =>
      if (0 <? i) && (i <? String.length nm - 1)
      then String.substring i (String.length nm - i) nm
      else EmptyString
  | None => EmptyString
  end.

(** [p < q]: the parts compared in order, each as a string. *)
Fixpoint ltb (p q : Path) : bool :=
  match p, q with
  | _, [] => false
  | [], _ :: _ => true
  | a :: p', b :: q' =>
      match String.compare a b with
      | Lt => true
      | Gt => false
      | Eq => ltb p' q'
      end
  end.

(** A glob pattern of the form [*suffix], the only form the script builds,
    matched against a name the way a POSIX file system is globbed: letter
    case counts. *)
Definition fnmatch (nm pattern : string) : bool :=
  match pattern with
  | String "*"%char suf => PyStr.endswith nm suf
  | _ => String.eqb nm pattern
  end.

End PyPath.

(** ** Sorting *)

(** [list.sort] and [sorted] are stable: items that compare equal keep their
    order.  A stable sort has one possible result, the one insertion from the
    right computes. *)
Section Sorting.
Context {A : Type} (lt : A -> A -> bool).

Fixpoint sorted_insert (x : A) (l : list A) : list A :=
  match l with
  | [] => [x]
  | y :: l' => if lt y x then y :: sorted_insert x l' else x :: l
  end.

Fixpoint sorted (l : list A) : list A :=
  match l with
  | [] => []
  | x :: l' => sorted_insert x (sorted l')
  end.

End Sorting.

(** * [GPSTrackPoint] *)

Record GPSTrackPoint := mk_GPSTrackPoint {
  timestamp : datetime;
  latitude : float;
  longitude : float;
  elevation : option float
}.

(** The order [key=lambda p: p.timestamp] sorts by. *)
Definition timestamp_lt (p q : GPSTrackPoint) : bool :=
  Datetime.ltb (timestamp p) (timestamp q).

(** The trace as ordered by [parse]: timestamps ascending, equal ones allowed. *)
Definition time_sorted (l : list GPSTrackPoint) : Prop :=
  forall i j p q, l !! i = Some p -> l !! j = Some q -> i <= j ->
    (micros (timestamp p) <= micros (timestamp q))%Z.

(** * The world outside the process *)

(** A point as [gpxpy] hands it over: [time] is [None] when the GPX element
    has none. *)
Record gpx_point := mk_gpx_point {
  point_time : option datetime;
  point_latitude : float;
  point_longitude : float;
  point_elevation : option float
}.

(** A parsed GPX document: tracks, their segments, their points. *)
Definition gpx_document := list (list (list gpx_point)).

(** A value decoded from JSON by [json.loads]; [JNull] is [None]. *)
Inductive json :=
  | JNull
  | JBool (b : bool)
  | JInt (z : Z)
  | JFloat (x : float)
  | JStr (s : string)
  | JList (l : list json).

(** A value of an EXIF tag in a [piexif] dictionary. *)
Inductive exif_value :=
  | EBytes (s : string)
  | EStr (s : string)
  | EInt (z : Z)
  | ERational (num den : Z)
  | ERationals (l : list (Z * Z)).

(** One IFD of a [piexif] dictionary, tag number to value, and the dictionary
    itself, IFD name to IFD. *)
Abbreviation exif_ifd := (gmap Z exif_value).
Abbreviation exif_dict := (gmap string exif_ifd).

(** The record [exiftool -j] prints for a file, tag name to value. *)
Abbreviation exiftool_info := (gmap string json).

(** What [subprocess.run(["exiftool", "-j", "-G", "-n", path])] comes to:
    the executable is missing, the call fails otherwise, or the tool ends
    with an exit code and a standard output that [json.loads] turns into a
    list of records ([None]: [JSONDecodeError]). *)
Inductive exiftool_run :=
  | ToolMissing
  | ToolError (e : exception)
  | ToolExit (returncode : Z) (stdout : option (list exiftool_info)).

(** An argument on the command line of the [exiftool] that writes. *)
Inductive exiftool_arg :=
  | ArgOverwriteOriginal
  | ArgGPSLatitude (x : float)
  | ArgGPSLatitudeRef (r : string)
  | ArgGPSLongitude (x : float)
  | ArgGPSLongitudeRef (r : string)
  | ArgGPSAltitude (x : float)
  | ArgGPSAltitudeRef (r : Z)
  | ArgFile (p : Path).

(** The operations of the interpreter, the libraries and the programs the
    script calls. *)
Class Tools (World : Type) := {
  interpreter :: PyFloat.Interpreter;
  (** [gpxpy.parse(open(gpx_file))] *)
  gpxpy_parse : Path -> World -> result gpx_document;
  (** the entries [directory.glob] ([recursive = false]: the directory's own)
      or [directory.rglob] ([true]: all below it) walks, as full paths *)
  scandir : Path -> bool -> World -> list Path;
  (** [exiftool -j -G -n path] *)
  exiftool_read : Path -> World -> exiftool_run;
  (** [subprocess.run(cmd)] for the writing [exiftool]: the exit code *)
  exiftool_write : list exiftool_arg -> World -> result Z * World;
  (** [piexif.load(path)] *)
  piexif_load : Path -> World -> result exif_dict;
  (** [piexif.insert(piexif.dump(exif_dict), path)] *)
  piexif_insert : exif_dict -> Path -> World -> result unit * World;
  (** [datetime.strptime(s, "%Y:%m:%d %H:%M:%S").replace(tzinfo=utc)];
      [None]: [ValueError] *)
  strptime : string -> option datetime;
  (** [timedelta(seconds=x)] *)
  timedelta_seconds : float -> result timedelta;
  (** [str(v)] *)
  py_str : json -> string;
  (** [os.cpu_count()] *)
  cpu_count : World -> option Z;
  (** the order in which the pool's workers complete: some order of the
      photos submitted *)
  as_completed : list Path -> World -> list Path;
  as_completed_perm : forall l w, Permutation (as_completed l w) l
}.

(** [piexif]'s tag numbers, those of the EXIF standard. *)
Module piexif.
Definition GPSLatitudeRef : Z := 1.
Definition GPSLatitude : Z := 2.
Definition GPSLongitudeRef : Z := 3.
Definition GPSLongitude : Z := 4.
Definition GPSAltitudeRef : Z := 5.
Definition GPSAltitude : Z := 6.
Definition DateTime : Z := 306.
Definition DateTimeOriginal : Z := 36867.
End piexif.

(** * [GPXParser] *)

Module GPXParser.

Record t := mk {
  gpx_file : Path;
  trackpoints : list GPSTrackPoint
}.

(** [GPXParser(gpx_file)] *)
Definition init (gpx_file : Path) : t := mk gpx_file [].

(** The loop over tracks, segments and points: each point becomes a
    trackpoint; a point without time raises [AttributeError] at
    [timestamp.tzinfo]. *)
Fixpoint collect (points : list gpx_point) (acc : list GPSTrackPoint)
  : result (list GPSTrackPoint) :=
  match points with
  | [] => Ok acc
  | point :: rest =>
      match point_time point with
      | None => Raise AttributeError
      | Some timestamp =>
          let trackpoint :=
            mk_GPSTrackPoint timestamp (point_latitude point)
                             (point_longitude point) (point_elevation point) in
          collect rest (acc ++ [trackpoint])
      end
  end.

Definition parse `{Tools World} (self : t) (w : World)
  : result (list GPSTrackPoint * t) :=
  match gpxpy_parse (gpx_file self) w with
  | Raise e => Raise e
  | Ok gpx =>
      match collect (concat (concat gpx)) (trackpoints self) with
      | Raise e => Raise e
      | Ok points =>
          let points := sorted timestamp_lt points in
          Ok (points, mk (gpx_file self) points)
      end
  end.

(** The loop [for i in range(1, len(self.trackpoints))] of
    [calculate_average_interval], from index [i] on. *)
Fixpoint intervals_from (tps : list GPSTrackPoint) (indices : list nat)
    (intervals : list float) : list float :=
  match indices with
  | [] => intervals
  | i :: rest =>
      match tps !! i, tps !! (i - 1) with
      | Some cur, Some prev =>
          let delta :=
            Datetime.total_seconds (Datetime.sub (timestamp cur) (timestamp prev)) in
          if (0 <? delta)%float then intervals_from tps rest (intervals ++ [delta])
          else intervals_from tps rest intervals
      | _, _ => intervals_from tps rest intervals
      end
  end.

Definition calculate_average_interval `{PyFloat.Interpreter} (self : t)
  : float :=
  if length (trackpoints self) <? 2 then 300%float
  else
    let intervals :=
      intervals_from (trackpoints self)
                     (seq 1 (length (trackpoints self) - 1)) [] in
    match intervals with
    | [] => 300%float
    | _ :: _ =>
        (PyFloat.sum intervals / PyFloat.Z2float (Z.of_nat (length intervals)))%float
    end.

End GPXParser.

(** * [GPSMatcher] *)

Module GPSMatcher.

Record t := mk {
  trackpoints : list GPSTrackPoint;
  max_time_diff : float;
  force_interpolate : bool
}.

(** What [find_gps_for_photo] returns: latitude, longitude, elevation. *)
Definition position := (float * float * option float)%type.

(** The search loop: [before] is the last point seen with
    [point.timestamp <= photo_time]; the first point with a later timestamp
    becomes [after] and ends the loop. *)
Fixpoint scan (points : list GPSTrackPoint) (photo_time : datetime)
    (before : option GPSTrackPoint)
  : option GPSTrackPoint * option GPSTrackPoint :=
  match points with
  | [] => (before, None)
  | point :: rest =>
      if Datetime.leb (timestamp point) photo_time
      then scan rest photo_time (Some point)
      else (before, Some point)
  end.

Definition find_gps_for_photo (self : t) (photo_time : datetime)
  : option position :=
  match trackpoints self with
  | [] => None
  | first :: _ =>
      let last := List.last (trackpoints self) first in
      match scan (trackpoints self) photo_time None with
      | (None, _) =>
          (* the photo is before the first trackpoint *)
          let time_diff :=
            Datetime.total_seconds (Datetime.sub (timestamp first) photo_time) in
          if force_interpolate self || (time_diff <=? max_time_diff self)%float
          then Some (latitude first, longitude first, elevation first)
          else None
      | (Some before, None) =>
          (* the photo is after the last trackpoint *)
          let time_diff :=
            Datetime.total_seconds (Datetime.sub photo_time (timestamp last)) in
          if force_interpolate self || (time_diff <=? max_time_diff self)%float
          then Some (latitude last, longitude last, elevation last)
          else None
      | (Some before, Some after) =>
          let time_diff_before :=
            Datetime.total_seconds (Datetime.sub photo_time (timestamp before)) in
          let time_diff_after :=
            Datetime.total_seconds (Datetime.sub (timestamp after) photo_time) in
          if negb (force_interpolate self)
             && (max_time_diff self <? PyFloat.min time_diff_before time_diff_after)%float
          then None
          else
            let total_time :=
              Datetime.total_seconds
                (Datetime.sub (timestamp after) (timestamp before)) in
            if (total_time =? 0)%float
            then Some (latitude before, longitude before, elevation before)
            else
              let ratio := (time_diff_before / total_time)%float in
              let lat :=
                (latitude before + (latitude after - latitude before) * ratio)%float in
              let lon :=
                (longitude before + (longitude after - longitude before) * ratio)%float in
              let ele :=
                match elevation before, elevation after with
                | Some eb, Some ea => Some (eb + (ea - eb) * ratio)%float
                | _, _ => None
                end in
              Some (lat, lon, ele)
      end
  end.

End GPSMatcher.

(** * [PhotoProcessor] *)

#[global] Instance result_ret : MRet result := @Ok.
#[global] Instance result_bind : MBind result := fun A B k r =>
  match r with
  | Ok a => k a
  | Raise e => Raise e
  end.

Module PhotoProcessor.

Definition SUPPORTED_EXTENSIONS : list string :=
  [ ".jpg"; ".jpeg";
    ".arw"; ".nef"; ".cr2"; ".dng"; ".orf"; ".rw2"; ".raf"; ".raw";
    ".avif"; ".heic"; ".heif"; ".webp";
    ".tiff"; ".tif"; ".png" ]%string.

(** The object: the two last fields are the lazy metadata caches. *)
Record t := mk {
  photo_path : Path;
  is_raw : bool;
  time_offset_seconds : float;
  _raw_info : option exiftool_info;
  _jpeg_exif_dict : option exif_dict
}.

Definition set_raw_info (self : t) (v : option exiftool_info) : t :=
  mk (photo_path self) (is_raw self) (time_offset_seconds self) v (_jpeg_exif_dict self).

Definition set_jpeg_exif_dict (self : t) (v : option exif_dict) : t :=
  mk (photo_path self) (is_raw self) (time_offset_seconds self) (_raw_info self) v.

(** [PhotoProcessor(photo_path, time_offset_seconds)] *)
Definition init (photo_path : Path) (time_offset_seconds : float) : t :=
  let sfx := PyStr.lower (PyPath.suffix photo_path) in
  mk photo_path (negb (String.eqb sfx ".jpg" || String.eqb sfx ".jpeg"))
     time_offset_seconds None None.

(** ** Truth values and dictionary reads *)

Definition json_truthy (v : json) : bool :=
  match v with
  | JNull => false
  | JBool b => b
  | JInt z => negb (z =? 0)%Z
  | JFloat x => PyFloat.truthy x
  | JStr s => negb (String.eqb s "")
  | JList l => match l with [] => false | _ :: _ => true end
  end.

(** [info.get(key)]: [None] when the key is absent. *)
Definition info_get (info : exiftool_info) (key : string) : json :=
  default JNull (info !! key).

(** [a or b] *)
Definition json_or (a b : json) : json := if json_truthy a then a else b.

(** [v is not None] *)
Definition is_not_None (v : json) : bool :=
  match v with JNull => false | _ => true end.

Definition exif_truthy (v : exif_value) : bool :=
  match v with
  | EBytes s | EStr s => negb (String.eqb s "")
  | EInt z => negb (z =? 0)%Z
  | ERational _ _ => true
  | ERationals l => match l with [] => false | _ :: _ => true end
  end.

(** [a or b] on the results of [ifd.get]. *)
Definition exif_or (a b : option exif_value) : option exif_value :=
  match a with
  | Some v => if exif_truthy v then a else b
  | None => b
  end.

(** ** The cached loads *)

Section Methods.
Context `{Tools World}.

Definition _run_exiftool_json (self : t) (w : World) : result (option exiftool_info) :=
  match exiftool_read (photo_path self) w with
  | ToolMissing => Ok None
  | ToolError e => Raise e
  | ToolExit returncode stdout =>
      if negb (returncode =? 0)%Z then Ok None
      else
        match stdout with
        | None => Ok None
        | Some [] => Ok None
        | Some (record :: _) => Ok (Some record)
        end
  end.

Definition _get_raw_info (self : t) (w : World) : result (option exiftool_info) * t :=
  match _raw_info self with
  | None =>
      match _run_exiftool_json self w with
      | Ok info => (Ok info, set_raw_info self info)
      | Raise e => (Raise e, self)
      end
  | Some info => (Ok (Some info), self)
  end.

Definition _get_jpeg_exif_dict (self : t) (w : World) : result exif_dict * t :=
  match _jpeg_exif_dict self with
  | None =>
      match piexif_load (photo_path self) w with
      | Ok d => (Ok d, set_jpeg_exif_dict self (Some d))
      | Raise e => (Raise e, self)
      end
  | Some d => (Ok d, self)
  end.

(** ** [get_photo_timestamp] *)

(** The shared tail: the parsed time is taken as UTC and the camera offset,
    when it is not zero, subtracted. *)
Definition to_utc (self : t) (dt : datetime) : result datetime :=
  if PyFloat.truthy (time_offset_seconds self)
  then td ← timedelta_seconds (time_offset_seconds self); Datetime.sub_timedelta dt td
  else Ok dt.

Definition candidates : list string :=
  [ "EXIF:DateTimeOriginal"; "EXIF:CreateDate"; "QuickTime:CreateDate";
    "Composite:SubSecDateTimeOriginal" ]%string.

(** The loop over the candidate tags; falling out of it returns [None]. *)
Fixpoint first_candidate (self : t) (info : exiftool_info) (tags : list string)
  : result (option datetime) :=
  match tags with
  | [] => Ok None
  | tag :: rest =>
      let value := info_get info tag in
      if negb (json_truthy value) then first_candidate self info rest
      else
        let value_str := PyStr.before_dot (py_str value) in
        match strptime value_str with
        | None => first_candidate self info rest
        | Some dt => dt ← to_utc self dt; Ok (Some dt)
        end
  end.

(** [timestamp_bytes.decode('utf-8')]: only [bytes] has the method. *)
Definition decode (v : exif_value) : result string :=
  match v with
  | EBytes s => Ok s
  | _ => Raise AttributeError
  end.

(** The body of the [try]. *)
Definition read_timestamp (self : t) (w : World) : result (option datetime) * t :=
  if is_raw self then
    match _get_raw_info self w with
    | (Raise e, self) => (Raise e, self)
    | (Ok None, self) => (Ok None, self)
    | (Ok (Some info), self) => (first_candidate self info candidates, self)
    end
  else
    match _get_jpeg_exif_dict self w with
    | (Raise e, self) => (Raise e, self)
    | (Ok exif_dict, self) =>
        let exif_ifd := default ∅ (exif_dict !! "Exif"%string) in
        let timestamp_bytes :=
          exif_or (exif_ifd !! piexif.DateTimeOriginal) (exif_ifd !! piexif.DateTime) in
        match timestamp_bytes with
        | Some v =>
            if exif_truthy v then
              (timestamp_str ← decode v;
               match strptime timestamp_str with
               | None => Raise ValueError
               | Some dt => dt ← to_utc self dt; Ok (Some dt)
               end, self)
            else (Ok None, self)
        | None => (Ok None, self)
        end
    end.

Definition get_photo_timestamp (self : t) (w : World) : option datetime * t :=
  match read_timestamp self w with
  | (Ok r, self) => (r, self)
  | (Raise _, self) => (None, self)
  end.

(** ** [has_gps_data] *)

Definition has_gps_data (self : t) (w : World) : bool * t :=
  if is_raw self then
    match _get_raw_info self w with
    | (Raise _, self) => (false, self)
    | (Ok None, self) => (false, self)
    | (Ok (Some info), self) =>
        let lat :=
          json_or (info_get info "EXIF:GPSLatitude") (info_get info "Composite:GPSLatitude") in
        let lon :=
          json_or (info_get info "EXIF:GPSLongitude") (info_get info "Composite:GPSLongitude") in
        (is_not_None lat && is_not_None lon, self)
    end
  else
    match _get_jpeg_exif_dict self w with
    | (Raise _, self) => (false, self)
    | (Ok exif_dict, self) =>
        let gps_ifd := default ∅ (exif_dict !! "GPS"%string) in
        (bool_decide (is_Some (gps_ifd !! piexif.GPSLatitude)), self)
    end.

(** ** [write_gps_data] *)

(** [_decimal_to_dms(decimal)]: degrees, minutes, seconds. *)
Definition _decimal_to_dms (decimal : float) : result (Z * Z * float) :=
  degrees ← PyFloat.int_of_float decimal;
  let minutes_decimal := ((decimal - PyFloat.Z2float degrees) * 60)%float in
  minutes ← PyFloat.int_of_float minutes_decimal;
  let seconds := ((minutes_decimal - PyFloat.Z2float minutes) * 60)%float in
  Ok (degrees, minutes, seconds).

(** The GPS IFD [_write_gps_to_jpg] builds. *)
Definition gps_ifd_of (latitude longitude : float) (elevation : option float)
  : result exif_ifd :=
  '(lat_deg, lat_min, lat_sec) ← _decimal_to_dms (abs latitude);
  '(lon_deg, lon_min, lon_sec) ← _decimal_to_dms (abs longitude);
  lat_sec100 ← PyFloat.int_of_float (lat_sec * 100)%float;
  lon_sec100 ← PyFloat.int_of_float (lon_sec * 100)%float;
  let gps_ifd : exif_ifd :=
    <[piexif.GPSLongitude :=
        ERationals [(lon_deg, 1%Z); (lon_min, 1%Z); (lon_sec100, 100%Z)]]>
    (<[piexif.GPSLongitudeRef :=
        EStr (if (0 <=? longitude)%float then "E" else "W")]>
    (<[piexif.GPSLatitude :=
        ERationals [(lat_deg, 1%Z); (lat_min, 1%Z); (lat_sec100, 100%Z)]]>
    (<[piexif.GPSLatitudeRef :=
        EStr (if (0 <=? latitude)%float then "N" else "S")]> ∅))) in
  match elevation with
  | None => Ok gps_ifd
  | Some elevation =>
      let gps_ifd :=
        <[piexif.GPSAltitudeRef := EInt (if (0 <=? elevation)%float then 0 else 1)]>
          gps_ifd in
      alt100 ← PyFloat.int_of_float (abs elevation * 100)%float;
      Ok (<[piexif.GPSAltitude := ERational alt100 100]> gps_ifd)
  end.

(** [exif_dict] is the cached object itself, so [exif_dict['GPS'] = gps_ifd]
    changes the cache; the cache is dropped once the file is written. *)
Definition _write_gps_to_jpg (self : t) (latitude longitude : float)
    (elevation : option float) (w : World) : result unit * t * World :=
  match _get_jpeg_exif_dict self w with
  | (Raise e, self) => (Raise e, self, w)
  | (Ok exif_dict, self) =>
      match gps_ifd_of latitude longitude elevation with
      | Raise e => (Raise e, self, w)
      | Ok gps_ifd =>
          let exif_dict := <["GPS"%string := gps_ifd]> exif_dict in
          let self := set_jpeg_exif_dict self (Some exif_dict) in
          match piexif_insert exif_dict (photo_path self) w with
          | (Raise e, w) => (Raise e, self, w)
          | (Ok _, w) => (Ok (), set_jpeg_exif_dict self None, w)
          end
      end
  end.

Definition _write_gps_to_raw (self : t) (latitude longitude : float)
    (elevation : option float) (w : World) : result unit * t * World :=
  let cmd :=
    [ ArgOverwriteOriginal;
      ArgGPSLatitude latitude;
      ArgGPSLatitudeRef (if (0 <=? latitude)%float then "N" else "S");
      ArgGPSLongitude longitude;
      ArgGPSLongitudeRef (if (0 <=? longitude)%float then "E" else "W") ] in
  let cmd :=
    match elevation with
    | None => cmd
    | Some elevation =>
        cmd ++ [ ArgGPSAltitude elevation;
                 ArgGPSAltitudeRef (if (0 <=? elevation)%float then 0 else 1) ]
    end in
  let cmd := cmd ++ [ ArgFile (photo_path self) ] in
  match exiftool_write cmd w with
  | (Raise e, w) => (Raise e, self, w)
  | (Ok returncode, w) =>
      if negb (returncode =? 0)%Z then (Raise RuntimeError, self, w)
      else (Ok (), self, w)
  end.

(** The body of the [try] in [write_gps_data]. *)
Definition write_attempt (self : t) (latitude longitude : float)
    (elevation : option float) (w : World) : result unit * t * World :=
  if is_raw self then _write_gps_to_raw self latitude longitude elevation w
  else _write_gps_to_jpg self latitude longitude elevation w.

(** [write_gps_data]: a dry run only logs; otherwise the write is attempted
    and an exception it raises is logged and dropped. *)
Definition write_gps_data (self : t) (latitude longitude : float)
    (elevation : option float) (dry_run : bool) (w : World) : t * World :=
  if dry_run then (self, w)
  else
    match write_attempt self latitude longitude elevation w with
    | (Ok _, self, w) => (self, w)
    | (Raise _, self, w) => (self, w)
    end.

End Methods.
End PhotoProcessor.

(** * [find_photos] *)

Section FindPhotos.
Context `{Tools World}.

(** [directory.glob(pattern)] and [directory.rglob(pattern)]: the entries
    whose name matches. *)
Definition glob (directory : Path) (pattern : string) (w : World) : list Path :=
  List.filter (fun p => PyPath.fnmatch (PyPath.name p) pattern)
              (scandir directory false w).

Definition rglob (directory : Path) (pattern : string) (w : World) : list Path :=
  List.filter (fun p => PyPath.fnmatch (PyPath.name p) pattern)
              (scandir directory true w).

(** [SUPPORTED_EXTENSIONS] is a set; the order it is walked in does not show
    in the sorted result. *)
Definition find_photos (directory : Path) (recursive : bool) (w : World) : list Path :=
  let photos :=
    if recursive then
      flat_map (fun ext => rglob directory ("*" ++ ext) w
                           ++ rglob directory ("*" ++ PyStr.upper ext) w)
               PhotoProcessor.SUPPORTED_EXTENSIONS
    else
      flat_map (fun ext => glob directory ("*" ++ ext) w
                           ++ glob directory ("*" ++ PyStr.upper ext) w)
               PhotoProcessor.SUPPORTED_EXTENSIONS in
  sorted PyPath.ltb photos.

End FindPhotos.

(** The suffixes [find_photos] globs for: every supported extension as it is
    written and in upper case. *)
Definition glob_suffixes : list string :=
  flat_map (fun ext => [ext; PyStr.upper ext]) PhotoProcessor.SUPPORTED_EXTENSIONS.

(** * [process_photos] *)

(** The dictionary a worker returns. *)
Module PhotoResult.
Record t := mk {
  updated : Z;
  skipped_has_gps : Z;
  skipped_no_timestamp : Z;
  skipped_no_match : Z;
  in_range_no_match : option (Path * datetime)
}.
End PhotoResult.

(** The run statistics. *)
Module Stats.
Record t := mk {
  total : Z;
  updated : Z;
  skipped_has_gps : Z;
  skipped_no_timestamp : Z;
  skipped_no_match : Z
}.
End Stats.

(** What a run writes to the log: the error for an empty trace, the warning
    for an empty directory, or the summary with the photos that lie within
    the trace's time range and found no match.  [process_photos] itself
    returns [None] after each of the three. *)
Inductive report :=
  | NoTrackpoints
  | NoPhotos
  | Summary (stats : Stats.t) (skipped_in_range_no_match : list (Path * datetime)).

(** What the caller of [process_photos] is handed: [None], whatever was
    logged, or the exception raised. *)
Definition returned (r : result report) : result unit :=
  match r with
  | Ok _ => Ok tt
  | Raise e => Raise e
  end.

Section ProcessPhotos.
Context `{Tools World}.

(** The worker; [trackpoints[0]] raises [IndexError] on an empty trace, which
    [process_photos] never passes on. *)
Definition _process_single_photo (trackpoints : list GPSTrackPoint)
    (matcher : GPSMatcher.t) (overwrite_gps dry_run : bool)
    (time_offset_seconds : float) (photo_path : Path) (w : World)
  : result PhotoResult.t * World :=
  let processor := PhotoProcessor.init photo_path time_offset_seconds in
  let '(has_gps, processor) :=
    if negb overwrite_gps then PhotoProcessor.has_gps_data processor w
    else (false, processor) in
  if has_gps then (Ok (PhotoResult.mk 0 1 0 0 None), w)
  else
    let '(photo_time, processor) := PhotoProcessor.get_photo_timestamp processor w in
    match photo_time with
    | None => (Ok (PhotoResult.mk 0 0 1 0 None), w)
    | Some photo_time =>
        match GPSMatcher.find_gps_for_photo matcher photo_time with
        | None =>
            match trackpoints with
            | [] => (Raise IndexError, w)
            | first :: _ =>
                let first_ts := timestamp first in
                let last_ts := timestamp (List.last trackpoints first) in
                if Datetime.leb first_ts photo_time && Datetime.leb photo_time last_ts
                then (Ok (PhotoResult.mk 0 0 0 1 (Some (photo_path, photo_time))), w)
                else (Ok (PhotoResult.mk 0 0 0 1 None), w)
            end
        | Some (latitude, longitude, elevation) =>
            let '(processor, w) :=
              PhotoProcessor.write_gps_data processor latitude longitude elevation
                                            dry_run w in
            (Ok (PhotoResult.mk 1 0 0 0 None), w)
        end
    end.

(** The body of both loops: the counters are added and a diagnostic entry,
    when there is one, appended. *)
Definition accumulate (stats : Stats.t) (skipped : list (Path * datetime))
    (res : PhotoResult.t) : Stats.t * list (Path * datetime) :=
  (Stats.mk (Stats.total stats)
            (Stats.updated stats + PhotoResult.updated res)
            (Stats.skipped_has_gps stats + PhotoResult.skipped_has_gps res)
            (Stats.skipped_no_timestamp stats + PhotoResult.skipped_no_timestamp res)
            (Stats.skipped_no_match stats + PhotoResult.skipped_no_match res),
   match PhotoResult.in_range_no_match res with
   | Some entry => skipped ++ [entry]
   | None => skipped
   end).

(** The photos processed one after the other, in the given order. *)
Fixpoint run (worker : Path -> World -> result PhotoResult.t * World)
    (photos : list Path) (stats : Stats.t) (skipped : list (Path * datetime))
    (w : World) : result (Stats.t * list (Path * datetime)) * World :=
  match photos with
  | [] => (Ok (stats, skipped), w)
  | photo_path :: rest =>
      match worker photo_path w with
      | (Raise e, w) => (Raise e, w)
      | (Ok res, w) =>
          let '(stats, skipped) := accumulate stats skipped res in
          run worker rest stats skipped w
      end
  end.

(** With one worker the photos are processed in order.  With a pool each
    worker has a photo of its own, and the results are added up in the order
    the workers complete: the model runs them one after the other in that
    order. *)
Definition process_photos (gpx_file photos_dir : Path)
    (overwrite_gps dry_run : bool) (max_time_diff : option float)
    (recursive : bool) (time_offset_seconds : float) (workers : Z)
    (force_interpolate : bool) (w : World) : result report * World :=
  let parser := GPXParser.init gpx_file in
  match GPXParser.parse parser w with
  | Raise e => (Raise e, w)
  | Ok ([], _) => (Ok NoTrackpoints, w)
  | Ok (trackpoints, parser) =>
      let max_time_diff :=
        match max_time_diff with
        | None =>
            let avg_interval := GPXParser.calculate_average_interval parser in
            PyFloat.max 60 (PyFloat.min (avg_interval * 3) 600)
        | Some d => d
        end in
      let photos := find_photos photos_dir recursive w in
      match photos with
      | [] => (Ok NoPhotos, w)
      | _ :: _ =>
          let matcher := GPSMatcher.mk trackpoints max_time_diff force_interpolate in
          let stats := Stats.mk (Z.of_nat (length photos)) 0 0 0 0 in
          let worker :=
            _process_single_photo trackpoints matcher overwrite_gps dry_run
                                  time_offset_seconds in
          let workers :=
            if (workers <=? 0)%Z then
              let cpus :=
                match cpu_count w with
                | Some c => if (c =? 0)%Z then 4%Z else c
                | None => 4%Z
                end in
              Z.min 32 (cpus * 2)
            else workers in
          let order :=
            if (workers <=? 1)%Z then photos else as_completed photos w in
          match run worker order stats [] w with
          | (Raise e, w) => (Raise e, w)
          | (Ok (stats, skipped), w) => (Ok (Summary stats skipped), w)
          end
      end
  end.

End ProcessPhotos.

(** The adaptive tolerance of [process_photos]:
    [max(60, min(avg_interval * 3, 600))]. *)
Definition adaptive_max_time_diff (avg_interval : float) : float :=
  PyFloat.max 60 (PyFloat.min (avg_interval * 3) 600).

(** * [main] *)

(** [Path.exists()] and [Path.is_dir()]. *)
Class Paths (World : Type) := {
  path_exists : Path -> World -> bool;
  path_is_dir : Path -> World -> bool
}.

(** The namespace [parse_args] returns. *)
Record Args := mk_Args {
  args_gpx_file : Path;
  args_photos_dir : Path;
  args_overwrite_gps : bool;
  args_dry_run : bool;
  args_max_time_diff : option float;
  args_recursive : bool;
  args_time_offset_hours : float;
  args_workers : Z;
  args_force_interpolate : bool
}.

(** [main], from the parsed arguments on: the exit status and the world it
    leaves.  Returning from [main] is exit status [0]; an exception of
    [process_photos] is logged and ends in [sys.exit(1)]. *)
Definition main `{Tools World} `{Paths World} (args : Args) (w : World) : Z * World :=
  if negb (path_exists (args_gpx_file args) w) then (1%Z, w)
  else if negb (path_exists (args_photos_dir args) w) then (1%Z, w)
  else if negb (path_is_dir (args_photos_dir args) w) then (1%Z, w)
  else
    let time_offset_seconds := (args_time_offset_hours args * 3600)%float in
    match process_photos (args_gpx_file args) (args_photos_dir args)
                         (args_overwrite_gps args) (args_dry_run args)
                         (args_max_time_diff args) (args_recursive args)
                         time_offset_seconds (args_workers args)
                         (args_force_interpolate args) w with
    | (Ok _, w) => (0%Z, w)
    | (Raise _, w) => (1%Z, w)
    end.

(** * Notions the properties are stated with *)

(** The successive time deltas of a trace, in microseconds, and those that
    are strictly positive, in seconds. *)
Fixpoint successive_deltas (tps : list GPSTrackPoint) : list timedelta :=
  match tps with
  | [] => []
  | prev :: rest =>
      match rest with
      | [] => []
      | cur :: _ => Datetime.sub (timestamp cur) (timestamp prev) :: successive_deltas rest
      end
  end.

Definition positive_deltas (tps : list GPSTrackPoint) : list float :=
  map Datetime.total_seconds (List.filter (fun d => (0 <? d)%Z) (successive_deltas tps)).

(** The arithmetic mean [sum(l) / len(l)]. *)
Definition mean `{PyFloat.Interpreter} (l : list float) : float :=
  (PyFloat.sum l / PyFloat.Z2float (Z.of_nat (length l)))%float.

(** The check that a concrete trace is in time order. *)
Fixpoint time_sortedb (l : list GPSTrackPoint) : bool :=
  match l with
  | [] => true
  | p :: rest =>
      match rest with
      | [] => true
      | q :: _ => (micros (timestamp p) <=? micros (timestamp q))%Z && time_sortedb rest
      end
  end.


(** Two coordinates are the same up to the sign of zero: identical, or the
    second is [-0.0] and the first [+0.0]. *)
Definition same_coordinate (x y : float) : Prop :=
  x = y \/ (x = 0%float /\ y = neg_zero).

(** A float that is neither NaN nor infinite. *)
Definition finite (x : float) : Prop :=
  match Prim2SF x with
  | S754_zero _ | S754_finite _ _ _ => True
  | S754_infinity _ | S754_nan => False
  end.

(** A [spec_float] of sign [s] that is not zero and not NaN. *)
Definition SFsigned (s : bool) (x : spec_float) : Prop :=
  match x with
  | S754_finite s' _ _ | S754_infinity s' => s' = s
  | _ => False
  end.

(** A worker's result names exactly one outcome. *)
Inductive one_outcome : PhotoResult.t -> Prop :=
  | outcome_updated : one_outcome (PhotoResult.mk 1 0 0 0 None)
  | outcome_has_gps : one_outcome (PhotoResult.mk 0 1 0 0 None)
  | outcome_no_timestamp : one_outcome (PhotoResult.mk 0 0 1 0 None)
  | outcome_no_match entry : one_outcome (PhotoResult.mk 0 0 0 1 entry).

(** The photos the four counters of the statistics account for. *)
Definition outcome_count (stats : Stats.t) : Z :=
  (Stats.updated stats + Stats.skipped_has_gps stats
   + Stats.skipped_no_timestamp stats + Stats.skipped_no_match stats)%Z.

(** A time between the first and the last timestamp of a trace. *)
Definition in_trace_range (tps : list GPSTrackPoint) (t : datetime) : Prop :=
  exists first final,
    head tps = Some first /\ last tps = Some final
    /\ (micros (timestamp first) <= micros t <= micros (timestamp final))%Z.

(** The capture time the worker reads for a photo in world [w]: that of
    [get_photo_timestamp], on the record as the GPS check leaves it. *)
Definition capture_time `{Tools World} (overwrite_gps : bool)
    (time_offset_seconds : float) (photo_path : Path) (w : World)
  : option datetime :=
  let processor := PhotoProcessor.init photo_path time_offset_seconds in
  let checked :=
    if negb overwrite_gps then PhotoProcessor.has_gps_data processor w
    else (false, processor) in
  fst (PhotoProcessor.get_photo_timestamp (snd checked) w).

(** One photo of a run: the photo, the world its worker started in and the
    result the worker returned. *)
Module Step.
Record t {World : Type} := mk {
  photo : Path;
  world : World;
  result : PhotoResult.t
}.
Arguments t : clear implicits.
Arguments mk {World}.
End Step.

(** The photos of a list processed one after the other, from world [w] to
    world [w']: each worker starts in the world the one before it left, and
    returns a result. *)
Inductive processed {World : Type}
    (worker : Path -> World -> result PhotoResult.t * World)
  : list Path -> World -> list (Step.t World) -> World -> Prop :=
  | processed_nil (w : World) : processed worker [] w [] w
  | processed_cons (photo : Path) (rest : list Path) (w w1 w2 : World)
      (res : PhotoResult.t) (steps : list (Step.t World)) :
      worker photo w = (Ok res, w1) ->
      processed worker rest w1 steps w2 ->
      processed worker (photo :: rest) w (Step.mk photo w res :: steps) w2.

(** The number of results that name an outcome: the sum of its counter. *)
Definition tally {World : Type} (counter : PhotoResult.t -> Z)
    (steps : list (Step.t World)) : Z :=
  fold_right (fun step n => (counter (Step.result step) + n)%Z) 0%Z steps.

(** The trackpoint [parse] makes of a point that has a time. *)
Definition trackpoint_of (point : gpx_point) : option GPSTrackPoint :=
  match point_time point with
  | Some t =>
      Some (mk_GPSTrackPoint t (point_latitude point) (point_longitude point)
                             (point_elevation point))
  | None => None
  end.

(** The trackpoints taken at a given time. *)
Definition taken_at (t : datetime) (p : GPSTrackPoint) : bool :=
  (micros (timestamp p) =? micros t)%Z.

(** The record has its metadata in the cache of its backend. *)
Definition loaded (self : PhotoProcessor.t) : Prop :=
  if PhotoProcessor.is_raw self then is_Some (PhotoProcessor._raw_info self)
  else is_Some (PhotoProcessor._jpeg_exif_dict self).

(** * A small world to run the script in *)

Module Sim.

(** A file: what [piexif.load] and [exiftool -j] make of it, and whether it
    can be written. *)
Record file := mk_file {
  exif : result exif_dict;
  info : exiftool_run;
  writable : bool
}.

Record world := mk_world {
  gpx : result gpx_document;
  files : list (Path * file)
}.

Fixpoint lookup (p : Path) (l : list (Path * file)) : option file :=
  match l with
  | [] => None
  | (q, f) :: l' => if bool_decide (p = q) then Some f else lookup p l'
  end.

Fixpoint update (p : Path) (f : file) (l : list (Path * file)) : list (Path * file) :=
  match l with
  | [] => []
  | (q, g) :: l' => if bool_decide (p = q) then (q, f) :: l' else (q, g) :: update p f l'
  end.

Fixpoint file_arg (cmd : list exiftool_arg) : option Path :=
  match cmd with
  | [] => None
  | ArgFile p :: _ => Some p
  | _ :: cmd' => file_arg cmd'
  end.

(** The tags a writing [exiftool] leaves in the file's record. *)
Fixpoint written_tags (cmd : list exiftool_arg) (i : exiftool_info) : exiftool_info :=
  match cmd with
  | [] => i
  | ArgGPSLatitude x :: cmd' =>
      written_tags cmd' (<["EXIF:GPSLatitude"%string := JFloat (abs x)]> i)
  | ArgGPSLongitude x :: cmd' =>
      written_tags cmd' (<["EXIF:GPSLongitude"%string := JFloat (abs x)]> i)
  | _ :: cmd' => written_tags cmd' i
  end.

Definition write_info (cmd : list exiftool_arg) (r : exiftool_run) : exiftool_run :=
  match r with
  | ToolExit 0 (Some (i :: l)) => ToolExit 0 (Some (written_tags cmd i :: l))
  | _ => r
  end.

Definition run_exiftool_write (cmd : list exiftool_arg) (w : world) : result Z * world :=
  match file_arg cmd with
  | None => (Ok 1%Z, w)
  | Some p =>
      match lookup p (files w) with
      | None => (Ok 1%Z, w)
      | Some f =>
          if writable f
          then (Ok 0%Z,
                mk_world (gpx w)
                  (update p (mk_file (exif f) (write_info cmd (info f)) true) (files w)))
          else (Ok 1%Z, w)
      end
  end.

Definition run_piexif_insert (d : exif_dict) (p : Path) (w : world) : result unit * world :=
  match lookup p (files w) with
  | None => (Raise FileNotFoundError, w)
  | Some f =>
      if writable f
      then (Ok (), mk_world (gpx w) (update p (mk_file (Ok d) (info f) true) (files w)))
      else (Raise (OSError "read-only file"), w)
  end.

Definition t0 : datetime := mk_datetime 0 eq_refl.
Definition t30 : datetime := mk_datetime 30000000 eq_refl.
Definition t60 : datetime := mk_datetime 60000000 eq_refl.
Definition t100 : datetime := mk_datetime 100000000 eq_refl.
Definition t300 : datetime := mk_datetime 300000000 eq_refl.
Definition t5000 : datetime := mk_datetime 5000000000 eq_refl.
Definition t9000 : datetime := mk_datetime 9000000000 eq_refl.
Definition t20000 : datetime := mk_datetime 20000000000 eq_refl.

(** The points of the specification's example, a second point at the time of
    the first, and a point on the equator written as [-0.0]. *)
Definition p0 : GPSTrackPoint := mk_GPSTrackPoint t0 0 0 None.
Definition p60 : GPSTrackPoint := mk_GPSTrackPoint t60 1 1 None.
Definition p0' : GPSTrackPoint := mk_GPSTrackPoint t0 2 2 None.
Definition pz : GPSTrackPoint := mk_GPSTrackPoint t0 neg_zero 0 None.
Definition p100 : GPSTrackPoint := mk_GPSTrackPoint t100 3 4 (Some 10%float).
Definition p300 : GPSTrackPoint := mk_GPSTrackPoint t300 5 6 (Some 20%float).

(** The capture times the simulated photos carry. *)
Definition parse_time (s : string) : option datetime :=
  if String.eqb s "0001:01:01 00:00:30" then Some t30
  else if String.eqb s "0001:01:01 00:01:40" then Some t100
  else if String.eqb s "0001:01:01 01:23:20" then Some t5000
  else if String.eqb s "0001:01:01 05:33:20" then Some t20000
  else None.

#[global] Instance tools : Tools world := {|
  interpreter := PyFloat.mk_Interpreter true;
  gpxpy_parse := fun _ w => gpx w;
  scandir := fun _ _ w => map fst (files w);
  exiftool_read := fun p w =>
    match lookup p (files w) with
    | Some f => info f
    | None => ToolExit 1 None
    end;
  exiftool_write := run_exiftool_write;
  piexif_load := fun p w =>
    match lookup p (files w) with
    | Some f => exif f
    | None => Raise FileNotFoundError
    end;
  piexif_insert := run_piexif_insert;
  strptime := parse_time;
  timedelta_seconds := fun x => PyFloat.int_of_float (x * 1000000)%float;
  py_str := fun v => match v with JStr s => s | _ => EmptyString end;
  cpu_count := fun _ => Some 4%Z;
  as_completed := fun l _ => rev l;
  as_completed_perm := fun l _ => Permutation_sym (Permutation_rev l)
|}.

(** ** Photos and directories *)

Definition photos_dir : Path := ["photos"]%string.
Definition gpx_file : Path := ["trace.gpx"]%string.

(** A JPEG whose GPS IFD holds a latitude and nothing else. *)
Definition jpeg_latitude_only : file :=
  mk_file
    (Ok (<["GPS"%string :=
             ({[ piexif.GPSLatitude := ERationals [(48, 1); (51, 1); (2400, 100)]%Z ]}
                : exif_ifd)]>
         (<["Exif"%string :=
             ({[ piexif.DateTimeOriginal := EBytes "0001:01:01 00:00:30" ]}
                : exif_ifd)]> ∅)))
    (ToolExit 1 None) true.

(** A file [exiftool] reads, with the given tags. *)
Definition raw_file (tags : list (string * json)) (can_write : bool) : file :=
  mk_file (Raise (OSError "not a JPEG")) (ToolExit 0 (Some [list_to_map tags]))
          can_write.

Definition a_jpg : Path := ["photos"; "a.jpg"]%string.
Definition b_arw : Path := ["photos"; "b.arw"]%string.
Definition c_nef : Path := ["photos"; "c.nef"]%string.
Definition d_png : Path := ["photos"; "d.png"]%string.
Definition e_heic : Path := ["photos"; "e.heic"]%string.
Definition f_tif : Path := ["photos"; "f.tif"]%string.

(** A trace with points at [0 s], [60 s] and [9000 s], and a directory of
    photos: one with GPS, two taken near the start of the trace (the second
    read-only), one without capture time, one taken in the long gap, one
    taken after the end. *)
Definition trace : gpx_document :=
  [[[ mk_gpx_point (Some t0) 0 0 None;
      mk_gpx_point (Some t60) 1 1 None;
      mk_gpx_point (Some t9000) 2 2 None ]]].

Definition w9 : world :=
  mk_world (Ok trace)
    [ (a_jpg, jpeg_latitude_only);
      (b_arw, raw_file [("EXIF:DateTimeOriginal", JStr "0001:01:01 00:00:30")]%string true);
      (c_nef, raw_file [("EXIF:CreateDate", JStr "0001:01:01 00:01:40")]%string false);
      (d_png, raw_file [("File:FileType", JStr "PNG")]%string true);
      (e_heic, raw_file [("QuickTime:CreateDate", JStr "0001:01:01 01:23:20")]%string true);
      (f_tif, raw_file [("EXIF:DateTimeOriginal", JStr "0001:01:01 05:33:20.50")]%string true) ].


(** The trackpoints [parse] makes of [trace]. *)
Definition trace_points : list GPSTrackPoint :=
  [ mk_GPSTrackPoint t0 0 0 None;
    mk_GPSTrackPoint t60 1 1 None;
    mk_GPSTrackPoint t9000 2 2 None ].

(** An empty trace next to a directory with photos. *)
Definition w6 : world := mk_world (Ok [[[]]]) (files w9).

(** A directory with an upper-case, a lower-case and a mixed-case JPEG. *)
Definition w8 : world :=
  mk_world (Ok trace)
    [ (["photos"; "a.jpg"]%string, jpeg_latitude_only);
      (["photos"; "IMG_0001.Jpg"]%string, jpeg_latitude_only);
      (["photos"; "B.JPG"]%string, jpeg_latitude_only) ].

(** The paths of the simulated world: the trace file, the photo directory
    and the files in it. *)
#[global] Instance paths : Paths world := {|
  path_exists := fun p w =>
    bool_decide (p = gpx_file) || bool_decide (p = photos_dir)
    || match lookup p (files w) with Some _ => true | None => false end;
  path_is_dir := fun p _ => bool_decide (p = photos_dir)
|}.

(** The command line [trace.gpx photos/], with one worker. *)
Definition args : Args :=
  mk_Args gpx_file photos_dir false false None false 0 1 false.

(** A GPX document none of whose points has a time, next to the photos of
    [w9]. *)
Definition trace_timeless : gpx_document :=
  [[[ mk_gpx_point None 1 1 None; mk_gpx_point None 2 2 None ]]].

Definition w_timeless : world := mk_world (Ok trace_timeless) (files w9).

(** A GPX document with a point that has no time between two that have. *)
Definition trace_without_time : gpx_document :=
  [[[ mk_gpx_point (Some t60) 1 1 None;
      mk_gpx_point None 5 5 None;
      mk_gpx_point (Some t0) 0 0 None ]]].

(** A document whose points come out of order, two of them at the same
    time. *)
Definition trace_unordered : gpx_document :=
  [[[ mk_gpx_point (Some t60) 1 1 None ];
    [ mk_gpx_point (Some t0) 2 2 None;
      mk_gpx_point (Some t0) 0 0 None ]]].

Definition w_unordered : world := mk_world (Ok trace_unordered) (files w9).

(** A read-only JPEG with a capture time and no GPS. *)
Definition jpeg_read_only : file :=
  mk_file
    (Ok (<["Exif"%string :=
             ({[ piexif.DateTimeOriginal := EBytes "0001:01:01 00:00:30" ]}
                : exif_ifd)]> ∅))
    (ToolExit 1 None) false.

(** The same, writable, and one whose [DateTimeOriginal] is not a time
    while its [DateTime] is. *)
Definition jpeg_plain : file :=
  mk_file
    (Ok (<["Exif"%string :=
             ({[ piexif.DateTimeOriginal := EBytes "0001:01:01 00:00:30" ]}
                : exif_ifd)]> ∅))
    (ToolExit 1 None) true.

Definition jpeg_bad_time : file :=
  mk_file
    (Ok (<["Exif"%string :=
             (<[ piexif.DateTime := EBytes "0001:01:01 00:00:30" ]>
                {[ piexif.DateTimeOriginal := EBytes "yesterday" ]}
                : exif_ifd)]> ∅))
    (ToolExit 1 None) true.

Definition h_jpg : Path := ["photos"; "h.jpg"]%string.
Definition i_jpeg : Path := ["photos"; "i.jpeg"]%string.
Definition j_jpg : Path := ["photos"; "j.jpg"]%string.

Definition w_jpeg : world :=
  mk_world (Ok trace)
    [ (h_jpg, jpeg_read_only); (i_jpeg, jpeg_plain); (j_jpg, jpeg_bad_time) ].

End Sim.

(** * Facts about binary64 arithmetic *)

Section Rounding.
Local Open Scope Z_scope.

(** A positive number of [d] binary digits lies in [2^(d-1) .. 2^d - 1]. *)
Lemma digits2_pos_bounds (m : positive) :
  2 ^ (Zpos (digits2_pos m) - 1) <= Zpos m < 2 ^ Zpos (digits2_pos m).
Proof.
  induction m as [m IH | m IH |]; cbn [digits2_pos].
  - rewrite Pos2Z.inj_succ.
    replace (Z.succ (Zpos (digits2_pos m)) - 1) with (Z.succ (Zpos (digits2_pos m) - 1)) by lia.
    rewrite !Z.pow_succ_r by lia. lia.
  - rewrite Pos2Z.inj_succ.
    replace (Z.succ (Zpos (digits2_pos m)) - 1) with (Z.succ (Zpos (digits2_pos m) - 1)) by lia.
    rewrite !Z.pow_succ_r by lia. lia.
  - cbn. lia.
Qed.

(** One step of the rounding shift halves the mantissa. *)
Lemma shr_1_m (r : shr_record) :
  0 <= shr_m r -> shr_m (shr_1 r) = shr_m r / 2.
Proof.
  destruct r as [m r s]; cbn [shr_m]. intros Hm.
  destruct m as [| [p | p |] |]; cbn; try reflexivity; try lia.
  - rewrite Pos2Z.inj_xI. apply Z.div_unique with 1; lia.
  - rewrite Pos2Z.inj_xO. apply Z.div_unique with 0; lia.
Qed.

Lemma iter_shr_1_m (p : positive) : forall r : shr_record,
  0 <= shr_m r -> shr_m (SpecFloat.iter_pos shr_1 p r) = shr_m r / 2 ^ Zpos p.
Proof.
  induction p as [p IH | p IH |]; intros r Hr; cbn [SpecFloat.iter_pos].
  - assert (H1 : 0 <= shr_m (shr_1 r))
      by (rewrite shr_1_m by assumption; apply Z.div_pos; lia).
    assert (H2 : 0 <= shr_m (SpecFloat.iter_pos shr_1 p (shr_1 r)))
      by (rewrite IH by assumption; apply Z.div_pos; lia).
    rewrite IH, IH, shr_1_m by assumption.
    rewrite !Z.div_div by lia. f_equal.
    replace (Z.pos p~1) with (1 + Z.pos p + Z.pos p) by lia.
    rewrite !Z.pow_add_r by lia. lia.
  - assert (H2 : 0 <= shr_m (SpecFloat.iter_pos shr_1 p r))
      by (rewrite IH by assumption; apply Z.div_pos; lia).
    rewrite IH, IH by assumption.
    rewrite !Z.div_div by lia. f_equal.
    replace (Z.pos p~0) with (Z.pos p + Z.pos p) by lia.
    rewrite !Z.pow_add_r by lia. lia.
  - rewrite shr_1_m by assumption. reflexivity.
Qed.

(** Shifting a positive mantissa into the format leaves it positive, and
    does not lower the exponent. *)
Lemma shr_fexp_pos (m e : Z) (l : location) :
  0 < m -> emin <= e ->
  0 < shr_m (fst (shr_fexp prec emax m e l)) /\ e <= snd (shr_fexp prec emax m e l).
Proof.
  intros Hm He. unfold shr_fexp, shr.
  assert (Hl : shr_m (shr_record_of_loc m l) = m) by (destruct l as [|[]]; reflexivity).
  destruct m as [| p |]; try lia. cbn [Zdigits2].
  pose proof (digits2_pos_bounds p) as [Hlo _].
  destruct (fexp prec emax (Z.pos (digits2_pos p) + e) - e) as [| n | n] eqn:En;
    cbn [fst snd]; rewrite ?Hl; try lia.
  rewrite iter_shr_1_m, Hl by lia. split; [| lia].
  apply Z.div_str_pos. split; [lia |].
  apply Z.le_trans with (2 ^ (Z.pos (digits2_pos p) - 1)); [| assumption].
  apply Z.pow_le_mono_r; [lia |].
  unfold fexp, SpecFloat.emin, prec, emax in *. lia.
Qed.

Lemma round_nearest_even_ge (m : Z) (l : location) : m <= round_nearest_even m l.
Proof. destruct l as [|[]]; cbn; try destruct (Z.even m); lia. Qed.

(** Rounding a positive mantissa gives a finite non-zero float or an
    infinity, of the sign asked for. *)
Lemma binary_round_aux_signed (s : bool) (m e : Z) (l : location) :
  0 < m -> emin <= e -> SFsigned s (binary_round_aux prec emax s m e l).
Proof.
  intros Hm He. unfold binary_round_aux.
  destruct (shr_fexp_pos m e l Hm He) as [H1 H1e].
  destruct (shr_fexp prec emax m e l) as [r1 e1]. cbn [fst snd] in *.
  pose proof (round_nearest_even_ge (shr_m r1) (loc_of_shr_record r1)) as Hr.
  set (m2 := round_nearest_even (shr_m r1) (loc_of_shr_record r1)) in *.
  destruct (shr_fexp_pos m2 e1 loc_Exact) as [H2 H2e]; [lia | lia |].
  destruct (shr_fexp prec emax m2 e1 loc_Exact) as [r2 e2]. cbn [fst snd] in *.
  destruct (shr_m r2); try lia.
  destruct (e2 <=? emax - prec); reflexivity.
Qed.

(** The number of binary digits of a positive number is fixed by the powers
    of two around it. *)
Lemma digits2_pos_unique (m : positive) (d : Z) :
  2 ^ (d - 1) <= Zpos m < 2 ^ d -> Zpos (digits2_pos m) = d.
Proof.
  intros [Hlo Hhi]. pose proof (digits2_pos_bounds m) as [Hlo' Hhi'].
  pose proof (Pos2Z.is_pos (digits2_pos m)) as Hd.
  assert (Hd0 : 0 < d).
  { destruct (Z.ltb_spec 0 d) as [| Hle]; [assumption |].
    destruct d as [| p | p]; [cbn in Hhi; lia | lia |].
    rewrite Z.pow_neg_r in Hhi; lia. }
  destruct (Z.lt_trichotomy (Zpos (digits2_pos m)) d) as [Hlt | [Heq | Hgt]];
    [| exact Heq |].
  - assert (2 ^ Zpos (digits2_pos m) <= 2 ^ (d - 1)) by (apply Z.pow_le_mono_r; lia).
    lia.
  - assert (2 ^ d <= 2 ^ (Zpos (digits2_pos m) - 1)) by (apply Z.pow_le_mono_r; lia).
    lia.
Qed.

Lemma round_nearest_even_le (m : Z) (l : location) : round_nearest_even m l <= m + 1.
Proof. destruct l as [|[]]; cbn; try destruct (Z.even m); lia. Qed.

(** Shifting a mantissa of at least 53 digits into the format, away from the
    subnormal range, leaves exactly 53 digits. *)
Lemma shr_fexp_digits (m : positive) (e : Z) (l : location) :
  53 <= Zpos (digits2_pos m) -> emin <= e ->
  exists m' : positive,
    shr_m (fst (shr_fexp prec emax (Zpos m) e l)) = Zpos m'
    /\ Zpos (digits2_pos m') = 53
    /\ snd (shr_fexp prec emax (Zpos m) e l) = e + (Zpos (digits2_pos m) - 53)
    /\ Zpos m' = Zpos m / 2 ^ (Zpos (digits2_pos m) - 53).
Proof.
  intros Hd He. unfold shr_fexp, shr. cbn [Zdigits2].
  assert (Hl : shr_m (shr_record_of_loc (Zpos m) l) = Zpos m)
    by (destruct l as [|[]]; reflexivity).
  pose proof (digits2_pos_bounds m) as [Hlo Hhi].
  set (d := Zpos (digits2_pos m)) in *.
  assert (Hf : fexp prec emax (d + e) - e = d - 53)
    by (unfold fexp, SpecFloat.emin, prec, emax in *; lia).
  rewrite Hf.
  destruct (d - 53) as [| n | n] eqn:En; try lia; cbn [fst snd].
  - exists m. rewrite Hl, Z.pow_0_r, Z.div_1_r.
    split; [reflexivity |]. split; [lia |]. split; [lia | reflexivity].
  - rewrite iter_shr_1_m, Hl by lia.
    assert (Hq : 2 ^ 52 <= Zpos m / 2 ^ Zpos n < 2 ^ 53).
    { assert (Hp : 0 < 2 ^ Zpos n) by (apply Z.pow_pos_nonneg; lia).
      split.
      - apply Z.div_le_lower_bound; [assumption |].
        rewrite Z.mul_comm, <- Z.pow_add_r by lia.
        replace (52 + Zpos n) with (d - 1) by lia. assumption.
      - apply Z.div_lt_upper_bound; [assumption |].
        rewrite <- Z.pow_add_r by lia.
        replace (Zpos n + 53) with d by lia. assumption. }
    destruct (Zpos m / 2 ^ Zpos n) as [| m' |] eqn:Em'; try lia.
    exists m'. split; [reflexivity |].
    split; [apply digits2_pos_unique; exact Hq |]. split; [lia | reflexivity].
Qed.

(** Rounding a mantissa of 53 or 54 digits at an exponent well inside the
    range gives a finite float in the format. *)
Lemma binary_round_aux_valid (s : bool) (m : positive) (e : Z) (l : location) :
  53 <= Zpos (digits2_pos m) <= 54 -> -1000 <= e <= 900 ->
  valid_binary (binary_round_aux prec emax s (Zpos m) e l) = true.
Proof.
  intros Hd He. unfold binary_round_aux.
  destruct (shr_fexp_digits m e l ltac:(lia))
    as (m1 & Hm1 & Hd1 & He1 & _);
    [unfold SpecFloat.emin, prec, emax; lia |].
  destruct (shr_fexp prec emax (Zpos m) e l) as [r1 e1]. cbn [fst snd] in *.
  rewrite Hm1.
  pose proof (round_nearest_even_ge (Zpos m1) (loc_of_shr_record r1)) as Hge.
  pose proof (round_nearest_even_le (Zpos m1) (loc_of_shr_record r1)) as Hle.
  destruct (round_nearest_even (Zpos m1) (loc_of_shr_record r1)) as [| m2 |] eqn:Em2;
    try lia.
  pose proof (digits2_pos_bounds m1) as [Hlo1 Hhi1]. rewrite Hd1 in Hlo1, Hhi1.
  assert (Hd2 : 53 <= Zpos (digits2_pos m2) <= 54).
  { pose proof (digits2_pos_bounds m2) as [Hlo2 Hhi2].
    destruct (Z.eq_dec (Zpos m2) (2 ^ 53)) as [E | NE].
    - rewrite (digits2_pos_unique m2 54); [lia |]. rewrite E. cbn. lia.
    - rewrite (digits2_pos_unique m2 53); [lia |]. cbn in *. lia. }
  destruct (shr_fexp_digits m2 e1 loc_Exact ltac:(lia))
    as (m3 & Hm3 & Hd3 & He3 & _);
    [unfold SpecFloat.emin, prec, emax; lia |].
  destruct (shr_fexp prec emax (Zpos m2) e1 loc_Exact) as [r2 e2]. cbn [fst snd] in *.
  rewrite Hm3.
  assert (Hemax : (e2 <=? emax - prec) = true)
    by (apply Z.leb_le; unfold prec, emax; lia).
  rewrite Hemax. cbn [valid_binary]. unfold bounded, canonical_mantissa.
  rewrite Hemax, andb_true_r. apply Z.eqb_eq.
  rewrite Hd3. unfold fexp, SpecFloat.emin, prec, emax. lia.
Qed.

(** The quotient of a positive integer below [2^63] by one million, rounded:
    a float of the format, finite or not, that is not zero. *)
Lemma SFdiv_int_million (s : bool) (p : positive) :
  Zpos p < 2 ^ 63 ->
  let q := SFdiv prec emax (S754_finite s p 0) (S754_finite false 1000000 0) in
  valid_binary q = true /\ SFsigned s q.
Proof.
  intros Hp. cbn [SFdiv]. rewrite xorb_false_r. unfold SFdiv_core_binary.
  change (Zdigits2 (Z.pos 1000000)) with 20. cbn [Zdigits2].
  pose proof (digits2_pos_bounds p) as [Hlo Hhi].
  pose proof (Pos2Z.is_pos (digits2_pos p)) as Hd.
  set (d1 := Zpos (digits2_pos p)) in *.
  assert (Hd1 : d1 <= 63).
  { destruct (Z.le_gt_cases d1 63) as [| Hgt]; [assumption |].
    assert (2 ^ 63 <= 2 ^ (d1 - 1)) by (apply Z.pow_le_mono_r; lia). lia. }
  assert (He' : Z.min (fexp prec emax (d1 + 0 - (20 + 0))) (0 - 0) = d1 - 73)
    by (unfold fexp, SpecFloat.emin, prec, emax; lia).
  rewrite He'.
  replace (0 - 0 - (d1 - 73)) with (73 - d1) by lia.
  destruct (73 - d1) as [| k | k] eqn:Ek; try lia.
  rewrite Z.shiftl_mul_pow2 by lia.
  assert (Hm : 2 ^ 72 <= Zpos p * 2 ^ Zpos k < 2 ^ 73).
  { assert (Hk : 0 < 2 ^ Zpos k) by (apply Z.pow_pos_nonneg; lia).
    split.
    - replace 72 with (d1 - 1 + Zpos k) by lia. rewrite Z.pow_add_r by lia.
      apply Z.mul_le_mono_nonneg_r; lia.
    - replace 73 with (d1 + Zpos k) by lia. rewrite Z.pow_add_r by lia.
      apply Z.mul_lt_mono_pos_r; lia. }
  set (m1 := Zpos p * 2 ^ Zpos k) in *. clearbody m1.
  pose proof (Z.div_mod m1 1000000 ltac:(lia)) as Hdm.
  pose proof (Z.mod_pos_bound m1 1000000 ltac:(lia)) as Hr.
  unfold Z.div, Z.modulo in Hdm, Hr.
  destruct (Z.div_eucl m1 1000000) as [q r].
  assert (Hq : 2 ^ 52 <= q < 2 ^ 54) by (cbn in *; lia).
  destruct q as [| q |]; try (cbn in Hq; lia).
  assert (Hdq : 53 <= Zpos (digits2_pos q) <= 54).
  { destruct (Z.lt_ge_cases (Zpos q) (2 ^ 53)).
    - rewrite (digits2_pos_unique q 53); lia.
    - rewrite (digits2_pos_unique q 54); [lia |]. change (54 - 1) with 53. lia. }
  split.
  - apply binary_round_aux_valid; [assumption | lia].
  - apply binary_round_aux_signed; [lia |]. unfold SpecFloat.emin, prec, emax. lia.
Qed.

(** The seconds of a non-zero duration are a non-zero float of the same sign:
    the microsecond never rounds away. *)
Lemma total_seconds_signed (td : timedelta) :
  td <> 0 -> Z.abs td < 2 ^ 63 ->
  SFsigned (td <? 0) (Prim2SF (Datetime.total_seconds td)).
Proof.
  intros Hnz Hb. unfold Datetime.total_seconds, PyFloat.truediv.
  destruct td as [| p | p]; [congruence | |]; cbn [Z.ltb Z.compare].
  - destruct (SFdiv_int_million false p ltac:(lia)) as [Hv Hs].
    rewrite Prim2SF_SF2Prim by exact Hv. exact Hs.
  - destruct (SFdiv_int_million true p ltac:(lia)) as [Hv Hs].
    rewrite Prim2SF_SF2Prim by exact Hv. exact Hs.
Qed.

End Rounding.

Section Comparisons.

Lemma datetime_sub_bound (a b : datetime) : (Z.abs (Datetime.sub a b) < 2 ^ 63)%Z.
Proof.
  pose proof (micros_range a) as Ha. pose proof (micros_range b) as Hb.
  apply Z.ltb_lt in Ha, Hb. unfold Datetime.sub.
  change (2 ^ 63)%Z with (2 ^ 62 + 2 ^ 62)%Z. lia.
Qed.

Lemma total_seconds_0 : Datetime.total_seconds 0%Z = 0%float.
Proof. reflexivity. Qed.

(** [total_seconds() == 0] exactly for the empty duration. *)
Lemma total_seconds_eqb_0 (td : timedelta) :
  (Z.abs td < 2 ^ 63)%Z ->
  (Datetime.total_seconds td =? 0)%float = (td =? 0)%Z.
Proof.
  intros Hb. destruct (Z.eqb_spec td 0) as [-> | Hnz]; [reflexivity |].
  rewrite FloatAxioms.eqb_spec. pose proof (total_seconds_signed td Hnz Hb) as Hs.
  change (Prim2SF 0) with (S754_zero false).
  destruct (Prim2SF (Datetime.total_seconds td)) as [| [] | | [] ? ?];
    cbn in Hs |- *; try contradiction; reflexivity.
Qed.

(** [0 < total_seconds()] exactly for a positive duration. *)
Lemma total_seconds_gt_0 (td : timedelta) :
  (Z.abs td < 2 ^ 63)%Z ->
  (0 <? Datetime.total_seconds td)%float = (0 <? td)%Z.
Proof.
  intros Hb. destruct (Z.eqb_spec td 0) as [-> | Hnz]; [reflexivity |].
  rewrite FloatAxioms.ltb_spec. pose proof (total_seconds_signed td Hnz Hb) as Hs.
  change (Prim2SF 0) with (S754_zero false).
  destruct (Prim2SF (Datetime.total_seconds td)) as [| s | | s ? ?];
    cbn in Hs |- *; try contradiction; subst s;
    destruct (Z.ltb_spec td 0), (Z.ltb_spec 0 td); try lia; reflexivity.
Qed.

Lemma total_seconds_lt_0 (td : timedelta) :
  (Z.abs td < 2 ^ 63)%Z ->
  (Datetime.total_seconds td <? 0)%float = (td <? 0)%Z.
Proof.
  intros Hb. destruct (Z.eqb_spec td 0) as [-> | Hnz]; [reflexivity |].
  rewrite FloatAxioms.ltb_spec. pose proof (total_seconds_signed td Hnz Hb) as Hs.
  change (Prim2SF 0) with (S754_zero false).
  destruct (Prim2SF (Datetime.total_seconds td)) as [| s | | s ? ?];
    cbn in Hs |- *; try contradiction; subst s;
    destruct (Z.ltb_spec td 0); reflexivity.
Qed.

(** The order of [spec_float]s is antisymmetric. *)
Lemma SFcompare_antisym (x y : spec_float) :
  SFcompare y x = option_map CompOpp (SFcompare x y).
Proof.
  destruct x as [[] | [] | | [] mx ex], y as [[] | [] | | [] my ey];
    cbn; try reflexivity;
    rewrite (Z.compare_antisym ey ex); destruct (ey ?= ex)%Z; cbn;
    try reflexivity;
    rewrite !Pos.compare_cont_spec; cbn;
    rewrite (Pos.compare_antisym my mx);
    destruct (my ?= mx)%positive; reflexivity.
Qed.

(** [x <= y] excludes [y < x]. *)
Lemma leb_not_gt (x y : float) : (x <=? y)%float = true -> (y <? x)%float = false.
Proof.
  rewrite FloatAxioms.leb_spec, FloatAxioms.ltb_spec. unfold SFleb, SFltb.
  rewrite (SFcompare_antisym (Prim2SF x) (Prim2SF y)).
  destruct (SFcompare (Prim2SF x) (Prim2SF y)) as [[] |]; cbn; congruence.
Qed.

End Comparisons.

(** * The position matcher *)

Section Matcher.
Local Open Scope Z_scope.

Lemma time_sorted_tail (x : GPSTrackPoint) (l : list GPSTrackPoint) :
  time_sorted (x :: l) -> time_sorted l.
Proof.
  intros Hs i j p q Hi Hj Hij. apply (Hs (S i) (S j)); auto. lia.
Qed.

Lemma time_sorted_head (x : GPSTrackPoint) (l : list GPSTrackPoint) (i : nat)
    (p : GPSTrackPoint) :
  time_sorted (x :: l) -> (x :: l) !! i = Some p ->
  micros (timestamp x) <= micros (timestamp p).
Proof. intros Hs Hp. apply (Hs 0%nat i); auto. lia. Qed.

Lemma last_default {A} (l : list A) (x d : A) : last l = Some x -> List.last l d = x.
Proof.
  induction l as [| y [| z l] IH]; cbn; intros Hl; try congruence.
  apply IH. exact Hl.
Qed.

(** The loop stops between two neighbours that enclose the photo's time. *)
Lemma scan_between (photo_time : datetime) (before after : GPSTrackPoint) :
  forall (l : list GPSTrackPoint) (i : nat) (b0 : option GPSTrackPoint),
  time_sorted l -> l !! i = Some before -> l !! S i = Some after ->
  micros (timestamp before) <= micros photo_time < micros (timestamp after) ->
  GPSMatcher.scan l photo_time b0 = (Some before, Some after).
Proof.
  induction l as [| x l IH]; intros i b0 Hs Hb Ha Hq; [discriminate |].
  pose proof (time_sorted_head x l i before Hs Hb) as Hx.
  cbn [GPSMatcher.scan]. unfold Datetime.leb at 1.
  destruct (Z.leb_spec (micros (timestamp x)) (micros photo_time)); [| lia].
  destruct i as [| i].
  - cbn in Hb, Ha. injection Hb as ->.
    destruct l as [| y l]; [discriminate |]. cbn in Ha. injection Ha as ->.
    cbn [GPSMatcher.scan]. unfold Datetime.leb.
    destruct (Z.leb_spec (micros (timestamp after)) (micros photo_time)); [lia |].
    reflexivity.
  - apply (IH i); auto. eapply time_sorted_tail; eauto.
Qed.

(** The loop runs to the end when no point is later than the photo. *)
Lemma scan_past_end (photo_time : datetime) :
  forall (l : list GPSTrackPoint) (b0 : option GPSTrackPoint),
  (forall p, In p l -> micros (timestamp p) <= micros photo_time) ->
  GPSMatcher.scan l photo_time b0 =
    (match last l with Some p => Some p | None => b0 end, None).
Proof.
  induction l as [| x l IH]; intros b0 Hall; [reflexivity |].
  cbn [GPSMatcher.scan]. unfold Datetime.leb at 1.
  destruct (Z.leb_spec (micros (timestamp x)) (micros photo_time)).
  - rewrite IH by (intros p Hp; apply Hall; now right).
    destruct l as [| y l]; [reflexivity |].
    change (last (x :: y :: l)) with (last (y :: l)).
    destruct (last (y :: l)) eqn:El; [reflexivity |].
    apply last_None in El. discriminate.
  - specialize (Hall x (or_introl eq_refl)). lia.
Qed.

Lemma time_sorted_le_last (l : list GPSTrackPoint) (p lst : GPSTrackPoint) :
  time_sorted l -> last l = Some lst -> In p l ->
  micros (timestamp p) <= micros (timestamp lst).
Proof.
  intros Hs Hl Hp. apply list_elem_of_In, list_elem_of_lookup in Hp as [i Hi].
  rewrite last_lookup in Hl.
  apply (Hs i (Nat.pred (length l))); auto.
  apply lookup_lt_Some in Hi. lia.
Qed.

End Matcher.

Lemma time_sortedb_correct (l : list GPSTrackPoint) :
  time_sortedb l = true -> time_sorted l.
Proof.
  induction l as [| x l IH]; intros Hb i j p q Hi Hj Hij; [discriminate |].
  assert (Hl : time_sorted l).
  { apply IH. cbn in Hb. destruct l; [reflexivity |].
    now apply andb_true_iff in Hb as [_ Hb]. }
  destruct i as [| i], j as [| j]; cbn in Hi, Hj; try lia.
  - injection Hi as <-. injection Hj as <-. lia.
  - injection Hi as <-. destruct l as [| y l]; [discriminate |].
    cbn in Hb. apply andb_true_iff in Hb as [Hxy _]. apply Z.leb_le in Hxy.
    pose proof (Hl 0%nat j y q eq_refl Hj ltac:(lia)). lia.
  - apply (Hl i j); auto. lia.
Qed.

(** C1.  In a time-ordered trace, for a photo time strictly between the
    timestamps of two neighbouring trackpoints, when the matcher does not
    refuse (force set, or the smaller of the two gaps within the tolerance),
    [find_gps_for_photo] returns the latitude
    [before.lat + (after.lat - before.lat) * ratio], the longitude likewise,
    with [ratio = (photo - before) / (after - before)] in seconds, and an
    elevation, interpolated with the same ratio, exactly when both
    neighbours carry one. *)
Theorem C1_interpolation (self : GPSMatcher.t) (photo_time : datetime) (i : nat)
    (before after : GPSTrackPoint) :
  time_sorted (GPSMatcher.trackpoints self) ->
  GPSMatcher.trackpoints self !! i = Some before ->
  GPSMatcher.trackpoints self !! S i = Some after ->
  (micros (timestamp before) < micros photo_time < micros (timestamp after))%Z ->
  let time_diff_before :=
    Datetime.total_seconds (Datetime.sub photo_time (timestamp before)) in
  let time_diff_after :=
    Datetime.total_seconds (Datetime.sub (timestamp after) photo_time) in
  GPSMatcher.force_interpolate self = true
  \/ (PyFloat.min time_diff_before time_diff_after
        <=? GPSMatcher.max_time_diff self)%float = true ->
  let ratio :=
    (time_diff_before
       / Datetime.total_seconds (Datetime.sub (timestamp after) (timestamp before)))%float in
  GPSMatcher.find_gps_for_photo self photo_time =
    Some ((latitude before + (latitude after - latitude before) * ratio)%float,
          (longitude before + (longitude after - longitude before) * ratio)%float,
          match elevation before, elevation after with
          | Some eb, Some ea => Some (eb + (ea - eb) * ratio)%float
          | _, _ => None
          end).
Proof.
  intros Hs Hb Ha Hq tdb tda Hok ratio. unfold GPSMatcher.find_gps_for_photo.
  destruct (GPSMatcher.trackpoints self) as [| first rest] eqn:Etp; [discriminate |].
  rewrite (scan_between photo_time before after (first :: rest) i None Hs Hb Ha)
    by lia.
  fold tdb tda.
  assert (Hgate : negb (GPSMatcher.force_interpolate self)
                  && (GPSMatcher.max_time_diff self <? PyFloat.min tdb tda)%float = false).
  { destruct Hok as [-> | Hle]; [reflexivity |].
    rewrite (leb_not_gt _ _ Hle). apply andb_false_r. }
  rewrite Hgate.
  rewrite total_seconds_eqb_0 by apply datetime_sub_bound.
  unfold Datetime.sub at 1.
  destruct (Z.eqb_spec (micros (timestamp after) - micros (timestamp before)) 0);
    [lia | reflexivity].
Qed.

(** The specification's example: between [(t=0, 0, 0)] and [(t=60, 1, 1)], a
    photo at [t=30] lies at [(0.5, 0.5)]. *)
Lemma C1_interpolation_witness :
  GPSMatcher.find_gps_for_photo (GPSMatcher.mk [Sim.p0; Sim.p60] 300 false) Sim.t30
  = Some (0.5%float, 0.5%float, None).
Proof.
  exact (C1_interpolation (GPSMatcher.mk [Sim.p0; Sim.p60] 300 false) Sim.t30 0
           Sim.p0 Sim.p60
           (time_sortedb_correct [Sim.p0; Sim.p60] eq_refl) eq_refl eq_refl
           (conj eq_refl eq_refl) (or_intror eq_refl)).
Defined.

(** C3.  In a non-empty time-ordered trace, for a photo time before the
    first trackpoint: if force is set or the gap [first - photo], in
    seconds, is at most the tolerance, [find_gps_for_photo] returns the first
    trackpoint's position as it is, and otherwise nothing.  For a photo time
    after the last trackpoint the same holds with the last trackpoint and the
    gap [photo - last]. *)
Theorem C3_outside_range (self : GPSMatcher.t) (photo_time : datetime)
    (first final : GPSTrackPoint) :
  time_sorted (GPSMatcher.trackpoints self) ->
  head (GPSMatcher.trackpoints self) = Some first ->
  last (GPSMatcher.trackpoints self) = Some final ->
  ((micros photo_time < micros (timestamp first))%Z ->
   GPSMatcher.find_gps_for_photo self photo_time =
     if GPSMatcher.force_interpolate self
        || (Datetime.total_seconds (Datetime.sub (timestamp first) photo_time)
              <=? GPSMatcher.max_time_diff self)%float
     then Some (latitude first, longitude first, elevation first)
     else None)
  /\ ((micros (timestamp final) < micros photo_time)%Z ->
      GPSMatcher.find_gps_for_photo self photo_time =
        if GPSMatcher.force_interpolate self
           || (Datetime.total_seconds (Datetime.sub photo_time (timestamp final))
                 <=? GPSMatcher.max_time_diff self)%float
        then Some (latitude final, longitude final, elevation final)
        else None).
Proof.
  intros Hs Hf Hl. unfold GPSMatcher.find_gps_for_photo.
  destruct (GPSMatcher.trackpoints self) as [| x rest] eqn:Etp; [discriminate |].
  injection Hf as ->. split; intros Hq.
  - cbn [GPSMatcher.scan]. unfold Datetime.leb.
    destruct (Z.leb_spec (micros (timestamp first)) (micros photo_time)); [lia |].
    reflexivity.
  - rewrite scan_past_end.
    + rewrite Hl, (last_default _ final first Hl). reflexivity.
    + intros p Hp.
      pose proof (time_sorted_le_last (first :: rest) p final Hs Hl Hp). lia.
Qed.

(** A photo [30 s] before a one-point trace: matched to that point with a
    tolerance of [300 s]. *)
Lemma C3_outside_range_witness :
  GPSMatcher.find_gps_for_photo (GPSMatcher.mk [Sim.p60] 300 false) Sim.t30
    = Some (1%float, 1%float, None)
  /\ GPSMatcher.find_gps_for_photo (GPSMatcher.mk [Sim.p60] 300 false) Sim.t100
    = Some (1%float, 1%float, None)
  /\ GPSMatcher.find_gps_for_photo (GPSMatcher.mk [Sim.p60] 300 false) Sim.t5000
    = None.
Proof.
  pose proof (fun q => C3_outside_range (GPSMatcher.mk [Sim.p60] 300 false) q
                         Sim.p60 Sim.p60
                         (time_sortedb_correct [Sim.p60] eq_refl) eq_refl eq_refl)
    as H.
  split; [exact (proj1 (H Sim.t30) eq_refl) |].
  split; [exact (proj2 (H Sim.t100) eq_refl) | exact (proj2 (H Sim.t5000) eq_refl)].
Defined.

(** ** A photo taken at a trackpoint's own time *)

Section ExactTime.

(** Zero seconds over a positive total is zero. *)
Lemma zero_div_signed (x : float) :
  SFsigned false (Prim2SF x) -> (0 / x)%float = 0%float.
Proof.
  intros Hx. apply Prim2SF_inj. rewrite div_spec.
  change (Prim2SF 0) with (S754_zero false).
  destruct (Prim2SF x) as [| s | | s m e]; cbn in Hx |- *; try contradiction;
    subst s; reflexivity.
Qed.

(** Adding a finite difference scaled by a zero ratio gives the coordinate
    back, up to the sign of zero. *)
Lemma add_scaled_zero (b d : float) :
  finite d -> same_coordinate (b + d * 0)%float b.
Proof.
  unfold finite, same_coordinate. intros Hd.
  assert (Hz : exists s, Prim2SF (d * 0)%float = S754_zero s).
  { rewrite mul_spec. change (Prim2SF 0) with (S754_zero false).
    destruct (Prim2SF d) as [s | s | | s m e]; try contradiction; cbn; eauto. }
  destruct Hz as [s Hz].
  assert (Hadd : Prim2SF (b + d * 0)%float = SF64add (Prim2SF b) (S754_zero s))
    by (rewrite add_spec, Hz; reflexivity).
  destruct (Prim2SF b) as [sb | sb | | sb m e] eqn:Eb.
  - destruct sb, s; cbn in Hadd.
    + left. apply Prim2SF_inj. congruence.
    + right. split; apply Prim2SF_inj; [rewrite Hadd | rewrite Eb]; reflexivity.
    + left. apply Prim2SF_inj. congruence.
    + left. apply Prim2SF_inj. congruence.
  - left. apply Prim2SF_inj. rewrite Hadd, Eb. reflexivity.
  - left. apply Prim2SF_inj. rewrite Hadd, Eb. reflexivity.
  - left. apply Prim2SF_inj. rewrite Hadd, Eb. reflexivity.
Qed.

End ExactTime.

(** C2, as stated, fails in three ways.  Of two trackpoints with the same
    timestamp the matcher returns the later one's position, here [(2, 2)]
    for a photo at the time of the trackpoint at [(0, 0)].  With a negative
    tolerance and no force the matcher refuses a photo taken at a
    trackpoint's very time.  And a latitude [-0.0] comes back from the
    interpolation as [+0.0], which is not the same float. *)
Lemma C2_counterexample :
  (In Sim.p0 [Sim.p0; Sim.p0']
   /\ timestamp Sim.p0 = Sim.t0
   /\ time_sorted [Sim.p0; Sim.p0']
   /\ GPSMatcher.find_gps_for_photo (GPSMatcher.mk [Sim.p0; Sim.p0'] 300 false) Sim.t0
      = Some (2%float, 2%float, None)
   /\ (latitude Sim.p0 =? 2)%float = false
   /\ (longitude Sim.p0 =? 2)%float = false)
  /\ (timestamp Sim.p0 = Sim.t0
      /\ GPSMatcher.find_gps_for_photo (GPSMatcher.mk [Sim.p0; Sim.p60] (-1) false)
                                       Sim.t0
         = None)
  /\ (timestamp Sim.pz = Sim.t0
      /\ GPSMatcher.find_gps_for_photo (GPSMatcher.mk [Sim.pz; Sim.p60] 300 false)
                                       Sim.t0
         = Some (0%float, 0%float, None)
      /\ Prim2SF (latitude Sim.pz) = S754_zero true
      /\ Prim2SF 0%float = S754_zero false).
Proof.
  repeat split; try reflexivity.
  - now left.
  - apply time_sortedb_correct. reflexivity.
Qed.

(** C2, amended.  In a time-ordered trace, for a photo time equal to a
    trackpoint's timestamp, when force is set or the tolerance is not
    negative, [find_gps_for_photo] returns the position of the last
    trackpoint bearing that timestamp.  When that trackpoint is the last of
    the trace, its latitude, longitude and elevation come back as they are,
    bit for bit.  Otherwise its latitude and longitude come back identical,
    except that [-0.0] may come back as [+0.0], provided the coordinate
    differences to the next trackpoint are finite. *)
Theorem C2_exact_timestamp (self : GPSMatcher.t) (photo_time : datetime) (i : nat)
    (p : GPSTrackPoint) :
  time_sorted (GPSMatcher.trackpoints self) ->
  GPSMatcher.trackpoints self !! i = Some p ->
  micros (timestamp p) = micros photo_time ->
  (forall q, GPSMatcher.trackpoints self !! S i = Some q ->
     (micros photo_time < micros (timestamp q))%Z
     /\ finite (latitude q - latitude p) /\ finite (longitude q - longitude p)) ->
  GPSMatcher.force_interpolate self = true
  \/ (0 <=? GPSMatcher.max_time_diff self)%float = true ->
  exists lat lon ele,
    GPSMatcher.find_gps_for_photo self photo_time = Some (lat, lon, ele)
    /\ same_coordinate lat (latitude p)
    /\ same_coordinate lon (longitude p)
    /\ (GPSMatcher.trackpoints self !! S i = None ->
        lat = latitude p /\ lon = longitude p /\ ele = elevation p).
Proof.
  intros Hs Hp Ht Hnext Hok. unfold GPSMatcher.find_gps_for_photo.
  destruct (GPSMatcher.trackpoints self) as [| first rest] eqn:Etp; [discriminate |].
  destruct ((first :: rest) !! S i) as [q |] eqn:Eq.
  - destruct (Hnext q eq_refl) as (Hq & Hflat & Hflon).
    rewrite (scan_between photo_time p q (first :: rest) i None Hs Hp Eq) by lia.
    assert (E0 : Datetime.sub photo_time (timestamp p) = 0%Z)
      by (unfold Datetime.sub; lia).
    rewrite E0, total_seconds_0.
    assert (Hmin : PyFloat.min 0 (Datetime.total_seconds
                                    (Datetime.sub (timestamp q) photo_time)) = 0%float).
    { unfold PyFloat.min.
      rewrite total_seconds_lt_0 by apply datetime_sub_bound.
      unfold Datetime.sub.
      destruct (Z.ltb_spec (micros (timestamp q) - micros photo_time) 0);
        [lia | reflexivity]. }
    rewrite Hmin.
    assert (Hgate : negb (GPSMatcher.force_interpolate self)
                    && (GPSMatcher.max_time_diff self <? 0)%float = false).
    { destruct Hok as [-> | Hle]; [reflexivity |].
      rewrite (leb_not_gt _ _ Hle). apply andb_false_r. }
    rewrite Hgate.
    assert (Hne : Datetime.sub (timestamp q) (timestamp p) <> 0%Z)
      by (unfold Datetime.sub; lia).
    rewrite total_seconds_eqb_0 by apply datetime_sub_bound.
    destruct (Z.eqb_spec (Datetime.sub (timestamp q) (timestamp p)) 0);
      [contradiction |].
    rewrite zero_div_signed.
    + eexists _, _, _. split; [reflexivity |].
      split; [now apply add_scaled_zero |].
      split; [now apply add_scaled_zero | congruence].
    + pose proof (total_seconds_signed _ Hne (datetime_sub_bound _ _)) as Hsg.
      unfold Datetime.sub in Hsg |- *.
      destruct (Z.ltb_spec (micros (timestamp q) - micros (timestamp p)) 0);
        [lia | exact Hsg].
  - assert (Hl : last (first :: rest) = Some p).
    { rewrite last_lookup. apply lookup_ge_None in Eq.
      apply lookup_lt_Some in Hp as Hlt.
      replace (Nat.pred (length (first :: rest))) with i by lia. exact Hp. }
    rewrite scan_past_end.
    + rewrite Hl, (last_default _ p first Hl).
      assert (E0 : Datetime.sub photo_time (timestamp p) = 0%Z)
        by (unfold Datetime.sub; lia).
      rewrite E0, total_seconds_0.
      assert (Hgate : GPSMatcher.force_interpolate self
                      || (0 <=? GPSMatcher.max_time_diff self)%float = true).
      { destruct Hok as [-> | ->]; [reflexivity | apply orb_true_r]. }
      rewrite Hgate. eexists _, _, _. split; [reflexivity |].
      split; [now left |]. split; [now left |]. intros _. repeat split.
    + intros x Hx.
      pose proof (time_sorted_le_last (first :: rest) x p Hs Hl Hx). lia.
Qed.

(** At the shared time of [p0] and [p0'], followed by [p60], the position
    matched is that of [p0'], the later of the two.  At the end of a trace,
    the latitude [-0.0] of [pz] comes back as it is. *)
Lemma C2_exact_timestamp_witness :
  (exists lat lon ele,
     GPSMatcher.find_gps_for_photo
       (GPSMatcher.mk [Sim.p0; Sim.p0'; Sim.p60] 300 false) Sim.t0
     = Some (lat, lon, ele)
     /\ same_coordinate lat 2%float
     /\ same_coordinate lon 2%float
     /\ ([Sim.p0; Sim.p0'; Sim.p60] !! 2 = None ->
         lat = 2%float /\ lon = 2%float /\ ele = None))
  /\ (exists lat lon ele,
        GPSMatcher.find_gps_for_photo (GPSMatcher.mk [Sim.p0; Sim.pz] 300 false)
                                      Sim.t0
        = Some (lat, lon, ele)
        /\ same_coordinate lat neg_zero
        /\ same_coordinate lon 0%float
        /\ ([Sim.p0; Sim.pz] !! 2 = None ->
            lat = neg_zero /\ lon = 0%float /\ ele = None)).
Proof.
  split.
  - apply (C2_exact_timestamp (GPSMatcher.mk [Sim.p0; Sim.p0'; Sim.p60] 300 false)
             Sim.t0 1 Sim.p0').
    + apply time_sortedb_correct. reflexivity.
    + reflexivity.
    + reflexivity.
    + intros q [= <-]. repeat split.
    + right. reflexivity.
  - apply (C2_exact_timestamp (GPSMatcher.mk [Sim.p0; Sim.pz] 300 false)
             Sim.t0 1 Sim.pz).
    + apply time_sortedb_correct. reflexivity.
    + reflexivity.
    + reflexivity.
    + intros q [=].
    + right. reflexivity.
Defined.

(** * The interval estimator *)

Section Estimator.

(** The indexed loop collects the positive deltas of the pairs it visits. *)
Lemma intervals_from_deltas (tps : list GPSTrackPoint) :
  forall (m k : nat) (acc : list float),
  1 <= k -> k + m = length tps ->
  GPXParser.intervals_from tps (seq k m) acc
  = acc ++ positive_deltas (drop (k - 1) tps).
Proof.
  induction m as [| m IH]; intros k acc Hk Hlen.
  - cbn [seq GPXParser.intervals_from].
    destruct (lookup_lt_is_Some_2 tps (k - 1) ltac:(lia)) as [x Hx].
    rewrite (drop_S _ _ _ Hx), drop_ge by lia.
    unfold positive_deltas. cbn. now rewrite app_nil_r.
  - cbn [seq GPXParser.intervals_from].
    destruct (lookup_lt_is_Some_2 tps k ltac:(lia)) as [cur Hcur].
    destruct (lookup_lt_is_Some_2 tps (k - 1) ltac:(lia)) as [prev Hprev].
    rewrite Hcur, Hprev, (drop_S _ _ _ Hprev).
    replace (S (k - 1)) with k by lia.
    rewrite total_seconds_gt_0 by apply datetime_sub_bound.
    assert (Hd : positive_deltas (prev :: drop k tps)
                 = (if (0 <? Datetime.sub (timestamp cur) (timestamp prev))%Z
                    then [Datetime.total_seconds
                            (Datetime.sub (timestamp cur) (timestamp prev))]
                    else [])
                   ++ positive_deltas (drop k tps)).
    { rewrite (drop_S _ _ _ Hcur). unfold positive_deltas.
      cbn [successive_deltas List.filter].
      destruct (0 <? Datetime.sub (timestamp cur) (timestamp prev))%Z; reflexivity. }
    rewrite Hd.
    destruct (0 <? Datetime.sub (timestamp cur) (timestamp prev))%Z;
      rewrite (IH (S k)) by lia; replace (S k - 1) with k by lia;
      [rewrite <- app_assoc |]; reflexivity.
Qed.

End Estimator.

(** C7.  [calculate_average_interval] returns [300] seconds for a trace of
    fewer than two points; otherwise the arithmetic mean of the strictly
    positive time deltas between consecutive points, and [300] when there is
    none.  For the timestamps [0, 100, 300] it returns [150]. *)
Theorem C7_average_interval {python : PyFloat.Interpreter} :
  (forall self : GPXParser.t,
     GPXParser.calculate_average_interval self =
       if length (GPXParser.trackpoints self) <? 2 then 300%float
       else
         match positive_deltas (GPXParser.trackpoints self) with
         | [] => 300%float
         | _ :: _ => mean (positive_deltas (GPXParser.trackpoints self))
         end)
  /\ GPXParser.calculate_average_interval
       (GPXParser.mk [] [Sim.p0; Sim.p100; Sim.p300]) = 150%float.
Proof.
  split; [| destruct python as [[]]; reflexivity].
  intros self. unfold GPXParser.calculate_average_interval.
  destruct (Nat.ltb_spec (length (GPXParser.trackpoints self)) 2) as [| Hlen];
    [reflexivity |].
  rewrite (intervals_from_deltas _ _ 1) by lia. cbn [app Nat.sub]. rewrite drop_0.
  destruct (positive_deltas (GPXParser.trackpoints self)); reflexivity.
Qed.

(** * The metadata accessor *)

Section Accessor.
Context `{Tools World}.


(** A read leaves a filled cache as it is. *)
Lemma get_raw_info_cached (self : PhotoProcessor.t) (w : World) (info : exiftool_info) :
  PhotoProcessor._raw_info self = Some info ->
  PhotoProcessor._get_raw_info self w = (Ok (Some info), self).
Proof. unfold PhotoProcessor._get_raw_info. now intros ->. Qed.

(** Writing through [exiftool] never touches the object: the cached
    [_raw_info] stays what it was. *)
Lemma write_gps_to_raw_keeps_self (self : PhotoProcessor.t) (lat lon : float)
    (ele : option float) (w : World) :
  snd (fst (PhotoProcessor._write_gps_to_raw self lat lon ele w)) = self.
Proof.
  unfold PhotoProcessor._write_gps_to_raw.
  destruct (exiftool_write _ w) as [[rc | e] w']; [| reflexivity].
  destruct (negb (rc =? 0)%Z); reflexivity.
Qed.

(** Writing through [piexif], when it succeeds, empties the cache. *)
Lemma write_gps_to_jpg_clears_cache (self self' : PhotoProcessor.t) (lat lon : float)
    (ele : option float) (w w' : World) :
  PhotoProcessor._write_gps_to_jpg self lat lon ele w = (Ok (), self', w') ->
  PhotoProcessor._jpeg_exif_dict self' = None.
Proof.
  unfold PhotoProcessor._write_gps_to_jpg.
  destruct (PhotoProcessor._get_jpeg_exif_dict self w) as [[d | e] self1];
    [| discriminate].
  destruct (PhotoProcessor.gps_ifd_of lat lon ele) as [ifd | e]; [| discriminate].
  destruct (piexif_insert _ _ w) as [[[] | e] w1]; [| discriminate].
  now intros [= <- _].
Qed.

End Accessor.



(** C5 fails on the [exiftool] path.  A RAW file without GPS is checked,
    which fills the cache; the write succeeds and the file now reports GPS
    tags; the record still holds the record read before the write, and
    [has_gps_data] on it still answers false, while a fresh record answers
    true. *)
Theorem C5_raw_cache_not_invalidated :
  let p0 := PhotoProcessor.init Sim.b_arw 0 in
  let p1 := snd (PhotoProcessor.has_gps_data p0 Sim.w9) in
  let p2 := fst (PhotoProcessor.write_gps_data p1 0.5 0.5 None false Sim.w9) in
  let w2 := snd (PhotoProcessor.write_gps_data p1 0.5 0.5 None false Sim.w9) in
  fst (PhotoProcessor.has_gps_data p0 Sim.w9) = false
  /\ fst (fst (PhotoProcessor.write_attempt p1 0.5 0.5 None Sim.w9)) = Ok ()
  /\ PhotoProcessor._raw_info p2 = PhotoProcessor._raw_info p1
  /\ is_Some (PhotoProcessor._raw_info p2)
  /\ fst (PhotoProcessor.has_gps_data p2 w2) = false
  /\ fst (PhotoProcessor.has_gps_data p0 w2) = true.
Proof.
  cbv zeta. repeat split; try (vm_compute; reflexivity).
  vm_compute. eexists. reflexivity.
Qed.

(** * The batch pipeline *)

Section EmptyTrace.
Context `{Tools World}.

(** A document without points parses to the empty trace. *)
Lemma parse_no_points (gpx_file : Path) (w : World) (gpx : gpx_document) :
  gpxpy_parse gpx_file w = Ok gpx ->
  concat (concat gpx) = [] ->
  GPXParser.parse (GPXParser.init gpx_file) w = Ok ([], GPXParser.mk gpx_file []).
Proof.
  intros Hg Hc. unfold GPXParser.parse. cbn [GPXParser.gpx_file GPXParser.init].
  rewrite Hg, Hc. reflexivity.
Qed.

(** On a document without points [process_photos] logs the error and
    returns, in the world it started in. *)
Lemma process_photos_no_points (gpx_file photos_dir : Path)
    (overwrite_gps dry_run : bool) (max_time_diff : option float)
    (recursive : bool) (time_offset_seconds : float) (workers : Z)
    (force_interpolate : bool) (w : World) (gpx : gpx_document) :
  gpxpy_parse gpx_file w = Ok gpx ->
  concat (concat gpx) = [] ->
  process_photos gpx_file photos_dir overwrite_gps dry_run max_time_diff recursive
                 time_offset_seconds workers force_interpolate w
  = (Ok NoTrackpoints, w).
Proof.
  intros Hg Hc. unfold process_photos.
  rewrite (parse_no_points gpx_file w gpx Hg Hc). reflexivity.
Qed.

End EmptyTrace.

(** C6, as stated, fails in two ways.  On a trace without points, next to a
    directory with six photos, [process_photos] hands its caller the [None]
    of a completed run and [main] ends with exit status [0], as after the
    completed run over [Sim.w9], while a missing trace file ends in status
    [1]: no failure reaches the caller.  And on a trace of two points that
    both lack a time, which has no usable trackpoint either,
    [process_photos] raises [AttributeError] and [main] ends with status
    [1]. *)
Lemma C6_counterexample :
  (concat (concat [[[]]]) = ([] : list gpx_point)
   /\ process_photos Sim.gpx_file Sim.photos_dir false false None false 0 1 false
                     Sim.w6
      = (Ok NoTrackpoints, Sim.w6)
   /\ returned (fst (process_photos Sim.gpx_file Sim.photos_dir false false None
                                    false 0 1 false Sim.w6))
      = Ok tt
   /\ returned (fst (process_photos Sim.gpx_file Sim.photos_dir false false None
                                    false 0 1 false Sim.w9))
      = Ok tt
   /\ main Sim.args Sim.w6 = (0%Z, Sim.w6)
   /\ fst (main Sim.args Sim.w9) = 0%Z
   /\ main (mk_Args ["missing.gpx"]%string Sim.photos_dir false false None false 0 1
                    false) Sim.w6
      = (1%Z, Sim.w6))
  /\ (length (concat (concat Sim.trace_timeless)) = 2
      /\ omap trackpoint_of (concat (concat Sim.trace_timeless)) = []
      /\ process_photos Sim.gpx_file Sim.photos_dir false false None false 0 1 false
                        Sim.w_timeless
         = (Raise AttributeError, Sim.w_timeless)
      /\ main Sim.args Sim.w_timeless = (1%Z, Sim.w_timeless)).
Proof. repeat split; vm_compute; reflexivity. Qed.

(** C6, amended.  When the GPX document holds no point at all,
    [process_photos] logs the error and returns normally, in the world it
    started in: no photo is looked for and no file touched.  Its caller is
    handed [None], as after a completed run, and [main], given valid paths,
    ends with exit status [0]. *)
Theorem C6_empty_trace `{Tools World} `{Paths World} (gpx_file photos_dir : Path)
    (overwrite_gps dry_run : bool) (max_time_diff : option float)
    (recursive : bool) (time_offset_seconds : float) (workers : Z)
    (force_interpolate : bool) (w : World) (gpx : gpx_document) :
  gpxpy_parse gpx_file w = Ok gpx ->
  concat (concat gpx) = [] ->
  process_photos gpx_file photos_dir overwrite_gps dry_run max_time_diff recursive
                 time_offset_seconds workers force_interpolate w
  = (Ok NoTrackpoints, w)
  /\ returned (fst (process_photos gpx_file photos_dir overwrite_gps dry_run
                                   max_time_diff recursive time_offset_seconds
                                   workers force_interpolate w))
     = Ok tt
  /\ forall args : Args,
       args_gpx_file args = gpx_file ->
       path_exists gpx_file w = true ->
       path_exists (args_photos_dir args) w = true ->
       path_is_dir (args_photos_dir args) w = true ->
       main args w = (0%Z, w).
Proof.
  intros Hg Hc.
  split; [now apply (process_photos_no_points _ _ _ _ _ _ _ _ _ _ gpx) |].
  split.
  - now rewrite (process_photos_no_points _ _ _ _ _ _ _ _ _ _ gpx Hg Hc).
  - intros args Hfile Hgpx Hdir His. unfold main.
    rewrite Hfile, Hgpx, Hdir, His. cbn [negb].
    now rewrite (process_photos_no_points _ _ _ _ _ _ _ _ _ _ gpx Hg Hc).
Qed.

(** A trace of one empty segment, next to a directory with six photos. *)
Lemma C6_empty_trace_witness :
  process_photos Sim.gpx_file Sim.photos_dir false false None false 0 1 false Sim.w6
  = (Ok NoTrackpoints, Sim.w6)
  /\ returned (fst (process_photos Sim.gpx_file Sim.photos_dir false false None
                                   false 0 1 false Sim.w6))
     = Ok tt
  /\ main Sim.args Sim.w6 = (0%Z, Sim.w6).
Proof.
  assert (Hparse : gpxpy_parse Sim.gpx_file Sim.w6 = Ok [[[]]]) by reflexivity.
  destruct (C6_empty_trace Sim.gpx_file Sim.photos_dir false false None false 0 1
              false Sim.w6 [[[]]] Hparse eq_refl) as (Hrun & Hnone & Hmain).
  split; [exact Hrun |]. split; [exact Hnone |].
  apply (Hmain Sim.args); reflexivity.
Defined.

(** C8 fails for a mixed-case extension.  The directory holds [a.jpg],
    [IMG_0001.Jpg] and [B.JPG]; all three have a supported extension once
    lower-cased, as [PhotoProcessor] itself reads extensions, yet
    [find_photos] returns only the all-lower and the all-upper one. *)
Theorem C8_mixed_case_missed :
  In ["photos"; "IMG_0001.Jpg"]%string (scandir Sim.photos_dir false Sim.w8)
  /\ In (PyStr.lower (PyPath.suffix ["photos"; "IMG_0001.Jpg"]%string))
        PhotoProcessor.SUPPORTED_EXTENSIONS
  /\ PhotoProcessor.is_raw (PhotoProcessor.init ["photos"; "IMG_0001.Jpg"]%string 0)
     = false
  /\ find_photos Sim.photos_dir false Sim.w8
     = [["photos"; "B.JPG"]; ["photos"; "a.jpg"]]%string
  /\ find_photos Sim.photos_dir true Sim.w8
     = [["photos"; "B.JPG"]; ["photos"; "a.jpg"]]%string.
Proof.
  split; [cbn; tauto |].
  split; [vm_compute; tauto |].
  repeat split; vm_compute; reflexivity.
Qed.

Section Pipeline.
Context `{Tools World}.
Local Open Scope Z_scope.

(** The worker returns one outcome, and a diagnostic entry only for a photo
    without match whose time lies within the trace's range. *)
Lemma process_single_photo_outcome (trackpoints : list GPSTrackPoint)
    (matcher : GPSMatcher.t) (overwrite_gps dry_run : bool)
    (time_offset_seconds : float) (photo_path : Path) (w w' : World)
    (res : PhotoResult.t) :
  _process_single_photo trackpoints matcher overwrite_gps dry_run
                        time_offset_seconds photo_path w = (Ok res, w') ->
  one_outcome res
  /\ forall entry, PhotoResult.in_range_no_match res = Some entry ->
       PhotoResult.skipped_no_match res = 1
       /\ fst entry = photo_path /\ in_trace_range trackpoints (snd entry).
Proof.
  unfold _process_single_photo.
  destruct (if negb overwrite_gps then _ else _) as [[] processor].
  { intros [= <- _]. split; [constructor | discriminate]. }
  destruct (PhotoProcessor.get_photo_timestamp processor w) as [[photo_time |] pr].
  2: { intros [= <- _]. split; [constructor | discriminate]. }
  destruct (GPSMatcher.find_gps_for_photo matcher photo_time) as [[[lat lon] ele] |].
  { destruct (PhotoProcessor.write_gps_data pr lat lon ele dry_run w).
    intros [= <- _]. split; [constructor | discriminate]. }
  destruct trackpoints as [| first rest]; [discriminate |].
  destruct (Datetime.leb (timestamp first) photo_time
            && Datetime.leb photo_time (timestamp (List.last (first :: rest) first)))
    eqn:Erange; intros [= <- _]; (split; [constructor |]); [| discriminate].
  intros entry [= <-]. cbn [fst snd PhotoResult.skipped_no_match].
  repeat split.
  apply andb_true_iff in Erange as [H1 H2]. apply Z.leb_le in H1, H2.
  destruct (last (first :: rest)) as [final |] eqn:El;
    [| apply last_None in El; discriminate].
  exists first, final. rewrite (last_default _ final first El) in H2.
  repeat split; auto.
Qed.

(** Each photo adds one to the counters, and at most one entry, of a photo
    counted as without match, to the diagnostic list. *)
Lemma run_counts (worker : Path -> World -> result PhotoResult.t * World)
    (R : datetime -> Prop) :
  (forall photo w res w', worker photo w = (Ok res, w') ->
     one_outcome res
     /\ forall entry, PhotoResult.in_range_no_match res = Some entry ->
          PhotoResult.skipped_no_match res = 1
          /\ fst entry = photo /\ R (snd entry)) ->
  forall photos stats skipped w stats' skipped' w',
  run worker photos stats skipped w = (Ok (stats', skipped'), w') ->
  Stats.total stats' = Stats.total stats
  /\ outcome_count stats' = outcome_count stats + Z.of_nat (length photos)
  /\ exists extra,
       skipped' = skipped ++ extra
       /\ Z.of_nat (length extra)
          <= Stats.skipped_no_match stats' - Stats.skipped_no_match stats
       /\ Forall (fun entry => In (fst entry) photos /\ R (snd entry)) extra.
Proof.
  intros Hworker.
  induction photos as [| photo rest IH]; intros stats skipped w stats' skipped' w'.
  - cbn [run]. intros [= <- <- _]. repeat split; [cbn; lia |].
    exists nil. rewrite app_nil_r. repeat split; [cbn; lia | constructor].
  - cbn [run]. destruct (worker photo w) as [[res | e] w1] eqn:Ew; [| discriminate].
    destruct (Hworker _ _ _ _ Ew) as [Hone Hentry].
    destruct (accumulate stats skipped res) as [stats1 skipped1] eqn:Eacc.
    intros Hrun. destruct (IH _ _ _ _ _ _ Hrun) as (Htot & Hcount & extra & -> & Hlen & Hall).
    unfold accumulate in Eacc. injection Eacc as <- <-.
    unfold outcome_count in *. cbn [Stats.total Stats.updated Stats.skipped_has_gps
      Stats.skipped_no_timestamp Stats.skipped_no_match] in *.
    assert (Hrest : Forall (fun entry => In (fst entry) (photo :: rest) /\ R (snd entry))
                      extra).
    { eapply Forall_impl; [exact Hall |]. intros entry [Hin HR]. split; [now right | auto]. }
    split; [exact Htot |].
    destruct Hone as [| | | entry];
      cbn [PhotoResult.updated PhotoResult.skipped_has_gps
           PhotoResult.skipped_no_timestamp PhotoResult.skipped_no_match
           PhotoResult.in_range_no_match] in *;
      (split; [cbn [length]; lia |]);
      try (exists extra; repeat split; [lia | exact Hrest]).
    destruct entry as [entry |].
    + destruct (Hentry entry eq_refl) as (_ & Hp & HR).
      exists (entry :: extra). rewrite <- app_assoc. repeat split.
      * cbn [length]. lia.
      * constructor; [split; [left; now symmetry | exact HR] | exact Hrest].
    + exists extra. repeat split; [lia | exact Hrest].
Qed.

End Pipeline.

Section PipelineRuns.
Context `{Tools World}.

(** On a trace that is not empty the worker returns a result. *)
Lemma process_single_photo_returns (trackpoints : list GPSTrackPoint)
    (matcher : GPSMatcher.t) (overwrite_gps dry_run : bool)
    (time_offset_seconds : float) (photo_path : Path) (w : World) :
  trackpoints <> [] ->
  exists res w',
    _process_single_photo trackpoints matcher overwrite_gps dry_run
                          time_offset_seconds photo_path w = (Ok res, w').
Proof.
  intros Hne. unfold _process_single_photo.
  destruct (if negb overwrite_gps then _ else _) as [[] processor]; [eauto |].
  destruct (PhotoProcessor.get_photo_timestamp processor w) as [[photo_time |] pr];
    [| eauto].
  destruct (GPSMatcher.find_gps_for_photo matcher photo_time) as [[[lat lon] ele] |].
  - destruct (PhotoProcessor.write_gps_data pr lat lon ele dry_run w). eauto.
  - destruct trackpoints as [| first rest]; [contradiction |].
    destruct (_ && _); eauto.
Qed.

(** A loop over workers that all return runs to its end. *)
Lemma run_returns (worker : Path -> World -> result PhotoResult.t * World) :
  (forall photo w, exists res w', worker photo w = (Ok res, w')) ->
  forall photos stats skipped w,
  exists stats' skipped' w',
    run worker photos stats skipped w = (Ok (stats', skipped'), w').
Proof.
  intros Hworker. induction photos as [| photo rest IH]; intros stats skipped w.
  - cbn [run]. eauto.
  - cbn [run]. destruct (Hworker photo w) as (res & w1 & ->).
    destruct (accumulate stats skipped res) as [stats1 skipped1]. apply IH.
Qed.

End PipelineRuns.

Section PipelineSteps.
Context `{Tools World}.
Local Open Scope Z_scope.

(** A diagnostic entry is returned exactly for a photo that found no match
    and whose capture time lies within the range of the trace; it holds the
    photo and that capture time. *)
Lemma process_single_photo_entry (trackpoints : list GPSTrackPoint)
    (matcher : GPSMatcher.t) (overwrite_gps dry_run : bool)
    (time_offset_seconds : float) (photo_path : Path) (w w' : World)
    (res : PhotoResult.t) :
  _process_single_photo trackpoints matcher overwrite_gps dry_run
                        time_offset_seconds photo_path w = (Ok res, w') ->
  (forall entry, PhotoResult.in_range_no_match res = Some entry ->
     PhotoResult.skipped_no_match res = 1
     /\ fst entry = photo_path
     /\ capture_time overwrite_gps time_offset_seconds photo_path w = Some (snd entry)
     /\ GPSMatcher.find_gps_for_photo matcher (snd entry) = None
     /\ in_trace_range trackpoints (snd entry))
  /\ (PhotoResult.skipped_no_match res = 1 ->
      forall t,
        capture_time overwrite_gps time_offset_seconds photo_path w = Some t ->
        in_trace_range trackpoints t ->
        PhotoResult.in_range_no_match res = Some (photo_path, t)).
Proof.
  unfold _process_single_photo, capture_time.
  destruct (if negb overwrite_gps then _ else _) as [[] processor]; cbn [fst snd].
  { intros [= <- _]. split; [discriminate | cbn; lia]. }
  destruct (PhotoProcessor.get_photo_timestamp processor w) as [[photo_time |] pr];
    cbn [fst].
  2: { intros [= <- _]. split; [discriminate | cbn; lia]. }
  destruct (GPSMatcher.find_gps_for_photo matcher photo_time) as [[[lat lon] ele] |]
    eqn:Ematch.
  { destruct (PhotoProcessor.write_gps_data pr lat lon ele dry_run w).
    intros [= <- _]. split; [discriminate | cbn; lia]. }
  destruct trackpoints as [| first rest]; [discriminate |].
  destruct (last (first :: rest)) as [final |] eqn:El;
    [| apply last_None in El; discriminate].
  rewrite (last_default _ final first El).
  destruct (Datetime.leb (timestamp first) photo_time
            && Datetime.leb photo_time (timestamp final)) eqn:Erange;
    intros [= <- _]; cbn [PhotoResult.in_range_no_match PhotoResult.skipped_no_match].
  - split.
    + intros entry [= <-]. cbn [fst snd]. repeat split; [exact Ematch |].
      apply andb_true_iff in Erange as [H1 H2]. apply Z.leb_le in H1, H2.
      exists first, final. repeat split; auto.
    + intros _ t [= <-] _. reflexivity.
  - split; [discriminate |].
    intros _ t [= <-] (first' & final' & [= <-] & Hl & Hlo & Hhi).
    rewrite El in Hl. injection Hl as <-.
    apply andb_false_iff in Erange as [E | E]; apply Z.leb_gt in E; lia.
Qed.

(** A run that reaches its end has processed the photos one after the
    other: the counters are the tallies of the workers' results, and the
    diagnostic list holds their entries, in that order. *)
Lemma run_processed (worker : Path -> World -> result PhotoResult.t * World) :
  forall photos stats skipped w stats' skipped' w',
  run worker photos stats skipped w = (Ok (stats', skipped'), w') ->
  exists steps,
    processed worker photos w steps w'
    /\ map Step.photo steps = photos
    /\ Stats.updated stats' = Stats.updated stats + tally PhotoResult.updated steps
    /\ Stats.skipped_has_gps stats'
       = Stats.skipped_has_gps stats + tally PhotoResult.skipped_has_gps steps
    /\ Stats.skipped_no_timestamp stats'
       = Stats.skipped_no_timestamp stats + tally PhotoResult.skipped_no_timestamp steps
    /\ Stats.skipped_no_match stats'
       = Stats.skipped_no_match stats + tally PhotoResult.skipped_no_match steps
    /\ skipped'
       = skipped ++ omap (fun step => PhotoResult.in_range_no_match (Step.result step))
                         steps.
Proof.
  induction photos as [| photo rest IH]; intros stats skipped w stats' skipped' w'.
  - cbn [run]. intros [= <- <- <-]. exists nil.
    split; [constructor |]. cbn [map tally fold_right omap].
    rewrite app_nil_r. repeat split; lia.
  - cbn [run]. destruct (worker photo w) as [[res | e] w1] eqn:Ew; [| discriminate].
    unfold accumulate. intros Hrun.
    destruct (IH _ _ _ _ _ _ Hrun) as (steps & Hp & Hm & H1 & H2 & H3 & H4 & Hs).
    cbn [Stats.updated Stats.skipped_has_gps Stats.skipped_no_timestamp
         Stats.skipped_no_match] in H1, H2, H3, H4.
    exists (Step.mk photo w res :: steps).
    split; [econstructor; eassumption |].
    cbn [map tally fold_right omap Step.photo Step.result]. fold (@tally World).
    split; [now rewrite Hm |].
    repeat (split; [unfold tally in *; lia |]).
    rewrite Hs. cbn [omap list_omap Step.result].
    destruct (PhotoResult.in_range_no_match res) as [entry |];
      [now rewrite <- app_assoc | reflexivity].
Qed.

(** What holds of every return of the worker holds of every step. *)
Lemma processed_Forall (worker : Path -> World -> result PhotoResult.t * World)
    (P : Step.t World -> Prop) :
  (forall photo w res w', worker photo w = (Ok res, w') -> P (Step.mk photo w res)) ->
  forall photos w steps w', processed worker photos w steps w' -> Forall P steps.
Proof.
  intros HP photos w steps w' Hrun.
  induction Hrun as [| photo rest w w1 w2 res steps Hw _ IH]; constructor; eauto.
Qed.

End PipelineSteps.

(** C9.  On a trace that is not empty and a directory in which photos are
    found, the run reaches its summary.  Every worker returns a result that
    names exactly one of the four outcomes, so the four counters add up to
    the total, which is the number of photos found.  The photos found are
    processed one after the other, each once; every counter is the tally of
    its outcome over them, and the diagnostic list holds the workers'
    entries in that order.  A worker returns an entry exactly when its photo
    found no match and the capture time it read lies between the first and
    the last timestamp of the trace, and the entry holds that photo and that
    capture time. *)
Theorem C9_outcome_counts `{Tools World} (gpx_file photos_dir : Path)
    (overwrite_gps dry_run : bool) (max_time_diff : option float)
    (recursive : bool) (time_offset_seconds : float) (workers : Z)
    (force_interpolate : bool) (w : World) (trackpoints : list GPSTrackPoint)
    (parser : GPXParser.t) :
  GPXParser.parse (GPXParser.init gpx_file) w = Ok (trackpoints, parser) ->
  trackpoints <> [] ->
  find_photos photos_dir recursive w <> [] ->
  exists stats skipped w',
    process_photos gpx_file photos_dir overwrite_gps dry_run max_time_diff recursive
                   time_offset_seconds workers force_interpolate w
    = (Ok (Summary stats skipped), w')
    /\ Stats.total stats = Z.of_nat (length (find_photos photos_dir recursive w))
    /\ outcome_count stats = Stats.total stats
    /\ (Z.of_nat (length skipped) <= Stats.skipped_no_match stats)%Z
    /\ Forall (fun entry =>
                 In (fst entry) (find_photos photos_dir recursive w)
                 /\ in_trace_range trackpoints (snd entry)) skipped
    /\ (forall matcher photo w1,
          exists res w2,
            _process_single_photo trackpoints matcher overwrite_gps dry_run
                                  time_offset_seconds photo w1 = (Ok res, w2)
            /\ one_outcome res)
    /\ let matcher :=
         GPSMatcher.mk trackpoints
           (match max_time_diff with
            | Some d => d
            | None =>
                adaptive_max_time_diff (GPXParser.calculate_average_interval parser)
            end)
           force_interpolate in
       exists steps,
         Permutation (map Step.photo steps) (find_photos photos_dir recursive w)
         /\ processed (_process_single_photo trackpoints matcher overwrite_gps dry_run
                                             time_offset_seconds)
                      (map Step.photo steps) w steps w'
         /\ Forall (fun step => one_outcome (Step.result step)) steps
         /\ Stats.updated stats = tally PhotoResult.updated steps
         /\ Stats.skipped_has_gps stats = tally PhotoResult.skipped_has_gps steps
         /\ Stats.skipped_no_timestamp stats
            = tally PhotoResult.skipped_no_timestamp steps
         /\ Stats.skipped_no_match stats = tally PhotoResult.skipped_no_match steps
         /\ skipped
            = omap (fun step => PhotoResult.in_range_no_match (Step.result step)) steps
         /\ Forall (fun step =>
              (forall entry,
                 PhotoResult.in_range_no_match (Step.result step) = Some entry ->
                 PhotoResult.skipped_no_match (Step.result step) = 1%Z
                 /\ fst entry = Step.photo step
                 /\ capture_time overwrite_gps time_offset_seconds (Step.photo step)
                                 (Step.world step) = Some (snd entry)
                 /\ GPSMatcher.find_gps_for_photo matcher (snd entry) = None
                 /\ in_trace_range trackpoints (snd entry))
              /\ (PhotoResult.skipped_no_match (Step.result step) = 1%Z ->
                  forall t,
                    capture_time overwrite_gps time_offset_seconds (Step.photo step)
                                 (Step.world step) = Some t ->
                    in_trace_range trackpoints t ->
                    PhotoResult.in_range_no_match (Step.result step)
                    = Some (Step.photo step, t))) steps.
Proof.
  intros Hparse Htps Hphotos. unfold process_photos. rewrite Hparse.
  destruct trackpoints as [| tp tps]; [contradiction |].
  destruct (find_photos photos_dir recursive w) as [| photo photos] eqn:Ef;
    [contradiction |].
  set (matcher := GPSMatcher.mk _ _ _).
  set (worker := _process_single_photo _ _ _ _ _).
  set (order := if (_ <=? 1)%Z then _ else _).
  assert (Horder : Permutation order (photo :: photos)).
  { subst order. destruct (_ <=? 1)%Z; [reflexivity | apply as_completed_perm]. }
  destruct (run_returns worker
              (fun photo w => process_single_photo_returns _ _ _ _ _ photo w Htps)
              order (Stats.mk (Z.of_nat (length (photo :: photos))) 0 0 0 0) [] w)
    as (stats & skipped & w' & Erun).
  rewrite Erun. exists stats, skipped, w'.
  destruct (run_counts worker (in_trace_range (tp :: tps))
              (fun photo w res w' => process_single_photo_outcome _ _ _ _ _ photo w w' res)
              _ _ _ _ _ _ _ Erun) as (Htot & Hcount & extra & Hsk & Hlen & Hall).
  destruct (run_processed worker _ _ _ _ _ _ _ Erun)
    as (steps & Hsteps & Hmap & Hu & Hg & Ht & Hm & Hentries).
  cbn [app] in Hsk, Hentries. subst extra.
  unfold outcome_count in *.
  cbn [Stats.total Stats.updated Stats.skipped_has_gps Stats.skipped_no_timestamp
       Stats.skipped_no_match] in *.
  rewrite (Permutation_length Horder) in Hcount.
  split; [reflexivity |].
  split; [lia |]. split; [lia |]. split; [lia |].
  split.
  { eapply Forall_impl; [exact Hall |]. intros entry [Hin HR].
    split; [| exact HR]. eapply Permutation_in; eassumption. }
  split.
  { intros m photo0 wa.
    destruct (process_single_photo_returns (tp :: tps) m overwrite_gps dry_run
                time_offset_seconds photo0 wa Htps) as (res & wb & Hres).
    exists res, wb. split; [exact Hres |].
    exact (proj1 (process_single_photo_outcome _ _ _ _ _ _ _ _ _ Hres)). }
  cbv zeta. exists steps. rewrite Hmap.
  split; [exact Horder |]. split; [exact Hsteps |].
  split.
  { apply (processed_Forall worker _
             (fun photo w res w' Hw =>
                proj1 (process_single_photo_outcome _ _ _ _ _ _ _ _ _ Hw))
             _ _ _ _ Hsteps). }
  split; [lia |]. split; [lia |]. split; [lia |]. split; [lia |].
  split; [exact Hentries |].
  apply (processed_Forall worker _
           (fun photo w res w' Hw =>
              process_single_photo_entry _ _ _ _ _ _ _ _ _ Hw)
           _ _ _ _ Hsteps).
Qed.

(** The run over the six photos of [Sim.w9], with a pool of workers: two
    updated, one with GPS already, one without capture time, two without
    match, of which the one taken in the long gap is listed. *)
Lemma C9_outcome_counts_witness :
  fst (process_photos Sim.gpx_file Sim.photos_dir false false None false 0 0 false
                      Sim.w9)
  = Ok (Summary (Stats.mk 6 2 1 1 2) [(Sim.e_heic, Sim.t5000)])
  /\ exists stats skipped w',
       process_photos Sim.gpx_file Sim.photos_dir false false None false 0 0 false
                      Sim.w9
       = (Ok (Summary stats skipped), w')
       /\ Stats.total stats
          = Z.of_nat (length (find_photos Sim.photos_dir false Sim.w9))
       /\ outcome_count stats = Stats.total stats
       /\ (Z.of_nat (length skipped) <= Stats.skipped_no_match stats)%Z
       /\ Forall (fun entry =>
                    In (fst entry) (find_photos Sim.photos_dir false Sim.w9)
                    /\ in_trace_range Sim.trace_points (snd entry)) skipped
       /\ (forall matcher photo w1,
             exists res w2,
               _process_single_photo Sim.trace_points matcher false false 0 photo w1
               = (Ok res, w2)
               /\ one_outcome res)
       /\ let matcher :=
            GPSMatcher.mk Sim.trace_points
              (adaptive_max_time_diff
                 (GPXParser.calculate_average_interval
                    (GPXParser.mk Sim.gpx_file Sim.trace_points)))
              false in
          exists steps,
            Permutation (map Step.photo steps) (find_photos Sim.photos_dir false Sim.w9)
            /\ processed (_process_single_photo Sim.trace_points matcher false false 0)
                         (map Step.photo steps) Sim.w9 steps w'
            /\ Forall (fun step => one_outcome (Step.result step)) steps
            /\ Stats.updated stats = tally PhotoResult.updated steps
            /\ Stats.skipped_has_gps stats = tally PhotoResult.skipped_has_gps steps
            /\ Stats.skipped_no_timestamp stats
               = tally PhotoResult.skipped_no_timestamp steps
            /\ Stats.skipped_no_match stats = tally PhotoResult.skipped_no_match steps
            /\ skipped
               = omap (fun step => PhotoResult.in_range_no_match (Step.result step))
                      steps
            /\ Forall (fun step =>
                 (forall entry,
                    PhotoResult.in_range_no_match (Step.result step) = Some entry ->
                    PhotoResult.skipped_no_match (Step.result step) = 1%Z
                    /\ fst entry = Step.photo step
                    /\ capture_time false 0 (Step.photo step) (Step.world step)
                       = Some (snd entry)
                    /\ GPSMatcher.find_gps_for_photo matcher (snd entry) = None
                    /\ in_trace_range Sim.trace_points (snd entry))
                 /\ (PhotoResult.skipped_no_match (Step.result step) = 1%Z ->
                     forall t,
                       capture_time false 0 (Step.photo step) (Step.world step)
                       = Some t ->
                       in_trace_range Sim.trace_points t ->
                       PhotoResult.in_range_no_match (Step.result step)
                       = Some (Step.photo step, t))) steps.
Proof.
  split; [vm_compute; reflexivity |].
  apply (C9_outcome_counts Sim.gpx_file Sim.photos_dir false false None false 0 0
           false Sim.w9 Sim.trace_points (GPXParser.mk Sim.gpx_file Sim.trace_points)).
  - reflexivity.
  - discriminate.
  - vm_compute. discriminate.
Defined.

(** C10.  Once a photo has passed the GPS check, has a capture time and has
    found a match, the worker returns the outcome [updated], whatever the
    world makes of the write: [write_gps_data] keeps the exception of a
    failed write to itself, and nothing of it reaches the result. *)
Theorem C10_updated_whatever_the_write `{Tools World}
    (trackpoints : list GPSTrackPoint) (matcher : GPSMatcher.t)
    (overwrite_gps dry_run : bool) (time_offset_seconds : float)
    (photo_path : Path) (w : World) (photo_time : datetime)
    (position : GPSMatcher.position) :
  let processor := PhotoProcessor.init photo_path time_offset_seconds in
  let checked :=
    if negb overwrite_gps then PhotoProcessor.has_gps_data processor w
    else (false, processor) in
  fst checked = false ->
  fst (PhotoProcessor.get_photo_timestamp (snd checked) w) = Some photo_time ->
  GPSMatcher.find_gps_for_photo matcher photo_time = Some position ->
  fst (_process_single_photo trackpoints matcher overwrite_gps dry_run
                             time_offset_seconds photo_path w)
  = Ok (PhotoResult.mk 1 0 0 0 None).
Proof.
  intros processor checked Hgps Htime Hmatch. unfold _process_single_photo.
  fold processor. fold checked.
  destruct checked as [has_gps checked_processor]. cbn [fst snd] in Hgps, Htime.
  subst has_gps.
  destruct (PhotoProcessor.get_photo_timestamp checked_processor w) as [t pr].
  cbn [fst] in Htime. subst t. rewrite Hmatch.
  destruct position as [[lat lon] ele].
  destruct (PhotoProcessor.write_gps_data pr lat lon ele dry_run w). reflexivity.
Qed.

(** The read-only [c.nef] of [Sim.w9]: [exiftool] ends with a non-zero exit
    code, the write attempt raises [RuntimeError], and the worker still
    reports the photo as updated. *)
Lemma C10_updated_whatever_the_write_witness :
  (exists processor w',
     PhotoProcessor.write_attempt
       (snd (PhotoProcessor.get_photo_timestamp
               (snd (PhotoProcessor.has_gps_data (PhotoProcessor.init Sim.c_nef 0)
                                                 Sim.w9)) Sim.w9))
       1 1 None Sim.w9
     = (Raise RuntimeError, processor, w'))
  /\ fst (_process_single_photo Sim.trace_points
            (GPSMatcher.mk Sim.trace_points 600 false) false false 0 Sim.c_nef Sim.w9)
     = Ok (PhotoResult.mk 1 0 0 0 None).
Proof.
  split; [eexists _, _; vm_compute; reflexivity |].
  eapply (C10_updated_whatever_the_write Sim.trace_points
            (GPSMatcher.mk Sim.trace_points 600 false) false false 0 Sim.c_nef Sim.w9
            Sim.t100).
  - vm_compute. reflexivity.
  - vm_compute. reflexivity.
  - vm_compute. reflexivity.
Defined.

(** * The trace [parse] builds is in time order *)

Section ParseSorted.

Lemma time_sortedb_cons_insert (y x : GPSTrackPoint) (l : list GPSTrackPoint) :
  time_sortedb (y :: l) = true ->
  (micros (timestamp y) <= micros (timestamp x))%Z ->
  time_sortedb (sorted_insert timestamp_lt x l) = true ->
  time_sortedb (y :: sorted_insert timestamp_lt x l) = true.
Proof.
  intros Hyl Hyx Hins. destruct l as [| z l].
  - cbn. rewrite andb_true_r. now apply Z.leb_le.
  - cbn [sorted_insert] in *. cbn [time_sortedb] in Hyl.
    apply andb_true_iff in Hyl as [Hyz Hzl].
    destruct (timestamp_lt z x); cbn [time_sortedb] in *.
    + rewrite Hyz. exact Hins.
    + apply andb_true_iff. split; [now apply Z.leb_le | exact Hins].
Qed.

Lemma time_sortedb_insert (x : GPSTrackPoint) (l : list GPSTrackPoint) :
  time_sortedb l = true -> time_sortedb (sorted_insert timestamp_lt x l) = true.
Proof.
  induction l as [| y l IH]; intros Hl; [reflexivity |].
  cbn [sorted_insert]. unfold timestamp_lt at 1, Datetime.ltb.
  destruct (Z.ltb_spec (micros (timestamp y)) (micros (timestamp x))).
  - apply time_sortedb_cons_insert; [exact Hl | lia |].
    apply IH. cbn [time_sortedb] in Hl. destruct l; [reflexivity |].
    now apply andb_true_iff in Hl as [_ Hl].
  - change (time_sortedb (x :: y :: l)) with
      ((micros (timestamp x) <=? micros (timestamp y))%Z && time_sortedb (y :: l)).
    apply andb_true_iff. split; [now apply Z.leb_le | exact Hl].
Qed.

Lemma sorted_time_sorted (l : list GPSTrackPoint) :
  time_sorted (sorted timestamp_lt l).
Proof.
  apply time_sortedb_correct.
  induction l as [| x l IH]; [reflexivity |].
  cbn [sorted]. now apply time_sortedb_insert.
Qed.

(** Whatever [gpxpy] delivers, the trackpoints [parse] returns are ordered. *)
Lemma parse_time_sorted `{Tools World} (self parser : GPXParser.t) (w : World)
    (tps : list GPSTrackPoint) :
  GPXParser.parse self w = Ok (tps, parser) -> time_sorted tps.
Proof.
  unfold GPXParser.parse.
  destruct (gpxpy_parse (GPXParser.gpx_file self) w) as [gpx | e]; [| discriminate].
  destruct (GPXParser.collect _ _) as [points | e]; [| discriminate].
  intros [= <- _]. apply sorted_time_sorted.
Qed.

End ParseSorted.

(** * More on [GPXParser] *)

Section StableSort.
Context {A : Type} (lt : A -> A -> bool).

(** Sorting rearranges and neither loses nor invents an item. *)
Lemma sorted_insert_Permutation (x : A) (l : list A) :
  Permutation (sorted_insert lt x l) (x :: l).
Proof.
  induction l as [| y l IH]; cbn [sorted_insert]; [reflexivity |].
  destruct (lt y x); [| reflexivity].
  rewrite IH. apply perm_swap.
Qed.

Lemma sorted_Permutation (l : list A) : Permutation (sorted lt l) l.
Proof.
  induction l as [| x l IH]; cbn [sorted]; [reflexivity |].
  rewrite sorted_insert_Permutation. now constructor.
Qed.

(** An item is inserted in front of the items it is not greater than, so
    a filter that lets through nothing smaller than what it lets through
    sees the items in their old order. *)
Lemma filter_sorted_insert (keep : A -> bool) (x : A) (l : list A) :
  (forall y, keep x = true -> lt y x = true -> keep y = false) ->
  List.filter keep (sorted_insert lt x l) = List.filter keep (x :: l).
Proof.
  intros Hkeep. induction l as [| y l IH]; [reflexivity |].
  cbn [sorted_insert]. destruct (lt y x) eqn:Elt; [| reflexivity].
  cbn [List.filter] in *. rewrite IH.
  destruct (keep x) eqn:Ex; [| reflexivity].
  now rewrite (Hkeep y eq_refl Elt).
Qed.

End StableSort.

Section Parse.
Context `{Tools World}.

(** The loop of [parse] appends the trackpoints of the points, and stops
    with [AttributeError] at the first point without time. *)
Lemma collect_all (points : list gpx_point) : forall acc : list GPSTrackPoint,
  GPXParser.collect points acc =
    if forallb (fun point => bool_decide (is_Some (point_time point))) points
    then Ok (acc ++ omap trackpoint_of points)
    else Raise AttributeError.
Proof.
  induction points as [| point rest IH]; intros acc; cbn [GPXParser.collect forallb].
  - now rewrite app_nil_r.
  - unfold omap, list_omap, trackpoint_of at 1. fold (omap trackpoint_of rest).
    destruct (point_time point) as [t |]; cbn; [| reflexivity].
    rewrite IH. destruct (forallb _ rest); [| reflexivity].
    now rewrite <- app_assoc.
Qed.

Lemma filter_sorted_taken_at (t : datetime) (l : list GPSTrackPoint) :
  List.filter (taken_at t) (sorted timestamp_lt l) = List.filter (taken_at t) l.
Proof.
  induction l as [| x l IH]; [reflexivity |].
  cbn [sorted]. rewrite filter_sorted_insert.
  - cbn [List.filter]. now rewrite IH.
  - intros y Hx Hlt. unfold taken_at, timestamp_lt, Datetime.ltb in *.
    apply Z.eqb_eq in Hx. apply Z.ltb_lt in Hlt. apply Z.eqb_neq. lia.
Qed.

End Parse.

(** X1.  When [gpxpy] reads the file and every point has a time, [parse]
    returns, and stores in the parser, the trackpoints of all points of all
    segments of all tracks, each once, in ascending order of time. *)
Theorem parse_ordered_permutation `{Tools World} (gpx_file : Path) (w : World)
    (gpx : gpx_document) :
  gpxpy_parse gpx_file w = Ok gpx ->
  (forall point, In point (concat (concat gpx)) -> is_Some (point_time point)) ->
  exists tps,
    GPXParser.parse (GPXParser.init gpx_file) w = Ok (tps, GPXParser.mk gpx_file tps)
    /\ time_sorted tps
    /\ Permutation tps (omap trackpoint_of (concat (concat gpx))).
Proof.
  intros Hg Hall. unfold GPXParser.parse.
  cbn [GPXParser.gpx_file GPXParser.trackpoints GPXParser.init].
  rewrite Hg, collect_all.
  assert (Hb : forallb (fun point => bool_decide (is_Some (point_time point)))
                       (concat (concat gpx)) = true).
  { apply forallb_forall. intros point Hin. apply bool_decide_eq_true. auto. }
  rewrite Hb. cbn [app]. eexists. split; [reflexivity |].
  split; [apply sorted_time_sorted | apply sorted_Permutation].
Qed.

(** Three points given out of order, two of them at the same time. *)
Lemma parse_ordered_permutation_witness :
  exists tps,
    GPXParser.parse (GPXParser.init Sim.gpx_file) Sim.w_unordered
    = Ok (tps, GPXParser.mk Sim.gpx_file tps)
    /\ time_sorted tps
    /\ Permutation tps (omap trackpoint_of (concat (concat Sim.trace_unordered))).
Proof.
  apply (parse_ordered_permutation Sim.gpx_file Sim.w_unordered Sim.trace_unordered).
  - reflexivity.
  - intros point Hin. cbn in Hin.
    destruct Hin as [<- | [<- | [<- | []]]]; eexists; reflexivity.
Defined.

(** X2.  The sort of [parse] is stable: the trackpoints taken at one and the
    same time come out in the order the document has them. *)
Theorem parse_stable `{Tools World} (gpx_file : Path) (w : World)
    (gpx : gpx_document) (tps : list GPSTrackPoint) (parser : GPXParser.t)
    (t : datetime) :
  gpxpy_parse gpx_file w = Ok gpx ->
  GPXParser.parse (GPXParser.init gpx_file) w = Ok (tps, parser) ->
  List.filter (taken_at t) tps
  = List.filter (taken_at t) (omap trackpoint_of (concat (concat gpx))).
Proof.
  intros Hg. unfold GPXParser.parse.
  cbn [GPXParser.gpx_file GPXParser.trackpoints GPXParser.init].
  rewrite Hg, collect_all.
  destruct (forallb _ _); [| discriminate].
  intros [= <- _]. cbn [app]. apply filter_sorted_taken_at.
Qed.

(** The two points at [t = 0], at [(2, 2)] and [(0, 0)], keep that order. *)
Lemma parse_stable_witness :
  List.filter (taken_at Sim.t0) [Sim.p0'; Sim.p0; Sim.p60]
  = List.filter (taken_at Sim.t0)
                (omap trackpoint_of (concat (concat Sim.trace_unordered))).
Proof.
  exact (parse_stable Sim.gpx_file Sim.w_unordered Sim.trace_unordered
           [Sim.p0'; Sim.p0; Sim.p60]
           (GPXParser.mk Sim.gpx_file [Sim.p0'; Sim.p0; Sim.p60]) Sim.t0
           eq_refl eq_refl).
Defined.

(** X3.  A single point without time makes [parse] raise [AttributeError],
    whatever the other points are: no trace is returned. *)
Theorem parse_point_without_time `{Tools World} (gpx_file : Path) (w : World)
    (gpx : gpx_document) (point : gpx_point) :
  gpxpy_parse gpx_file w = Ok gpx ->
  In point (concat (concat gpx)) ->
  point_time point = None ->
  GPXParser.parse (GPXParser.init gpx_file) w = Raise AttributeError.
Proof.
  intros Hg Hin Hnone. unfold GPXParser.parse.
  cbn [GPXParser.gpx_file GPXParser.trackpoints GPXParser.init].
  rewrite Hg, collect_all.
  destruct (forallb _ _) eqn:Hb; [| reflexivity].
  rewrite forallb_forall in Hb. specialize (Hb point Hin).
  apply bool_decide_eq_true in Hb. rewrite Hnone in Hb.
  destruct Hb as [? Hb]. discriminate.
Qed.

Lemma parse_point_without_time_witness :
  GPXParser.parse (GPXParser.init Sim.gpx_file)
                  (Sim.mk_world (Ok Sim.trace_without_time) [])
  = Raise AttributeError.
Proof.
  apply (parse_point_without_time Sim.gpx_file
           (Sim.mk_world (Ok Sim.trace_without_time) []) Sim.trace_without_time
           (mk_gpx_point None 5 5 None)).
  - reflexivity.
  - cbn. tauto.
  - reflexivity.
Defined.

Section Estimate.

(** The estimate in terms of the positive deltas, for a trace of any length. *)
Lemma calculate_average_interval_deltas `{PyFloat.Interpreter}
    (self : GPXParser.t) :
  GPXParser.calculate_average_interval self =
    match positive_deltas (GPXParser.trackpoints self) with
    | [] => 300%float
    | _ :: _ => mean (positive_deltas (GPXParser.trackpoints self))
    end.
Proof.
  unfold GPXParser.calculate_average_interval.
  destruct (Nat.ltb_spec (length (GPXParser.trackpoints self)) 2) as [Hlt | Hlen].
  - destruct (GPXParser.trackpoints self) as [| x [| y l]]; try reflexivity.
    cbn in Hlt. lia.
  - rewrite (intervals_from_deltas _ _ 1) by lia. cbn [app Nat.sub]. rewrite drop_0.
    destruct (positive_deltas (GPXParser.trackpoints self)); reflexivity.
Qed.

(** The deltas that follow a point depend on its time only. *)
Lemma successive_deltas_same_time (p p' : GPSTrackPoint) (l : list GPSTrackPoint) :
  micros (timestamp p') = micros (timestamp p) ->
  successive_deltas (p' :: l) = successive_deltas (p :: l).
Proof.
  intros Ht. destruct l as [| x l]; [reflexivity |].
  cbn [successive_deltas]. unfold Datetime.sub. now rewrite Ht.
Qed.

Lemma positive_deltas_repeated (pre post : list GPSTrackPoint) (p p' : GPSTrackPoint) :
  micros (timestamp p') = micros (timestamp p) ->
  positive_deltas (pre ++ p :: p' :: post) = positive_deltas (pre ++ p :: post).
Proof.
  intros Ht. unfold positive_deltas. f_equal.
  induction pre as [| a pre IH].
  - cbn [app]. change (successive_deltas (p :: p' :: post))
      with (Datetime.sub (timestamp p') (timestamp p) :: successive_deltas (p' :: post)).
    rewrite (successive_deltas_same_time p p' post Ht).
    unfold Datetime.sub at 1. rewrite Ht, Z.sub_diag.
    cbn [List.filter Z.ltb Z.compare]. reflexivity.
  - destruct pre as [| b pre]; cbn [app] in *.
    + change (successive_deltas (a :: p :: p' :: post))
        with (Datetime.sub (timestamp p) (timestamp a)
                :: successive_deltas (p :: p' :: post)).
      change (successive_deltas (a :: p :: post))
        with (Datetime.sub (timestamp p) (timestamp a) :: successive_deltas (p :: post)).
      cbn [List.filter]. rewrite IH. reflexivity.
    + change (successive_deltas (a :: b :: pre ++ p :: p' :: post))
        with (Datetime.sub (timestamp b) (timestamp a)
                :: successive_deltas (b :: pre ++ p :: p' :: post)).
      change (successive_deltas (a :: b :: pre ++ p :: post))
        with (Datetime.sub (timestamp b) (timestamp a)
                :: successive_deltas (b :: pre ++ p :: post)).
      cbn [List.filter]. rewrite IH. reflexivity.
Qed.

End Estimate.

(** X4.  A trackpoint recorded a second time, at the time of the one before
    it, does not change the interval estimated: the zero delta is left out
    and the delta to the next point is what it was. *)
Theorem calculate_average_interval_repeated `{PyFloat.Interpreter}
    (gpx_file : Path)
    (pre post : list GPSTrackPoint) (p p' : GPSTrackPoint) :
  micros (timestamp p') = micros (timestamp p) ->
  GPXParser.calculate_average_interval (GPXParser.mk gpx_file (pre ++ p :: p' :: post))
  = GPXParser.calculate_average_interval (GPXParser.mk gpx_file (pre ++ p :: post)).
Proof.
  intros Ht. rewrite !calculate_average_interval_deltas.
  cbn [GPXParser.trackpoints]. now rewrite (positive_deltas_repeated pre post p p' Ht).
Qed.

Lemma calculate_average_interval_repeated_witness :
  GPXParser.calculate_average_interval
    (GPXParser.mk Sim.gpx_file [Sim.p0; Sim.p0'; Sim.p60; Sim.p100])
  = GPXParser.calculate_average_interval
      (GPXParser.mk Sim.gpx_file [Sim.p0; Sim.p60; Sim.p100]).
Proof.
  exact (calculate_average_interval_repeated Sim.gpx_file [] [Sim.p60; Sim.p100]
           Sim.p0 Sim.p0' eq_refl).
Defined.

Section Tolerance.

Lemma ltb_leb (x y : float) : (x <? y)%float = true -> (x <=? y)%float = true.
Proof.
  rewrite FloatAxioms.ltb_spec, FloatAxioms.leb_spec. unfold SFltb, SFleb.
  destruct (SFcompare (Prim2SF x) (Prim2SF y)) as [[] |]; congruence.
Qed.

(** Two floats are incomparable only when one of them is NaN. *)
Lemma SFcompare_None (x y : spec_float) :
  SFcompare x y = None -> x = S754_nan \/ y = S754_nan.
Proof.
  destruct x as [[] | [] | | [] mx ex], y as [[] | [] | | [] my ey];
    cbn; intros Hc; try discriminate; auto.
Qed.

(** Among numbers, what is not below is at or above. *)
Lemma not_ltb_leb (x y z : float) :
  Prim2SF x <> S754_nan -> (z <? y)%float = true -> (x <? y)%float = false ->
  (y <=? x)%float = true.
Proof.
  rewrite !FloatAxioms.ltb_spec, FloatAxioms.leb_spec. unfold SFltb, SFleb.
  intros Hx Hzy Hxy.
  rewrite (SFcompare_antisym (Prim2SF x) (Prim2SF y)).
  destruct (SFcompare (Prim2SF x) (Prim2SF y)) as [[] |] eqn:Ec; try reflexivity;
    try discriminate.
  destruct (SFcompare_None _ _ Ec) as [Hn | Hn]; [contradiction |].
  rewrite Hn in Hzy. destruct (Prim2SF z) as [[] | [] | | [] ? ?]; discriminate.
Qed.

End Tolerance.

(** X5.  The adaptive tolerance lies between [60] and [600] seconds for
    the average interval of every parsed trace, and it is the tolerance a
    run without [--max-time-diff] matches with. *)
Theorem adaptive_max_time_diff_bounds `{Tools World} (gpx_file photos_dir : Path)
    (overwrite_gps dry_run recursive : bool) (time_offset_seconds : float)
    (workers : Z) (force_interpolate : bool) (w : World)
    (tps : list GPSTrackPoint) (parser : GPXParser.t) :
  GPXParser.parse (GPXParser.init gpx_file) w = Ok (tps, parser) ->
  let tolerance :=
    adaptive_max_time_diff (GPXParser.calculate_average_interval parser) in
  (60 <=? tolerance)%float = true
  /\ (tolerance <=? 600)%float = true
  /\ process_photos gpx_file photos_dir overwrite_gps dry_run None recursive
                    time_offset_seconds workers force_interpolate w
     = process_photos gpx_file photos_dir overwrite_gps dry_run (Some tolerance)
                      recursive time_offset_seconds workers force_interpolate w.
Proof.
  intros Hparse tolerance. subst tolerance. unfold adaptive_max_time_diff.
  set (a := (GPXParser.calculate_average_interval parser * 3)%float).
  split; [| split].
  - unfold PyFloat.max, PyFloat.min.
    destruct (600 <? a)%float eqn:E600; [reflexivity |].
    destruct (60 <? a)%float eqn:E60; [now apply ltb_leb | reflexivity].
  - unfold PyFloat.max, PyFloat.min.
    destruct (600 <? a)%float eqn:E600; [reflexivity |].
    destruct (60 <? a)%float eqn:E60; [| reflexivity].
    apply (not_ltb_leb 600 a 60); [discriminate | assumption | assumption].
  - unfold process_photos. rewrite Hparse. reflexivity.
Qed.

(** The trace of [Sim.w9]: the average interval is [4500 s], the tolerance
    [600 s]. *)
Lemma adaptive_max_time_diff_bounds_witness :
  adaptive_max_time_diff
    (GPXParser.calculate_average_interval (GPXParser.mk Sim.gpx_file Sim.trace_points))
  = 600%float
  /\ (60 <=? 600)%float = true
  /\ (600 <=? 600)%float = true
  /\ process_photos Sim.gpx_file Sim.photos_dir false false None false 0 1 false Sim.w9
     = process_photos Sim.gpx_file Sim.photos_dir false false (Some 600%float) false
                      0 1 false Sim.w9.
Proof.
  split; [reflexivity |].
  exact (adaptive_max_time_diff_bounds Sim.gpx_file Sim.photos_dir false false false
           0 1 false Sim.w9 Sim.trace_points
           (GPXParser.mk Sim.gpx_file Sim.trace_points) eq_refl).
Defined.

(** * More on [GPSMatcher] *)

(** X6.  With [--force-interpolate] a photo is never refused: on a trace
    that is not empty [find_gps_for_photo] returns a position for every
    photo time, whatever the tolerance and however the trace is ordered. *)
Theorem force_interpolate_always_matches (self : GPSMatcher.t) (photo_time : datetime) :
  GPSMatcher.trackpoints self <> [] ->
  GPSMatcher.force_interpolate self = true ->
  exists position, GPSMatcher.find_gps_for_photo self photo_time = Some position.
Proof.
  intros Hne Hforce. unfold GPSMatcher.find_gps_for_photo. rewrite Hforce.
  destruct (GPSMatcher.trackpoints self) as [| first rest]; [contradiction |].
  destruct (GPSMatcher.scan (first :: rest) photo_time None) as [[before |] [after |]];
    cbn [negb andb orb]; eauto.
  destruct (_ =? 0)%float; eauto.
Qed.

(** A photo taken long after a one-point trace, with a tolerance of zero. *)
Lemma force_interpolate_always_matches_witness :
  exists position,
    GPSMatcher.find_gps_for_photo (GPSMatcher.mk [Sim.p60] 0 true) Sim.t5000
    = Some position.
Proof.
  apply (force_interpolate_always_matches (GPSMatcher.mk [Sim.p60] 0 true) Sim.t5000).
  - discriminate.
  - reflexivity.
Defined.

(** X7.  With [--force-interpolate] the tolerance has no part in the result:
    two matchers over the same trace that differ in [max_time_diff] only
    return the same for every photo time. *)
Theorem force_interpolate_ignores_tolerance (trackpoints : list GPSTrackPoint)
    (tolerance tolerance' : float) (photo_time : datetime) :
  GPSMatcher.find_gps_for_photo (GPSMatcher.mk trackpoints tolerance true) photo_time
  = GPSMatcher.find_gps_for_photo (GPSMatcher.mk trackpoints tolerance' true) photo_time.
Proof.
  unfold GPSMatcher.find_gps_for_photo.
  cbn [GPSMatcher.trackpoints GPSMatcher.force_interpolate GPSMatcher.max_time_diff].
  destruct trackpoints as [| first rest]; [reflexivity |].
  destruct (GPSMatcher.scan (first :: rest) photo_time None) as [[before |] [after |]];
    reflexivity.
Qed.

Section FloatOrder.
Local Open Scope Z_scope.

Ltac compare_cases :=
  repeat match goal with
  | H : context [(?a ?= ?b)%Z] |- _ => destruct (Z.compare_spec a b)
  | |- context [(?a ?= ?b)%Z] => destruct (Z.compare_spec a b)
  | H : context [(?a ?= ?b)%positive] |- _ => destruct (Pos.compare_spec a b)
  | |- context [(?a ?= ?b)%positive] => destruct (Pos.compare_spec a b)
  end.

Lemma SFleb_ltb_trans (x y z : spec_float) :
  SFleb x y = true -> SFltb y z = true -> SFltb x z = true.
Proof.
  unfold SFleb, SFltb.
  destruct x as [[] | [] | | [] mx ex], y as [[] | [] | | [] my ey],
           z as [[] | [] | | [] mz ez];
    cbn; try discriminate; try reflexivity;
    rewrite ?Pos.compare_cont_spec; unfold Pos.switch_Eq;
    intros H1 H2; compare_cases; cbn in *; try discriminate; try reflexivity; try lia.
Qed.

Lemma SFleb_trans (x y z : spec_float) :
  SFleb x y = true -> SFleb y z = true -> SFleb x z = true.
Proof.
  unfold SFleb.
  destruct x as [[] | [] | | [] mx ex], y as [[] | [] | | [] my ey],
           z as [[] | [] | | [] mz ez];
    cbn; try discriminate; try reflexivity;
    rewrite ?Pos.compare_cont_spec; unfold Pos.switch_Eq;
    intros H1 H2; compare_cases; cbn in *; try discriminate; try reflexivity; try lia.
Qed.

(** [<=] on floats is transitive, and [x <= y < z] gives [x < z]. *)
Lemma leb_trans (x y z : float) :
  (x <=? y)%float = true -> (y <=? z)%float = true -> (x <=? z)%float = true.
Proof. rewrite !FloatAxioms.leb_spec. apply SFleb_trans. Qed.

Lemma leb_ltb_trans (x y z : float) :
  (x <=? y)%float = true -> (y <? z)%float = true -> (x <? z)%float = true.
Proof. rewrite FloatAxioms.leb_spec, !FloatAxioms.ltb_spec. apply SFleb_ltb_trans. Qed.

End FloatOrder.

(** X8.  A larger tolerance never loses a match and never moves one: what
    [find_gps_for_photo] returns under a tolerance it returns under every
    tolerance at least as large. *)
Theorem larger_tolerance_keeps_match (trackpoints : list GPSTrackPoint)
    (tolerance tolerance' : float) (force : bool) (photo_time : datetime)
    (position : GPSMatcher.position) :
  (tolerance <=? tolerance')%float = true ->
  GPSMatcher.find_gps_for_photo (GPSMatcher.mk trackpoints tolerance force) photo_time
  = Some position ->
  GPSMatcher.find_gps_for_photo (GPSMatcher.mk trackpoints tolerance' force) photo_time
  = Some position.
Proof.
  intros Hle. unfold GPSMatcher.find_gps_for_photo.
  cbn [GPSMatcher.trackpoints GPSMatcher.force_interpolate GPSMatcher.max_time_diff].
  destruct trackpoints as [| first rest]; [discriminate |].
  destruct (GPSMatcher.scan (first :: rest) photo_time None) as [[before |] [after |]].
  - destruct force; cbn [negb andb]; [auto |].
    destruct (tolerance <? _)%float eqn:E1; [discriminate |].
    destruct (tolerance' <? _)%float eqn:E2; [| auto].
    rewrite (leb_ltb_trans _ _ _ Hle E2) in E1. discriminate.
  - destruct force; cbn [orb]; [auto |].
    destruct (_ <=? tolerance)%float eqn:E1; [| discriminate].
    now rewrite (leb_trans _ _ _ E1 Hle).
  - destruct force; cbn [orb]; [auto |].
    destruct (_ <=? tolerance)%float eqn:E1; [| discriminate].
    now rewrite (leb_trans _ _ _ E1 Hle).
  - destruct force; cbn [orb]; [auto |].
    destruct (_ <=? tolerance)%float eqn:E1; [| discriminate].
    now rewrite (leb_trans _ _ _ E1 Hle).
Qed.

(** The specification's example, matched under [300 s], is matched at the
    same place under [600 s]. *)
Lemma larger_tolerance_keeps_match_witness :
  GPSMatcher.find_gps_for_photo (GPSMatcher.mk [Sim.p0; Sim.p60] 600 false) Sim.t30
  = Some (0.5%float, 0.5%float, None).
Proof.
  exact (larger_tolerance_keeps_match [Sim.p0; Sim.p60] 300 600 false Sim.t30
           (0.5%float, 0.5%float, None) eq_refl eq_refl).
Defined.

(** * More on [PhotoProcessor] *)

Section Caches.
Context `{Tools World}.

(** A read on a loaded record answers from the cache and keeps the record. *)
Lemma has_gps_data_loaded (self : PhotoProcessor.t) (w w' : World) :
  loaded self -> PhotoProcessor.has_gps_data self w' = PhotoProcessor.has_gps_data self w.
Proof.
  unfold loaded, PhotoProcessor.has_gps_data, PhotoProcessor._get_raw_info,
    PhotoProcessor._get_jpeg_exif_dict.
  destruct (PhotoProcessor.is_raw self); intros [x ->]; reflexivity.
Qed.

Lemma get_photo_timestamp_loaded (self : PhotoProcessor.t) (w w' : World) :
  loaded self ->
  PhotoProcessor.get_photo_timestamp self w' = PhotoProcessor.get_photo_timestamp self w.
Proof.
  unfold loaded, PhotoProcessor.get_photo_timestamp, PhotoProcessor.read_timestamp,
    PhotoProcessor._get_raw_info, PhotoProcessor._get_jpeg_exif_dict.
  destruct (PhotoProcessor.is_raw self); intros [x ->]; reflexivity.
Qed.

(** The check leaves a loaded record as it is. *)
Lemma has_gps_data_keeps_loaded (self : PhotoProcessor.t) (w : World) :
  loaded self -> snd (PhotoProcessor.has_gps_data self w) = self.
Proof.
  unfold loaded, PhotoProcessor.has_gps_data, PhotoProcessor._get_raw_info,
    PhotoProcessor._get_jpeg_exif_dict.
  destruct (PhotoProcessor.is_raw self); intros [x ->]; reflexivity.
Qed.

End Caches.

(** X9.  The metadata of a photo is loaded once.  When the GPS check has
    loaded it, a second check and the reading of the capture time answer
    from the record alone: in whatever state the files are by then, the
    check repeats its answer and the capture time is the one of the first
    load. *)
Theorem metadata_loaded_once `{Tools World} (self : PhotoProcessor.t) (w w' : World) :
  let checked := snd (PhotoProcessor.has_gps_data self w) in
  loaded checked ->
  PhotoProcessor.has_gps_data checked w' = PhotoProcessor.has_gps_data self w
  /\ PhotoProcessor.get_photo_timestamp checked w'
     = PhotoProcessor.get_photo_timestamp checked w.
Proof.
  intros checked Hloaded. split; [| now apply get_photo_timestamp_loaded].
  rewrite (has_gps_data_loaded checked w w' Hloaded).
  subst checked. revert Hloaded.
  unfold loaded, PhotoProcessor.has_gps_data, PhotoProcessor._get_raw_info,
    PhotoProcessor._get_jpeg_exif_dict.
  destruct (PhotoProcessor.is_raw self) eqn:Eraw.
  - destruct (PhotoProcessor._raw_info self) as [info |] eqn:Ecache.
    + cbn [snd]. rewrite Eraw, Ecache. reflexivity.
    + destruct (PhotoProcessor._run_exiftool_json self w) as [[info |] | e];
        cbn [snd PhotoProcessor.is_raw PhotoProcessor.set_raw_info
             PhotoProcessor._raw_info]; rewrite ?Eraw, ?Ecache;
        intros [x Hx]; try discriminate; reflexivity.
  - destruct (PhotoProcessor._jpeg_exif_dict self) as [d |] eqn:Ecache.
    + cbn [snd]. rewrite Eraw, Ecache. reflexivity.
    + destruct (piexif_load (PhotoProcessor.photo_path self) w) as [d | e];
        cbn [snd PhotoProcessor.is_raw PhotoProcessor.set_jpeg_exif_dict
             PhotoProcessor._jpeg_exif_dict]; rewrite ?Eraw, ?Ecache;
        intros [x Hx]; try discriminate; reflexivity.
Qed.

(** [b.arw] is checked in [Sim.w9]; then, in a world without any file, the
    check still answers and the capture time is still read. *)
Lemma metadata_loaded_once_witness :
  PhotoProcessor.has_gps_data
    (snd (PhotoProcessor.has_gps_data (PhotoProcessor.init Sim.b_arw 0) Sim.w9))
    (Sim.mk_world (Ok []) [])
  = PhotoProcessor.has_gps_data (PhotoProcessor.init Sim.b_arw 0) Sim.w9
  /\ PhotoProcessor.get_photo_timestamp
       (snd (PhotoProcessor.has_gps_data (PhotoProcessor.init Sim.b_arw 0) Sim.w9))
       (Sim.mk_world (Ok []) [])
     = PhotoProcessor.get_photo_timestamp
         (snd (PhotoProcessor.has_gps_data (PhotoProcessor.init Sim.b_arw 0) Sim.w9))
         Sim.w9.
Proof.
  apply (metadata_loaded_once (PhotoProcessor.init Sim.b_arw 0) Sim.w9
           (Sim.mk_world (Ok []) [])).
  vm_compute. eexists. reflexivity.
Defined.

Section JpegWrite.
Context `{Tools World}.

(** The IFD built for a write, whatever the conversions came to. *)
Lemma gps_ifd_of_inv (latitude longitude : float) (elevation : option float)
    (ifd : exif_ifd) :
  PhotoProcessor.gps_ifd_of latitude longitude elevation = Ok ifd ->
  exists lat lon : exif_value,
    let base : exif_ifd :=
      <[piexif.GPSLongitude := lon]>
      (<[piexif.GPSLongitudeRef := EStr (if (0 <=? longitude)%float then "E" else "W")]>
      (<[piexif.GPSLatitude := lat]>
      (<[piexif.GPSLatitudeRef :=
           EStr (if (0 <=? latitude)%float then "N" else "S")]> ∅))) in
    match elevation with
    | None => ifd = base
    | Some e =>
        exists alt : exif_value,
          ifd = <[piexif.GPSAltitude := alt]>
                (<[piexif.GPSAltitudeRef := EInt (if (0 <=? e)%float then 0 else 1)]>
                   base)
    end.
Proof.
  unfold PhotoProcessor.gps_ifd_of.
  destruct (PhotoProcessor._decimal_to_dms (abs latitude)) as [[[d1 m1] s1] | e1];
    [| discriminate].
  destruct (PhotoProcessor._decimal_to_dms (abs longitude)) as [[[d2 m2] s2] | e2];
    [| discriminate].
  cbn [mbind result_bind].
  destruct (PyFloat.int_of_float (s1 * 100)) as [a1 | e3]; [| discriminate].
  destruct (PyFloat.int_of_float (s2 * 100)) as [a2 | e4]; [| discriminate].
  cbn [mbind result_bind].
  destruct elevation as [e |].
  - destruct (PyFloat.int_of_float (abs e * 100)) as [a3 | e5]; [| discriminate].
    cbn [mbind result_bind]. intros [= <-]. eexists _, _, _. reflexivity.
  - intros [= <-]. eexists _, _. reflexivity.
Qed.

(** [int] of an infinite or NaN magnitude raises. *)
Lemma int_of_float_abs_not_finite (x : float) :
  ~ finite x -> exists e, PyFloat.int_of_float (abs x) = Raise e.
Proof.
  unfold finite, PyFloat.int_of_float. rewrite abs_spec.
  destruct (Prim2SF x); cbn; intros Hx; try (exfalso; apply Hx; exact I); eauto.
Qed.

Lemma gps_ifd_of_not_finite (latitude longitude : float) (elevation : option float) :
  ~ finite latitude \/ ~ finite longitude ->
  exists e, PhotoProcessor.gps_ifd_of latitude longitude elevation = Raise e.
Proof.
  intros Hnf. unfold PhotoProcessor.gps_ifd_of, PhotoProcessor._decimal_to_dms.
  destruct (PyFloat.int_of_float (abs latitude)) as [d1 |] eqn:E1; cbn [mbind result_bind];
    [| eauto].
  destruct (PyFloat.int_of_float ((abs latitude - PyFloat.Z2float d1) * 60))
    as [m1 |]; cbn [mbind result_bind]; [| eauto].
  destruct Hnf as [Hlat | Hlon].
  - destruct (int_of_float_abs_not_finite latitude Hlat) as [e He]. congruence.
  - destruct (int_of_float_abs_not_finite longitude Hlon) as [e ->].
    cbn [mbind result_bind]. eauto.
Qed.

End JpegWrite.

(** X10.  The GPS IFD written to a JPEG always holds the four latitude and
    longitude tags, and the two altitude tags exactly when an elevation is
    given; the sign of a coordinate goes into its reference tag, [N] or [E]
    from zero upwards and [S] or [W] below, and that of the elevation into
    the altitude reference, [0] or [1]. *)
Theorem gps_ifd_tags (latitude longitude : float) (elevation : option float)
    (ifd : exif_ifd) :
  PhotoProcessor.gps_ifd_of latitude longitude elevation = Ok ifd ->
  dom ifd
  = {[ piexif.GPSLatitudeRef; piexif.GPSLatitude;
       piexif.GPSLongitudeRef; piexif.GPSLongitude ]}
    ∪ (match elevation with
       | Some _ => {[ piexif.GPSAltitudeRef; piexif.GPSAltitude ]}
       | None => ∅
       end : gset Z)
  /\ ifd !! piexif.GPSLatitudeRef
     = Some (EStr (if (0 <=? latitude)%float then "N" else "S"))
  /\ ifd !! piexif.GPSLongitudeRef
     = Some (EStr (if (0 <=? longitude)%float then "E" else "W"))
  /\ ifd !! piexif.GPSAltitudeRef
     = match elevation with
       | Some e => Some (EInt (if (0 <=? e)%float then 0 else 1))
       | None => None
       end.
Proof.
  intros Hifd. destruct (gps_ifd_of_inv _ _ _ _ Hifd) as (lat & lon & Hshape).
  cbv zeta in Hshape. destruct elevation as [e |].
  - destruct Hshape as [alt ->].
    split; [rewrite !dom_insert_L, dom_empty_L; set_solver | repeat split].
  - subst ifd.
    split; [rewrite !dom_insert_L, dom_empty_L; set_solver | repeat split].
Qed.

(** Sydney, [33.5] degrees south and [151.25] east, [12.5 m] below sea level. *)
Lemma gps_ifd_tags_witness :
  exists ifd : exif_ifd,
    PhotoProcessor.gps_ifd_of (-33.5) 151.25 (Some (-12.5)%float) = Ok ifd
    /\ ifd !! piexif.GPSLatitudeRef = Some (EStr "S")
    /\ ifd !! piexif.GPSLongitudeRef = Some (EStr "E")
    /\ ifd !! piexif.GPSAltitudeRef = Some (EInt 1)
    /\ ifd !! piexif.GPSLatitude = Some (ERationals [(33, 1); (30, 1); (0, 100)]%Z).
Proof.
  eexists. split; [vm_compute; reflexivity |].
  pose proof (gps_ifd_tags (-33.5) 151.25 (Some (-12.5)%float) _ eq_refl)
    as (_ & Hlat & Hlon & Halt).
  split; [exact Hlat |]. split; [exact Hlon |]. split; [exact Halt |].
  vm_compute. reflexivity.
Defined.

(** The IFD of a write has a latitude. *)
Lemma gps_ifd_of_has_latitude (latitude longitude : float) (elevation : option float)
    (ifd : exif_ifd) :
  PhotoProcessor.gps_ifd_of latitude longitude elevation = Ok ifd ->
  is_Some (ifd !! piexif.GPSLatitude).
Proof.
  intros Hifd. destruct (gps_ifd_of_inv _ _ _ _ Hifd) as (lat & lon & Hshape).
  cbv zeta in Hshape. destruct elevation as [e |].
  - destruct Hshape as [alt ->]. exists lat. reflexivity.
  - subst ifd. exists lat. reflexivity.
Qed.

(** X11.  After a write to a JPEG that succeeded the record has dropped its
    cache: the next GPS check loads the file again and answers from what the
    file then holds. *)
Theorem jpg_write_then_check_reloads `{Tools World} (self self' : PhotoProcessor.t)
    (latitude longitude : float) (elevation : option float) (w w' w2 : World) :
  PhotoProcessor.is_raw self = false ->
  PhotoProcessor._write_gps_to_jpg self latitude longitude elevation w
  = (Ok (), self', w') ->
  fst (PhotoProcessor.has_gps_data self' w2) =
    match piexif_load (PhotoProcessor.photo_path self) w2 with
    | Ok exif_dict =>
        bool_decide (is_Some (default ∅ (exif_dict !! "GPS"%string)
                                !! piexif.GPSLatitude))
    | Raise _ => false
    end.
Proof.
  intros Hraw. unfold PhotoProcessor._write_gps_to_jpg.
  destruct (PhotoProcessor._get_jpeg_exif_dict self w) as [[d | e] self1] eqn:Eload;
    [| discriminate].
  assert (Hself1 : PhotoProcessor.photo_path self1 = PhotoProcessor.photo_path self
                   /\ PhotoProcessor.is_raw self1 = false).
  { revert Eload. unfold PhotoProcessor._get_jpeg_exif_dict.
    destruct (PhotoProcessor._jpeg_exif_dict self).
    - intros [= _ <-]. auto.
    - destruct (piexif_load _ w); intros [= _ <-]; auto. }
  destruct Hself1 as [Hpath Hraw1].
  destruct (PhotoProcessor.gps_ifd_of latitude longitude elevation) as [ifd | e];
    [| discriminate].
  destruct (piexif_insert _ _ w) as [[[] | e] w1]; [| discriminate].
  intros [= <- _]. unfold PhotoProcessor.has_gps_data, PhotoProcessor._get_jpeg_exif_dict.
  cbn [PhotoProcessor.is_raw PhotoProcessor.set_jpeg_exif_dict
       PhotoProcessor._jpeg_exif_dict PhotoProcessor.photo_path].
  rewrite Hraw1, Hpath.
  destruct (piexif_load (PhotoProcessor.photo_path self) w2); reflexivity.
Qed.

(** [i.jpeg] has no GPS; once written, the check on the same record reads
    the file as written and finds it. *)
Lemma jpg_write_then_check_reloads_witness :
  fst (PhotoProcessor.has_gps_data (PhotoProcessor.init Sim.i_jpeg 0) Sim.w_jpeg) = false
  /\ fst (PhotoProcessor.has_gps_data
            (snd (fst (PhotoProcessor._write_gps_to_jpg
                         (PhotoProcessor.init Sim.i_jpeg 0) 0.5 0.5 None Sim.w_jpeg)))
            (snd (PhotoProcessor._write_gps_to_jpg
                    (PhotoProcessor.init Sim.i_jpeg 0) 0.5 0.5 None Sim.w_jpeg)))
     = true.
Proof.
  split; [vm_compute; reflexivity |].
  rewrite (jpg_write_then_check_reloads (PhotoProcessor.init Sim.i_jpeg 0)
             (snd (fst (PhotoProcessor._write_gps_to_jpg
                          (PhotoProcessor.init Sim.i_jpeg 0) 0.5 0.5 None Sim.w_jpeg)))
             0.5 0.5 None Sim.w_jpeg
             (snd (PhotoProcessor._write_gps_to_jpg
                     (PhotoProcessor.init Sim.i_jpeg 0) 0.5 0.5 None Sim.w_jpeg))).
  - vm_compute. reflexivity.
  - reflexivity.
  - vm_compute. reflexivity.
Defined.

(** X12.  When [piexif] fails to write a JPEG, the record is left with the
    GPS IFD already put into its cached dictionary: from then on the GPS
    check on that record answers true, whatever the file holds. *)
Theorem jpg_failed_write_claims_gps `{Tools World} (self self1 : PhotoProcessor.t)
    (latitude longitude : float) (elevation : option float) (w w2 : World)
    (exif_dict : exif_dict) (ifd : exif_ifd) (e : exception) :
  PhotoProcessor.is_raw self = false ->
  PhotoProcessor._get_jpeg_exif_dict self w = (Ok exif_dict, self1) ->
  PhotoProcessor.gps_ifd_of latitude longitude elevation = Ok ifd ->
  fst (piexif_insert (<["GPS"%string := ifd]> exif_dict)
                     (PhotoProcessor.photo_path self) w) = Raise e ->
  fst (fst (PhotoProcessor._write_gps_to_jpg self latitude longitude elevation w))
  = Raise e
  /\ fst (PhotoProcessor.has_gps_data
            (snd (fst (PhotoProcessor._write_gps_to_jpg self latitude longitude
                                                       elevation w))) w2)
     = true.
Proof.
  intros Hraw Eload Hifd Hins. unfold PhotoProcessor._write_gps_to_jpg.
  assert (Hself1 : PhotoProcessor.photo_path self1 = PhotoProcessor.photo_path self
                   /\ PhotoProcessor.is_raw self1 = false).
  { revert Eload. unfold PhotoProcessor._get_jpeg_exif_dict.
    destruct (PhotoProcessor._jpeg_exif_dict self).
    - intros [= _ <-]. auto.
    - destruct (piexif_load _ w); intros [= _ <-]; auto. }
  destruct Hself1 as [Hpath Hraw1].
  rewrite Eload, Hifd.
  cbn [PhotoProcessor.photo_path PhotoProcessor.set_jpeg_exif_dict]. rewrite Hpath.
  destruct (piexif_insert _ _ w) as [[[] | e'] w1]; cbn [fst] in Hins;
    [discriminate |].
  injection Hins as ->. cbn [fst snd]. split; [reflexivity |].
  unfold PhotoProcessor.has_gps_data, PhotoProcessor._get_jpeg_exif_dict.
  cbn [PhotoProcessor.is_raw PhotoProcessor._jpeg_exif_dict
       PhotoProcessor.set_jpeg_exif_dict]. rewrite Hraw1.
  cbn [fst]. rewrite lookup_insert_eq. cbn [default].
  apply bool_decide_eq_true.
  exact (gps_ifd_of_has_latitude _ _ _ _ Hifd).
Qed.

(** The read-only [h.jpg] has no GPS; the write fails, and the record says
    it has. *)
Lemma jpg_failed_write_claims_gps_witness :
  fst (PhotoProcessor.has_gps_data (PhotoProcessor.init Sim.h_jpg 0) Sim.w_jpeg) = false
  /\ fst (fst (PhotoProcessor._write_gps_to_jpg (PhotoProcessor.init Sim.h_jpg 0)
                                                0.5 0.5 None Sim.w_jpeg))
     = Raise (OSError "read-only file")
  /\ fst (PhotoProcessor.has_gps_data
            (snd (fst (PhotoProcessor._write_gps_to_jpg (PhotoProcessor.init Sim.h_jpg 0)
                                                        0.5 0.5 None Sim.w_jpeg)))
            Sim.w_jpeg)
     = true.
Proof.
  split; [vm_compute; reflexivity |].
  eapply (jpg_failed_write_claims_gps (PhotoProcessor.init Sim.h_jpg 0)).
  - reflexivity.
  - reflexivity.
  - vm_compute. reflexivity.
  - vm_compute. reflexivity.
Defined.

(** X13.  A latitude or longitude that is NaN or infinite is never written
    to a JPEG: the conversion to degrees, minutes and seconds raises, the
    exception stays in [write_gps_data], and the files are as before. *)
Theorem jpg_not_finite_never_written `{Tools World} (self : PhotoProcessor.t)
    (latitude longitude : float) (elevation : option float) (dry_run : bool)
    (w : World) :
  PhotoProcessor.is_raw self = false ->
  ~ finite latitude \/ ~ finite longitude ->
  snd (PhotoProcessor.write_gps_data self latitude longitude elevation dry_run w) = w.
Proof.
  intros Hraw Hnf. unfold PhotoProcessor.write_gps_data.
  destruct dry_run; [reflexivity |].
  unfold PhotoProcessor.write_attempt, PhotoProcessor._write_gps_to_jpg. rewrite Hraw.
  destruct (PhotoProcessor._get_jpeg_exif_dict self w) as [[d | e] self1];
    [| reflexivity].
  destruct (gps_ifd_of_not_finite latitude longitude elevation Hnf) as [e ->].
  reflexivity.
Qed.

Lemma jpg_not_finite_never_written_witness :
  snd (PhotoProcessor.write_gps_data (PhotoProcessor.init Sim.i_jpeg 0) nan 0.5 None
                                     false Sim.w_jpeg)
  = Sim.w_jpeg.
Proof.
  apply (jpg_not_finite_never_written (PhotoProcessor.init Sim.i_jpeg 0) nan 0.5 None
           false Sim.w_jpeg).
  - reflexivity.
  - left. intros Hf. exact Hf.
Defined.

(** X14.  For a file read through [exiftool], [EXIF:DateTimeOriginal] comes
    first: when its value, cut at the first dot, parses as a time, that time
    less the camera offset is the capture time, whatever the other
    candidate tags hold; and it is no capture time at all when taking off
    the offset fails. *)
Theorem raw_timestamp_prefers_original `{Tools World} (self : PhotoProcessor.t)
    (w : World) (info : exiftool_info) (dt : datetime) :
  PhotoProcessor.is_raw self = true ->
  fst (PhotoProcessor._get_raw_info self w) = Ok (Some info) ->
  PhotoProcessor.json_truthy (PhotoProcessor.info_get info "EXIF:DateTimeOriginal")
  = true ->
  strptime (PyStr.before_dot
              (py_str (PhotoProcessor.info_get info "EXIF:DateTimeOriginal")))
  = Some dt ->
  fst (PhotoProcessor.get_photo_timestamp self w) =
    match PhotoProcessor.to_utc self dt with
    | Ok utc => Some utc
    | Raise _ => None
    end.
Proof.
  intros Hraw Hinfo Htruthy Hparse.
  unfold PhotoProcessor.get_photo_timestamp, PhotoProcessor.read_timestamp.
  rewrite Hraw.
  destruct (PhotoProcessor._get_raw_info self w) as [r self1] eqn:Eget.
  cbn [fst] in Hinfo. subst r.
  assert (Hoff : PhotoProcessor.time_offset_seconds self1
                 = PhotoProcessor.time_offset_seconds self).
  { revert Eget. unfold PhotoProcessor._get_raw_info.
    destruct (PhotoProcessor._raw_info self).
    - now intros [= _ <-].
    - destruct (PhotoProcessor._run_exiftool_json self w); now intros [= _ <-]. }
  cbn [PhotoProcessor.candidates PhotoProcessor.first_candidate].
  rewrite Htruthy. cbn [negb]. rewrite Hparse.
  unfold PhotoProcessor.to_utc. rewrite Hoff.
  destruct (PyFloat.truthy (PhotoProcessor.time_offset_seconds self)); [| reflexivity].
  destruct (timedelta_seconds _) as [td | e]; cbn [mbind result_bind]; [| reflexivity].
  destruct (Datetime.sub_timedelta dt td); reflexivity.
Qed.

(** [f.tif] carries ["0001:01:01 05:33:20.50"]: the fraction is cut off and
    the time is [20000 s]. *)
Lemma raw_timestamp_prefers_original_witness :
  fst (PhotoProcessor.get_photo_timestamp (PhotoProcessor.init Sim.f_tif 0) Sim.w9)
  = Some Sim.t20000.
Proof.
  eapply (raw_timestamp_prefers_original (PhotoProcessor.init Sim.f_tif 0) Sim.w9).
  - reflexivity.
  - reflexivity.
  - vm_compute. reflexivity.
  - vm_compute. reflexivity.
Defined.

(** X15.  For a JPEG a [DateTimeOriginal] that is not empty and does not
    parse as a time leaves the photo without capture time, whatever its
    [DateTime] tag holds: the second tag is read only when the first is
    missing or empty. *)
Theorem jpg_unparsable_original_no_timestamp `{Tools World} (self : PhotoProcessor.t)
    (w : World) (exif_dict : exif_dict) (s : string) :
  PhotoProcessor.is_raw self = false ->
  fst (PhotoProcessor._get_jpeg_exif_dict self w) = Ok exif_dict ->
  default ∅ (exif_dict !! "Exif"%string) !! piexif.DateTimeOriginal = Some (EBytes s) ->
  s <> EmptyString ->
  strptime s = None ->
  fst (PhotoProcessor.get_photo_timestamp self w) = None.
Proof.
  intros Hraw Hload Htag Hne Hparse.
  unfold PhotoProcessor.get_photo_timestamp, PhotoProcessor.read_timestamp.
  rewrite Hraw.
  destruct (PhotoProcessor._get_jpeg_exif_dict self w) as [r self1].
  cbn [fst] in Hload. subst r. rewrite Htag.
  assert (Htruthy : PhotoProcessor.exif_truthy (EBytes s) = true).
  { cbn. destruct (String.eqb_spec s ""); [contradiction | reflexivity]. }
  unfold PhotoProcessor.exif_or. rewrite Htruthy, Htruthy.
  cbn [PhotoProcessor.decode mbind result_bind]. rewrite Hparse. reflexivity.
Qed.

(** [j.jpg]: [DateTimeOriginal] is ["yesterday"], [DateTime] a proper time. *)
Lemma jpg_unparsable_original_no_timestamp_witness :
  (exists d : exif_dict,
     piexif_load Sim.j_jpg Sim.w_jpeg = Ok d
     /\ default ∅ (d !! "Exif"%string) !! piexif.DateTime
        = Some (EBytes "0001:01:01 00:00:30"))
  /\ fst (PhotoProcessor.get_photo_timestamp (PhotoProcessor.init Sim.j_jpg 0) Sim.w_jpeg)
     = None.
Proof.
  split; [eexists; split; [reflexivity | vm_compute; reflexivity] |].
  eapply (jpg_unparsable_original_no_timestamp (PhotoProcessor.init Sim.j_jpg 0)
            Sim.w_jpeg).
  - reflexivity.
  - reflexivity.
  - vm_compute. reflexivity.
  - discriminate.
  - reflexivity.
Defined.

(** * More on [find_photos] *)

Section SortedOrder.
Context {A : Type} (lt : A -> A -> bool).
Hypothesis lt_asym : forall x y, lt x y = true -> lt y x = false.

(** No item of a sorted list is less than the one before it. *)
Lemma sorted_insert_Sorted (x : A) (l : list A) :
  Sorted (fun a b => lt b a = false) l ->
  Sorted (fun a b => lt b a = false) (sorted_insert lt x l).
Proof.
  induction l as [| y l IH]; intros Hs; cbn [sorted_insert].
  - repeat constructor.
  - apply Sorted_inv in Hs as [Hl Hhd].
    destruct (lt y x) eqn:Elt.
    + constructor; [auto |].
      destruct l as [| z l]; cbn [sorted_insert].
      * constructor. now apply lt_asym.
      * apply HdRel_inv in Hhd.
        destruct (lt z x); constructor; [assumption | now apply lt_asym].
    + constructor; [constructor; assumption | constructor; assumption].
Qed.

Lemma sorted_Sorted (l : list A) : Sorted (fun a b => lt b a = false) (sorted lt l).
Proof.
  induction l as [| x l IH]; cbn [sorted]; [constructor |].
  now apply sorted_insert_Sorted.
Qed.

End SortedOrder.

Section PathOrder.

Lemma path_ltb_asym (p q : Path) : PyPath.ltb p q = true -> PyPath.ltb q p = false.
Proof.
  revert q. induction p as [| a p IH]; intros [| b q]; cbn [PyPath.ltb];
    try congruence.
  rewrite (String.compare_antisym b a).
  destruct (String.compare a b); cbn [CompOpp]; try congruence. apply IH.
Qed.

(** A pattern made of a star and an extension matches the names that end
    with the extension. *)
Lemma fnmatch_star (nm ext : string) :
  PyPath.fnmatch nm ("*" ++ ext) = PyStr.endswith nm ext.
Proof. reflexivity. Qed.

End PathOrder.

(** X16.  [find_photos] returns exactly the entries of the directory, or of
    the tree below it when recursive, whose name ends with a supported
    extension written all in lower case or all in upper case. *)
Theorem find_photos_members `{Tools World} (directory : Path) (recursive : bool)
    (w : World) (p : Path) :
  In p (find_photos directory recursive w)
  <-> In p (scandir directory recursive w)
      /\ exists ext,
           In ext PhotoProcessor.SUPPORTED_EXTENSIONS
           /\ (PyStr.endswith (PyPath.name p) ext = true
               \/ PyStr.endswith (PyPath.name p) (PyStr.upper ext) = true).
Proof.
  unfold find_photos.
  set (photos := if recursive then _ else _).
  assert (Hphotos : In p photos
                    <-> exists ext,
                          In ext PhotoProcessor.SUPPORTED_EXTENSIONS
                          /\ (In p (List.filter
                                      (fun q => PyStr.endswith (PyPath.name q) ext)
                                      (scandir directory recursive w))
                              \/ In p (List.filter
                                         (fun q => PyStr.endswith (PyPath.name q)
                                                                  (PyStr.upper ext))
                                         (scandir directory recursive w)))).
  { subst photos. destruct recursive; rewrite in_flat_map;
      unfold rglob, glob; split; intros (ext & Hext & Hin); exists ext;
      (split; [exact Hext |]); apply in_app_or in Hin || apply in_or_app;
      exact Hin. }
  split.
  - intros Hin. apply (Permutation_in _ (sorted_Permutation PyPath.ltb photos)) in Hin.
    apply Hphotos in Hin as (ext & Hext & [Hin | Hin]);
      apply filter_In in Hin as [Hscan Hend]; eauto 6.
  - intros (Hscan & ext & Hext & Hend).
    apply (Permutation_in _ (Permutation_sym (sorted_Permutation PyPath.ltb photos))).
    apply Hphotos. exists ext. split; [exact Hext |].
    destruct Hend as [Hend | Hend]; [left | right]; apply filter_In; auto.
Qed.

(** X17.  The list [find_photos] returns is in path order: no path is less
    than the one before it. *)
Theorem find_photos_sorted `{Tools World} (directory : Path) (recursive : bool)
    (w : World) :
  Sorted (fun p q => PyPath.ltb q p = false) (find_photos directory recursive w).
Proof. unfold find_photos. apply sorted_Sorted. exact path_ltb_asym. Qed.

Section Suffixes.

Lemma append_nil (b : string) : ("" ++ b)%string = b.
Proof. reflexivity. Qed.

Lemma append_cons (c : ascii) (a b : string) :
  (String c a ++ b)%string = String c (a ++ b).
Proof. reflexivity. Qed.

Lemma string_length_app (a b : string) :
  String.length (a ++ b) = String.length a + String.length b.
Proof.
  induction a as [| c a IH]; rewrite ?append_nil, ?append_cons;
    cbn [String.length Nat.add]; [reflexivity | now rewrite IH].
Qed.

Lemma substring_all (s : string) : String.substring 0 (String.length s) s = s.
Proof.
  induction s as [| c s IH]; cbn [String.length String.substring];
    [reflexivity | now rewrite IH].
Qed.

Lemma substring_skip (pre suf : string) :
  String.substring (String.length pre) (String.length suf) (pre ++ suf) = suf.
Proof.
  induction pre as [| c pre IH]; rewrite ?append_nil, ?append_cons;
    cbn [String.length String.substring].
  - apply substring_all.
  - exact IH.
Qed.

Lemma endswith_app (pre suf : string) : PyStr.endswith (pre ++ suf) suf = true.
Proof.
  unfold PyStr.endswith. rewrite string_length_app.
  replace (String.length pre + String.length suf - String.length suf)
    with (String.length pre) by lia.
  rewrite substring_skip, String.eqb_refl.
  apply andb_true_iff. split; [apply Nat.leb_le; lia | reflexivity].
Qed.

Lemma endswith_split (s suf : string) :
  PyStr.endswith s suf = true -> exists pre, s = (pre ++ suf)%string.
Proof.
  unfold PyStr.endswith. intros Hend. apply andb_true_iff in Hend as [Hle Heq].
  apply Nat.leb_le in Hle. apply String.eqb_eq in Heq.
  revert Hle Heq. generalize (String.length suf) as k. intros k. revert suf.
  induction s as [| c s IH]; intros suf Hle Heq.
  - cbn in Hle. assert (k = 0) as -> by lia. cbn in Heq. subst suf. now exists ""%string.
  - cbn [String.length] in *.
    destruct (Nat.eq_dec k (S (String.length s))) as [-> | Hne].
    + rewrite Nat.sub_diag in Heq.
      change (S (String.length s)) with (String.length (String c s)) in Heq.
      rewrite substring_all in Heq. subst suf. now exists ""%string.
    + replace (S (String.length s) - k) with (S (String.length s - k)) in Heq by lia.
      cbn [String.substring] in Heq.
      destruct (IH suf ltac:(lia) Heq) as [pre ->].
      now exists (String c pre).
Qed.

Lemma app_suffixes (p1 s1 : string) : forall p2 s2 : string,
  (p1 ++ s1 = p2 ++ s2)%string -> String.length s1 <= String.length s2 ->
  exists p, s2 = (p ++ s1)%string.
Proof.
  induction p1 as [| c p1 IH]; intros p2 s2 Heq Hlen.
  - rewrite append_nil in Heq. subst s1. rewrite string_length_app in Hlen.
    destruct p2; cbn [String.length] in Hlen; [now exists ""%string | lia].
  - destruct p2 as [| c' p2].
    + rewrite append_nil in Heq. subst s2. now exists (String c p1).
    + rewrite !append_cons in Heq. injection Heq as _ Heq. now apply (IH p2).
Qed.

Lemma endswith_both (nm a b : string) :
  PyStr.endswith nm a = true -> PyStr.endswith nm b = true ->
  String.length a <= String.length b -> PyStr.endswith b a = true.
Proof.
  intros Ha Hb Hlen.
  destruct (endswith_split _ _ Ha) as [pa ->].
  destruct (endswith_split _ _ Hb) as [pb Hpb].
  destruct (app_suffixes pa a pb b Hpb Hlen) as [p ->]. apply endswith_app.
Qed.
End Suffixes.

Section NoDuplicates.

Lemma glob_suffixes_NoDup : List.NoDup glob_suffixes.
Proof.
  apply NoDup_ListNoDup.
  apply (bool_decide_unpack (NoDup glob_suffixes)). vm_compute. exact I.
Qed.

Lemma glob_suffix_unique (nm a b : string) :
  In a glob_suffixes -> In b glob_suffixes ->
  PyStr.endswith nm a = true -> PyStr.endswith nm b = true -> a = b.
Proof.
  assert (Htable : forallb (fun x => forallb (fun y =>
                      String.eqb x y || negb (PyStr.endswith y x)) glob_suffixes)
                     glob_suffixes = true) by (vm_compute; reflexivity).
  intros Ha Hb Hea Heb.
  rewrite forallb_forall in Htable.
  destruct (Nat.le_ge_cases (String.length a) (String.length b)) as [Hle | Hge].
  - pose proof (Htable a Ha) as Hrow. rewrite forallb_forall in Hrow.
    specialize (Hrow b Hb). rewrite (endswith_both nm a b Hea Heb Hle) in Hrow.
    rewrite orb_false_r in Hrow. now apply String.eqb_eq.
  - pose proof (Htable b Hb) as Hrow. rewrite forallb_forall in Hrow.
    specialize (Hrow a Ha). rewrite (endswith_both nm b a Heb Hea Hge) in Hrow.
    rewrite orb_false_r in Hrow. symmetry. now apply String.eqb_eq.
Qed.

(** Filters that exclude one another, over a list without duplicates, put
    together. *)
Lemma NoDup_flat_map_filter {K A : Type} (m : K -> A -> bool) (entries : list A) :
  List.NoDup entries ->
  forall ks : list K,
  List.NoDup ks ->
  (forall a k k', In k ks -> In k' ks -> m k a = true -> m k' a = true -> k = k') ->
  List.NoDup (flat_map (fun k => List.filter (m k) entries) ks).
Proof.
  intros Hentries. induction ks as [| k ks IH]; intros Hks Huniq; cbn [flat_map].
  - constructor.
  - apply List.NoDup_cons_iff in Hks as [Hk Hks].
    apply List.NoDup_app.
    + now apply List.NoDup_filter.
    + apply IH; [exact Hks |]. intros a k1 k2 H1 H2. apply Huniq; now right.
    + intros a Ha Hin. apply filter_In in Ha as [_ Hma].
      apply in_flat_map in Hin as (k' & Hk' & Hin).
      apply filter_In in Hin as [_ Hma'].
      assert (k = k') by (apply (Huniq a); [now left | now right | auto | auto]).
      subst k'. contradiction.
Qed.

Lemma flat_map_pairs {A B : Type} (f : A -> list B) (g1 g2 : string -> A)
    (exts : list string) :
  flat_map (fun ext => f (g1 ext) ++ f (g2 ext)) exts
  = flat_map f (flat_map (fun ext => [g1 ext; g2 ext]) exts).
Proof.
  induction exts as [| ext exts IH]; cbn [flat_map]; [reflexivity |].
  rewrite IH. cbn [app flat_map]. now rewrite <- app_assoc.
Qed.

End NoDuplicates.

(** X18.  With case-sensitive matching, [find_photos] lists no photo twice
    when the directory listing names none twice: no file name ends with two
    of the suffixes globbed for, so each file is found by one pattern at
    most. *)
Theorem find_photos_no_duplicates `{Tools World} (directory : Path) (recursive : bool)
    (w : World) :
  List.NoDup (scandir directory recursive w) ->
  List.NoDup (find_photos directory recursive w).
Proof.
  intros Hscan. unfold find_photos.
  apply (Permutation_NoDup (Permutation_sym (sorted_Permutation PyPath.ltb _))).
  assert (Hphotos :
    (if recursive
     then flat_map (fun ext => rglob directory ("*" ++ ext) w
                               ++ rglob directory ("*" ++ PyStr.upper ext) w)
                   PhotoProcessor.SUPPORTED_EXTENSIONS
     else flat_map (fun ext => glob directory ("*" ++ ext) w
                               ++ glob directory ("*" ++ PyStr.upper ext) w)
                   PhotoProcessor.SUPPORTED_EXTENSIONS)
    = flat_map (fun suf => List.filter (fun p => PyStr.endswith (PyPath.name p) suf)
                                       (scandir directory recursive w))
               glob_suffixes).
  { unfold glob_suffixes.
    rewrite <- (flat_map_pairs
                  (fun suf => List.filter (fun p => PyStr.endswith (PyPath.name p) suf)
                                          (scandir directory recursive w))
                  (fun ext => ext) PyStr.upper).
    destruct recursive; reflexivity. }
  rewrite Hphotos.
  apply (NoDup_flat_map_filter (fun suf p => PyStr.endswith (PyPath.name p) suf));
    [exact Hscan | exact glob_suffixes_NoDup |].
  intros p a b Ha Hb. apply glob_suffix_unique; assumption.
Qed.

(** The six photos of [Sim.w9]. *)
Lemma find_photos_no_duplicates_witness :
  List.NoDup (scandir Sim.photos_dir false Sim.w9)
  /\ List.NoDup (find_photos Sim.photos_dir false Sim.w9).
Proof.
  assert (Hscan : List.NoDup (scandir Sim.photos_dir false Sim.w9)).
  { apply NoDup_ListNoDup.
    apply (bool_decide_unpack (NoDup (scandir Sim.photos_dir false Sim.w9))).
    vm_compute. exact I. }
  split; [exact Hscan |].
  apply (find_photos_no_duplicates Sim.photos_dir false Sim.w9). exact Hscan.
Defined.

Section Runs.
Context `{Tools World}.

(** In a dry run the worker leaves the world as it is. *)
Lemma process_single_photo_dry_run (trackpoints : list GPSTrackPoint)
    (matcher : GPSMatcher.t) (overwrite_gps : bool) (time_offset_seconds : float)
    (photo_path : Path) (w : World) :
  snd (_process_single_photo trackpoints matcher overwrite_gps true
                             time_offset_seconds photo_path w) = w.
Proof.
  unfold _process_single_photo.
  destruct (if negb overwrite_gps then _ else _) as [[] processor]; [reflexivity |].
  destruct (PhotoProcessor.get_photo_timestamp processor w) as [[photo_time |] pr];
    [| reflexivity].
  destruct (GPSMatcher.find_gps_for_photo matcher photo_time) as [[[lat lon] ele] |].
  - reflexivity.
  - destruct trackpoints as [| first rest]; [reflexivity |].
    destruct (_ && _); reflexivity.
Qed.

(** A loop over workers that keep the world keeps it. *)
Lemma run_keeps_world (worker : Path -> World -> result PhotoResult.t * World) :
  (forall photo w, snd (worker photo w) = w) ->
  forall photos stats skipped w, snd (run worker photos stats skipped w) = w.
Proof.
  intros Hworker. induction photos as [| photo rest IH]; intros stats skipped w.
  - reflexivity.
  - cbn [run]. pose proof (Hworker photo w) as Hw.
    destruct (worker photo w) as [[res | e] w1]; cbn [snd] in Hw; subst w1.
    + destruct (accumulate stats skipped res) as [stats1 skipped1]. apply IH.
    + reflexivity.
Qed.

(** The counter of the photos skipped for the GPS data they have stays at
    zero through a loop over workers that never report that outcome. *)
Lemma run_skipped_has_gps (worker : Path -> World -> result PhotoResult.t * World) :
  (forall photo w res w', worker photo w = (Ok res, w') ->
     PhotoResult.skipped_has_gps res = 0%Z) ->
  forall photos stats skipped w stats' skipped' w',
  run worker photos stats skipped w = (Ok (stats', skipped'), w') ->
  Stats.skipped_has_gps stats' = Stats.skipped_has_gps stats.
Proof.
  intros Hworker.
  induction photos as [| photo rest IH]; intros stats skipped w stats' skipped' w'.
  - cbn [run]. now intros [= <- _ _].
  - cbn [run]. destruct (worker photo w) as [[res | e] w1] eqn:Ew; [| discriminate].
    apply Hworker in Ew. unfold accumulate. intros Hrun. apply IH in Hrun.
    rewrite Hrun. cbn [Stats.skipped_has_gps]. lia.
Qed.

Lemma process_single_photo_overwrite (trackpoints : list GPSTrackPoint)
    (matcher : GPSMatcher.t) (dry_run : bool) (time_offset_seconds : float)
    (photo_path : Path) (w w' : World) (res : PhotoResult.t) :
  _process_single_photo trackpoints matcher true dry_run time_offset_seconds
                        photo_path w = (Ok res, w') ->
  PhotoResult.skipped_has_gps res = 0%Z.
Proof.
  unfold _process_single_photo. cbn [negb].
  destruct (PhotoProcessor.get_photo_timestamp _ w) as [[photo_time |] pr].
  2: { now intros [= <- _]. }
  destruct (GPSMatcher.find_gps_for_photo matcher photo_time) as [[[lat lon] ele] |].
  { destruct (PhotoProcessor.write_gps_data pr lat lon ele dry_run w).
    now intros [= <- _]. }
  destruct trackpoints as [| first rest]; [discriminate |].
  destruct (_ && _); now intros [= <- _].
Qed.

End Runs.

(** X19.  A dry run leaves every file as it is: whatever the trace, the
    photos and the other options, [process_photos] with [dry_run] set ends in
    the world it started in, also where the tools would write. *)
Theorem dry_run_writes_nothing `{Tools World} (gpx_file photos_dir : Path)
    (overwrite_gps : bool) (max_time_diff : option float) (recursive : bool)
    (time_offset_seconds : float) (workers : Z) (force_interpolate : bool)
    (w : World) :
  snd (process_photos gpx_file photos_dir overwrite_gps true max_time_diff recursive
                      time_offset_seconds workers force_interpolate w) = w.
Proof.
  unfold process_photos.
  destruct (GPXParser.parse (GPXParser.init gpx_file) w) as [[[| tp tps] parser] | e];
    try reflexivity.
  destruct (find_photos photos_dir recursive w) as [| photo photos]; [reflexivity |].
  match goal with
  | |- snd (match run ?worker ?order ?stats ?skipped w with _ => _ end) = w =>
      pose proof (run_keeps_world worker
                    (process_single_photo_dry_run _ _ _ _) order stats skipped w) as Hrun;
      destruct (run worker order stats skipped w) as [[[stats' skipped'] | e] w']
  end; exact Hrun.
Qed.

(** X20.  With [overwrite_gps] set no photo is skipped for the GPS data it
    has: the summary's [skipped_has_gps] is zero. *)
Theorem overwrite_gps_skips_none `{Tools World} (gpx_file photos_dir : Path)
    (dry_run : bool) (max_time_diff : option float) (recursive : bool)
    (time_offset_seconds : float) (workers : Z) (force_interpolate : bool)
    (w w' : World) (stats : Stats.t) (skipped : list (Path * datetime)) :
  process_photos gpx_file photos_dir true dry_run max_time_diff recursive
                 time_offset_seconds workers force_interpolate w
  = (Ok (Summary stats skipped), w') ->
  Stats.skipped_has_gps stats = 0%Z.
Proof.
  unfold process_photos.
  destruct (GPXParser.parse (GPXParser.init gpx_file) w) as [[[| tp tps] parser] | e];
    try discriminate.
  destruct (find_photos photos_dir recursive w) as [| photo photos]; [discriminate |].
  match goal with
  | |- (match run ?worker ?order ?stats0 ?skipped0 w with _ => _ end) = _ -> _ =>
      destruct (run worker order stats0 skipped0 w) as [[[stats' skipped'] | e] w1]
        eqn:Erun; [| discriminate];
      apply (run_skipped_has_gps worker) in Erun;
        [| intros ? ? ? ?; apply process_single_photo_overwrite]
  end.
  intros [= <- _ _]. exact Erun.
Qed.

(** The six photos of [Sim.w9], of which [a.jpg] has GPS data: it is
    skipped without [overwrite_gps] and updated with it. *)
Lemma overwrite_gps_skips_none_witness :
  fst (process_photos Sim.gpx_file Sim.photos_dir false false None false 0 1 false
                      Sim.w9)
  = Ok (Summary (Stats.mk 6 2 1 1 2) [(Sim.e_heic, Sim.t5000)])
  /\ fst (process_photos Sim.gpx_file Sim.photos_dir true false None false 0 1 false
                         Sim.w9)
     = Ok (Summary (Stats.mk 6 3 0 1 2) [(Sim.e_heic, Sim.t5000)])
  /\ Stats.skipped_has_gps (Stats.mk 6 3 0 1 2) = 0%Z.
Proof.
  split; [vm_compute; reflexivity |]. split; [vm_compute; reflexivity |].
  apply (overwrite_gps_skips_none Sim.gpx_file Sim.photos_dir false None false 0 1
           false Sim.w9
           (snd (process_photos Sim.gpx_file Sim.photos_dir true false None false 0 1
                                false Sim.w9))
           (Stats.mk 6 3 0 1 2) [(Sim.e_heic, Sim.t5000)]).
  vm_compute. reflexivity.
Defined.

